(** * A-Z Globe service listings: the Express routes over the Mongoose models

    A shallow embedding of [routes/services.js], [middleware/auth.js] and
    [models/Service.js].  Handlers are functions from the collections and a
    request to a response and the new collections; [try]/[catch] blocks are
    written with an exception result type.  What the repository delegates to
    libraries it does not contain (token verification, the database's regular
    expression engine, Mongoose's number cast) is taken through the
    [Platform] class. *)

From Stdlib Require Import String Ascii List ZArith QArith Bool Lia.
From Stdlib Require Import Sorted Permutation.
Import ListNotations.
Open Scope string_scope.
Open Scope list_scope.
Open Scope Z_scope.

Set Implicit Arguments.

(** ** JavaScript strings and numbers *)

Module JS.

(** A string is kept as the UTF-8 encoding of its text, one [ascii] for a
    byte, which is how a literal of this file and the body of a request
    hold it.  (A JavaScript string with an unpaired surrogate has no such
    encoding and is outside the model.) *)

(** The UTF-16 code units of the code point a byte starts: a continuation
    byte starts none, the lead byte of a four-byte sequence (a code point
    beyond U+FFFF) a surrogate pair. *)
Definition units (c : ascii) : nat :=
  let n := nat_of_ascii c in
  if (n <? 128)%nat then 1%nat
  else if (n <? 192)%nat then 0%nat
  else if (n <? 240)%nat then 1%nat
  else 2%nat.

(** [s.length] *)
Fixpoint length (s : string) : nat :=
  match s with
  | EmptyString => 0%nat
  | String c r => (units c + length r)%nat
  end.

(** The matches of [/[\uD800-\uDBFF][\uDC00-\uDFFF]/g] in the string. *)
Fixpoint surrogatePairs (s : string) : nat :=
  match s with
  | EmptyString => 0%nat
  | String c r =>
      ((if (240 <=? nat_of_ascii c)%nat then 1 else 0) + surrogatePairs r)%nat
  end.

(** The matches of [/(\uFE0F|\uFE0E)/g]: the variation selectors U+FE0E and
    U+FE0F are the bytes EF B8 8E and EF B8 8F. *)
Fixpoint presentationSequences (s : string) : nat :=
  match s with
  | EmptyString => 0%nat
  | String a r =>
      ((match r with
        | String b (String c _) =>
            if ((nat_of_ascii a =? 239) && (nat_of_ascii b =? 184)
                && ((nat_of_ascii c =? 142) || (nat_of_ascii c =? 143)))%nat
            then 1
            else 0
        | _ => 0
        end) + presentationSequences r)%nat
  end.

(** The white space and line terminators that [String.prototype.trim],
    the class [\s] of a regular expression and [parseInt] strip.  The ones
    of one byte: TAB, LF, VT, FF, CR and SPACE. *)
Definition is_space (c : ascii) : bool :=
  match nat_of_ascii c with
  | 9%nat | 10%nat | 11%nat | 12%nat | 13%nat | 32%nat => true
  | _ => false
  end.

(** Of two bytes: U+00A0, the no-break space (C2 A0). *)
Definition is_space2 (a b : ascii) : bool :=
  ((nat_of_ascii a =? 194) && (nat_of_ascii b =? 160))%nat.

(** Of three bytes: U+1680 (E1 9A 80), U+2000 to U+200A (E2 80 80 to E2 80
    8A), U+2028 and U+2029 (E2 80 A8, E2 80 A9), U+202F (E2 80 AF), U+205F
    (E2 81 9F), U+3000 (E3 80 80) and U+FEFF (EF BB BF). *)
Definition is_space3 (a b c : ascii) : bool :=
  let x := nat_of_ascii a in
  let y := nat_of_ascii b in
  let z := nat_of_ascii c in
  ((x =? 225) && (y =? 154) && (z =? 128)
   || (x =? 226) && (y =? 128)
      && ((128 <=? z) && (z <=? 138) || (z =? 168) || (z =? 169) || (z =? 175))
   || (x =? 226) && (y =? 129) && (z =? 159)
   || (x =? 227) && (y =? 128) && (z =? 128)
   || (x =? 239) && (y =? 187) && (z =? 191))%nat.

Fixpoint trimStart (s : string) : string :=
  match s with
  | EmptyString => EmptyString
  | String a r =>
      if is_space a then trimStart r
      else
        match r with
        | EmptyString => s
        | String b r' =>
            if is_space2 a b then trimStart r'
            else
              match r' with
              | EmptyString => s
              | String c r'' => if is_space3 a b c then trimStart r'' else s
              end
        end
  end.

Fixpoint rev_append (s acc : string) : string :=
  match s with
  | EmptyString => acc
  | String c r => rev_append r (String c acc)
  end.

Definition reverse (s : string) : string := rev_append s EmptyString.

(** [trimStart] on the bytes read from the end. *)
Fixpoint trimStart_reversed (s : string) : string :=
  match s with
  | EmptyString => EmptyString
  | String c r =>
      if is_space c then trimStart_reversed r
      else
        match r with
        | EmptyString => s
        | String b r' =>
            if is_space2 b c then trimStart_reversed r'
            else
              match r' with
              | EmptyString => s
              | String a r'' =>
                  if is_space3 a b c then trimStart_reversed r'' else s
              end
        end
  end.

Definition trimEnd (s : string) : string :=
  reverse (trimStart_reversed (reverse s)).

Definition trim (s : string) : string := trimEnd (trimStart s).

(** [!!s] for a string: only the empty string is falsy. *)
Definition truthy (s : string) : bool := negb (s =? "")%string.

(** [!!x] for a possibly undefined string. *)
Definition truthy_opt (o : option string) : bool :=
  match o with
  | Some s => truthy s
  | None => false
  end.

Definition startsWith (s p : string) : bool := String.prefix p s.

(** [s.split(sep)] for a one-character separator. *)
Fixpoint split (sep : ascii) (s : string) : list string :=
  match s with
  | EmptyString => [EmptyString]
  | String c r =>
      if Ascii.eqb c sep then EmptyString :: split sep r
      else match split sep r with
           | h :: t => String c h :: t
           | [] => [String c EmptyString]
           end
  end.

Definition toLowerChar (c : ascii) : ascii :=
  let n := nat_of_ascii c in
  if ((65 <=? n) && (n <=? 90))%nat then ascii_of_nat (n + 32) else c.

Fixpoint toLowerCase (s : string) : string :=
  match s with
  | EmptyString => EmptyString
  | String c r => String (toLowerChar c) (toLowerCase r)
  end.

(** [s.includes(p)] *)
Fixpoint includes (s p : string) : bool :=
  String.prefix p s ||
  match s with
  | EmptyString => false
  | String _ r => includes r p
  end.

(** A JavaScript number that came out of [parseInt] and of the arithmetic
    on such numbers: [NaN], an infinity, or a double that is an integer (an
    integer below 2^53 in absolute value, or the multiple of a power of two
    that has 53 significant bits).  The two zeros are one. *)
Inductive num := NaN | Int (z : Z) | Infinity (negative : bool).

(** The double nearest to an integer, a tie going to the even significand;
    an infinity when that would be 2^1024 or more. *)
Definition to_double (z : Z) : num :=
  let m := Z.abs z in
  if m <? 2 ^ 53 then Int z
  else
    let e := Z.log2 m - 52 in
    let q := Z.shiftr m e in
    let r := m - Z.shiftl q e in
    let half := Z.shiftl 1 (e - 1) in
    let q' := if (half <? r) || ((half =? r) && Z.odd q) then q + 1 else q in
    let v := Z.shiftl q' e in
    if 2 ^ 1024 <=? v then Infinity (z <? 0)
    else Int (if z <? 0 then - v else v).

Definition sub (a b : num) : num :=
  match a, b with
  | Int x, Int y => to_double (x - y)
  | Infinity s, Int _ => Infinity s
  | Int _, Infinity s => Infinity (negb s)
  | Infinity s, Infinity t => if Bool.eqb s t then NaN else Infinity s
  | _, _ => NaN
  end.

Definition mul (a b : num) : num :=
  match a, b with
  | Int x, Int y => to_double (x * y)
  | Infinity s, Int y | Int y, Infinity s =>
      if y =? 0 then NaN else Infinity (xorb s (y <? 0))
  | Infinity s, Infinity t => Infinity (xorb s t)
  | _, _ => NaN
  end.

Definition digit_value (c : ascii) : option Z :=
  let n := nat_of_ascii c in
  if ((48 <=? n) && (n <=? 57))%nat then Some (Z.of_nat (n - 48))
  else if ((97 <=? n) && (n <=? 102))%nat then Some (Z.of_nat (n - 87))
  else if ((65 <=? n) && (n <=? 70))%nat then Some (Z.of_nat (n - 55))
  else None.

(** The longest prefix of digits of the radix, read left to right;
    [None] when there is no digit at all. *)
Fixpoint digits (radix : Z) (s : string) (acc : option Z) : option Z :=
  match s with
  | EmptyString => acc
  | String c r =>
      match digit_value c with
      | Some d =>
          if d <? radix
          then digits radix r
                 (Some (match acc with Some a => a * radix + d | None => d end))
          else acc
      | None => acc
      end
  end.

Definition unsigned_int (s : string) : option Z :=
  match s with
  | String "0" (String "x" r) | String "0" (String "X" r) => digits 16 r None
  | _ => digits 10 s None
  end.

(** [parseInt(s)] with no radix argument. *)
Definition parseInt (s : string) : num :=
  let s := trimStart s in
  let '(neg, body) :=
    match s with
    | String "-" r => (true, r)
    | String "+" r => (false, r)
    | _ => (false, s)
    end in
  match unsigned_int body with
  | Some n => to_double (if neg then - n else n)
  | None => NaN
  end.

End JS.

(** ** Exceptions and the libraries outside the repository *)

Inductive Error :=
| CastError            (* Mongoose could not cast a value to its schema type *)
| ValidationError      (* a schema validator rejected a document or an update *)
| MongoServerError     (* the database rejected the command *)
| TypeError.           (* a property of [null]/[undefined] was read *)

Inductive result (A : Type) : Type :=
| Ok (a : A)
| Throw (e : Error).
Arguments Ok {A} a.
Arguments Throw {A} e.

Definition bind {A B : Type} (r : result A) (k : A -> result B) : result B :=
  match r with
  | Ok a => k a
  | Throw e => Throw e
  end.

Declare Scope result_scope.
Delimit Scope result_scope with result.
Notation "x <- r ;; k" := (bind r (fun x => k))
  (at level 100, r at next level, right associativity) : result_scope.

(** An ObjectId is kept as its canonical 24-digit lower-case hexadecimal
    string, which is what [toString()] returns. *)
Definition ObjectId := string.

Definition is_hex (c : ascii) : bool :=
  match JS.digit_value c with
  | Some _ => true
  | None => false
  end.

Fixpoint all_chars (p : ascii -> bool) (s : string) : bool :=
  match s with
  | EmptyString => true
  | String c r => p c && all_chars p r
  end.

(** Mongoose's cast of a route parameter or token claim to an ObjectId.
    (Older drivers also take any string of twelve bytes for one; nothing
    below reads a string of that length as an id.) *)
Definition castObjectId (s : string) : option ObjectId :=
  if ((String.length s =? 24)%nat && all_chars is_hex s)%bool
  then Some (JS.toLowerCase s)
  else None.

(** The payload of a verified token: [generateAuthToken] signs
    [{ id, userType }]; a token signed by anyone else with the same secret
    may lack the claim. *)
Record Decoded := { decoded_id : option string }.

Class Platform := {
  (** [process.env.JWT_SECRET] *)
  JWT_SECRET : string;
  (** [jwt.verify(token, secret)]: the decoded payload, or [None] when it
      throws (bad signature, expired, malformed). *)
  jwt_verify : string -> string -> option Decoded;
  (** The database's regular expression engine: [regex_compile pattern
      options] is the unanchored search of a compiled pattern, or [None]
      when the pattern does not compile. *)
  regex_compile : string -> string -> option (string -> bool);
  (** Mongoose's cast of a query value to the Number schema type, [None]
      when it throws. *)
  castNumber : string -> option Q;
  (** validator.js [isFloat] and [isInt] on the text of a query parameter:
      the number read, [None] when the text is not one. *)
  isFloat : string -> option Q;
  isInt : string -> option Z
}.

(** ** models/User.js *)

Module User.

Record t := {
  _id : ObjectId;
  firstName : string;
  lastName : string;
  email : string;
  password : option string;
  userType : string;
  isVerified : bool;
  isActive : bool
}.

(** [.select('-password')] *)
Definition select_minus_password (u : t) : t :=
  {| _id := _id u; firstName := firstName u; lastName := lastName u;
     email := email u; password := None; userType := userType u;
     isVerified := isVerified u; isActive := isActive u |}.

Fixpoint lookup (users : list t) (id : ObjectId) : option t :=
  match users with
  | [] => None
  | u :: rest => if (_id u =? id)%string then Some u else lookup rest id
  end.

(** [User.findById(id).select('-password')]; [findById(undefined)] is
    the query [{ _id: null }], which finds nothing. *)
Definition findById (users : list t) (id : option string) : result (option t) :=
  match id with
  | None => Ok None
  | Some s =>
      match castObjectId s with
      | None => Throw CastError
      | Some oid => Ok (option_map select_minus_password (lookup users oid))
      end
  end.

End User.

(** ** models/Service.js *)

Record Pricing := {
  type : option string;
  amount : option Q;
  currency : option string
}.

Module Service.

(** A stored document.  MongoDB documents may lack any path, so the paths
    the schema marks [required] are options here and the [required]
    validator checks them.  [extras] holds the paths whose values no
    property below looks into (tags, availability, media, ...), by name. *)
Record t := {
  _id : ObjectId;
  provider : option ObjectId;
  title : option string;
  description : option string;
  shortDescription : option string;
  category : option string;
  subcategory : option string;
  serviceType : string;
  duration : option Q;
  pricing : Pricing;
  cities : list string;               (* serviceArea.cities *)
  rating_average : Q;                 (* qualityRating.average *)
  isVerified : bool;
  status : string;
  isFeatured : bool;
  featuredUntil : option Z;
  viewCount : Z;
  createdAt : Z;
  updatedAt : Z;                      (* written by [timestamps: true] *)
  extras : list (string * string)
}.

Definition categories_enum : list string :=
  ["home_services"; "automotive"; "healthcare"; "education"; "technology";
   "beauty_wellness"; "professional_services"; "entertainment";
   "maintenance"; "consulting"; "other"].
Definition pricing_type_enum : list string :=
  ["fixed"; "hourly"; "per_unit"; "negotiable"].
Definition currency_enum : list string := ["NOK"; "EUR"; "USD"].
Definition serviceType_enum : list string :=
  ["one_time"; "recurring"; "subscription"; "consultation"].
Definition status_enum : list string :=
  ["active"; "inactive"; "suspended"; "pending_review"].

End Service.

Definition isIn (v : string) (l : list string) : bool :=
  existsb (String.eqb v) l.

Definition opt_all {A : Type} (p : A -> bool) (o : option A) : bool :=
  match o with
  | Some a => p a
  | None => true
  end.

Definition opt_some {A : Type} (p : A -> bool) (o : option A) : bool :=
  match o with
  | Some a => p a
  | None => false
  end.

(** The schema's [maxlength] validator compares [v.length]. *)
Definition maxlength (n : nat) (s : string) : bool := (JS.length s <=? n)%nat.

(** ** Request bodies

    [req.body] is the parsed JSON object: its schema paths in the order
    they were written, the last binding of a key winning as in
    [JSON.parse].  Keys that are not schema paths are dropped by the schema's
    strict mode wherever a body reaches a document, so they are not
    represented.  Values are typed as the schema declares them, so every
    cast of a body value succeeds; the [json] of an [other] path is such a
    value, which no validator of the schema inspects.  The counters, the
    rating block, the verification date and [_id] are left out: a body that
    carries them is outside this model. *)

Inductive OtherPath :=
| tags | availability | onSiteService | remoteService
| images | videos | documents.

Definition other_name (p : OtherPath) : string :=
  match p with
  | tags => "tags"
  | availability => "availability" | onSiteService => "onSiteService"
  | remoteService => "remoteService" | images => "images"
  | videos => "videos" | documents => "documents"
  end.

Module Field.

Inductive t :=
| provider (v : ObjectId)
| title (v : string)
| description (v : string)
| shortDescription (v : string)
| category (v : string)
| subcategory (v : string)
| serviceType (v : string)
| duration (v : Q)
| pricing (v : Pricing)
| serviceArea (cities : option (list string))
| isVerified (v : bool)
| status (v : string)
| isFeatured (v : bool)
| featuredUntil (v : Z)
| other (p : OtherPath) (json : string).

Definition key (f : t) : string :=
  match f with
  | provider _ => "provider"
  | title _ => "title"
  | description _ => "description"
  | shortDescription _ => "shortDescription"
  | category _ => "category"
  | subcategory _ => "subcategory"
  | serviceType _ => "serviceType"
  | duration _ => "duration"
  | pricing _ => "pricing"
  | serviceArea _ => "serviceArea"
  | isVerified _ => "isVerified"
  | status _ => "status"
  | isFeatured _ => "isFeatured"
  | featuredUntil _ => "featuredUntil"
  | other p _ => other_name p
  end.

End Field.

Definition Body := list Field.t.

Module Body.

(** [obj[k]] through a typed selector: the last binding wins. *)
Definition get {A : Type} (sel : Field.t -> option A) (b : Body) : option A :=
  fold_left (fun acc f => match sel f with Some v => Some v | None => acc end)
            b None.

Definition title : Body -> option string :=
  get (fun f => match f with Field.title v => Some v | _ => None end).
Definition description : Body -> option string :=
  get (fun f => match f with Field.description v => Some v | _ => None end).
Definition category : Body -> option string :=
  get (fun f => match f with Field.category v => Some v | _ => None end).
Definition pricing : Body -> option Pricing :=
  get (fun f => match f with Field.pricing v => Some v | _ => None end).
Definition serviceArea : Body -> option (option (list string)) :=
  get (fun f => match f with Field.serviceArea v => Some v | _ => None end).
Definition status : Body -> option string :=
  get (fun f => match f with Field.status v => Some v | _ => None end).

(** [body.pricing.type], [body.pricing.amount], [body.serviceArea.cities] *)
Definition pricing_type (b : Body) : option string :=
  match pricing b with Some p => type p | None => None end.
Definition pricing_amount (b : Body) : option Q :=
  match pricing b with Some p => amount p | None => None end.
Definition serviceArea_cities (b : Body) : option (list string) :=
  match serviceArea b with Some c => c | None => None end.

(** A sanitizer of a validation chain rewrites the field in place. *)
Definition sanitize (g : Field.t -> Field.t) (b : Body) : Body := map g b.

Definition trim_title (f : Field.t) : Field.t :=
  match f with Field.title v => Field.title (JS.trim v) | _ => f end.
Definition trim_description (f : Field.t) : Field.t :=
  match f with Field.description v => Field.description (JS.trim v) | _ => f end.

End Body.

(** ** Documents from bodies: casting, defaults, schema validators *)

Module Doc.
Import Service.

Definition set_viewCount (n : Z) (s : t) : t :=
  {| _id := _id s; provider := provider s; title := title s;
     description := description s; shortDescription := shortDescription s;
     category := category s; subcategory := subcategory s;
     serviceType := serviceType s; duration := duration s; pricing := pricing s; cities := cities s;
     rating_average := rating_average s; isVerified := isVerified s;
     status := status s; isFeatured := isFeatured s;
     featuredUntil := featuredUntil s; viewCount := n;
     createdAt := createdAt s; updatedAt := updatedAt s;
     extras := extras s |}.

Definition set_updatedAt (n : Z) (s : t) : t :=
  {| _id := _id s; provider := provider s; title := title s;
     description := description s; shortDescription := shortDescription s;
     category := category s; subcategory := subcategory s;
     serviceType := serviceType s; duration := duration s; pricing := pricing s; cities := cities s;
     rating_average := rating_average s; isVerified := isVerified s;
     status := status s; isFeatured := isFeatured s;
     featuredUntil := featuredUntil s; viewCount := viewCount s;
     createdAt := createdAt s; updatedAt := n;
     extras := extras s |}.

Fixpoint set_extra (k v : string) (l : list (string * string))
  : list (string * string) :=
  match l with
  | [] => [(k, v)]
  | (k', v') :: r =>
      if (k' =? k)%string then (k, v) :: r else (k', v') :: set_extra k v r
  end.

(** [doc.set(key, value)] for one body field; the schema's [trim] setter
    applies to [title] and [subcategory]. *)
Definition set (f : Field.t) (s : t) : t :=
  {| _id := _id s;
     provider := match f with Field.provider v => Some v | _ => provider s end;
     title := match f with Field.title v => Some (JS.trim v) | _ => title s end;
     description :=
       match f with Field.description v => Some v | _ => description s end;
     shortDescription :=
       match f with
       | Field.shortDescription v => Some v
       | _ => shortDescription s
       end;
     category := match f with Field.category v => Some v | _ => category s end;
     subcategory :=
       match f with
       | Field.subcategory v => Some (JS.trim v)
       | _ => subcategory s
       end;
     serviceType :=
       match f with Field.serviceType v => v | _ => serviceType s end;
     duration := match f with Field.duration v => Some v | _ => duration s end;
     pricing := match f with Field.pricing v => v | _ => pricing s end;
     cities :=
       match f with
       | Field.serviceArea (Some c) => c
       | Field.serviceArea None => []
       | _ => cities s
       end;
     rating_average := rating_average s;
     isVerified := match f with Field.isVerified v => v | _ => isVerified s end;
     status := match f with Field.status v => v | _ => status s end;
     isFeatured := match f with Field.isFeatured v => v | _ => isFeatured s end;
     featuredUntil :=
       match f with
       | Field.featuredUntil v => Some v
       | _ => featuredUntil s
       end;
     viewCount := viewCount s;
     createdAt := createdAt s;
     updatedAt := updatedAt s;
     extras :=
       match f with
       | Field.other p json => set_extra (other_name p) json (extras s)
       | _ => extras s
       end |}.

(** The schema defaults of a fresh document.  Both dates have the default
    [Date.now]; on the first save the timestamps hook sets [updatedAt] to
    the value of [createdAt]. *)
Definition defaults (id : ObjectId) (now : Z) : t :=
  {| _id := id; provider := None; title := None; description := None;
     shortDescription := None; category := None; subcategory := None;
     serviceType := "one_time"; duration := None;
     pricing := {| type := None; amount := None; currency := Some "NOK" |};
     cities := []; rating_average := 0%Q; isVerified := false;
     status := "pending_review"; isFeatured := false;
     featuredUntil := None; viewCount := 0; createdAt := now;
     updatedAt := now; extras := [] |}.

Definition set_all (b : Body) (s : t) : t :=
  fold_left (fun d f => set f d) b s.

(** A nested path that was assigned keeps the defaults of the sub-paths the
    assignment left out. *)
Definition default_currency (s : t) : t :=
  match currency (pricing s) with
  | Some _ => s
  | None =>
      set (Field.pricing {| type := type (pricing s);
                            amount := amount (pricing s);
                            currency := Some "NOK" |}) s
  end.

(** [new Service(data)] *)
Definition new (id : ObjectId) (now : Z) (data : Body) : t :=
  default_currency (set_all data (defaults id now)).

(** What Mongoose builds from a stored document: the schema defaults fill
    the paths the stored document lacks; of the paths kept here, that is
    [pricing.currency]. *)
Definition hydrate (s : t) : t := default_currency s.

Definition required (o : option string) : bool := opt_some JS.truthy o.

Definition validate_pricing (p : Pricing) : bool :=
  opt_all (fun v => isIn v pricing_type_enum) (type p)
  && opt_all (fun a => Qle_bool 0 a) (amount p)
  && opt_all (fun c => isIn c currency_enum) (currency p).

(** The schema validators of [models/Service.js], as [save()] runs them
    over the whole document. *)
Definition validate (s : t) : bool :=
  opt_some (fun _ => true) (provider s)
  && required (title s) && opt_all (maxlength 100) (title s)
  && required (description s) && opt_all (maxlength 1000) (description s)
  && opt_all (maxlength 200) (shortDescription s)
  && required (category s) && opt_all (fun c => isIn c categories_enum) (category s)
  && isIn (serviceType s) serviceType_enum
  && opt_all (fun d => Qle_bool 15 d) (duration s)
  && opt_some (fun _ => true) (type (pricing s))
  && opt_some (fun _ => true) (amount (pricing s))
  && validate_pricing (pricing s)
  && Qle_bool 0 (rating_average s) && Qle_bool (rating_average s) 5
  && isIn (status s) status_enum.

(** The validators [runValidators: true] runs for one path of an update:
    only the paths the update sets are checked.  An update that sets the
    nested [pricing] as a whole sets every path below it, the ones its
    object leaves out to [undefined], so the [required] validators of
    [pricing.type] and [pricing.amount] run on them. *)
Definition validate_update_field (f : Field.t) : bool :=
  match f with
  | Field.title v => JS.truthy (JS.trim v) && maxlength 100 (JS.trim v)
  | Field.description v => JS.truthy v && maxlength 1000 v
  | Field.shortDescription v => maxlength 200 v
  | Field.category v => JS.truthy v && isIn v categories_enum
  | Field.serviceType v => isIn v serviceType_enum
  | Field.duration d => Qle_bool 15 d
  | Field.pricing p =>
      opt_some (fun _ => true) (type p) && opt_some (fun _ => true) (amount p)
      && validate_pricing p
  | Field.status v => isIn v status_enum
  | _ => true
  end.

End Doc.

(** ** Requests, responses, collections *)

Module Query.
(** [req.query], each parameter a string when present. *)
Record t := {
  category : option string;
  city : option string;
  minPrice : option string;
  maxPrice : option string;
  rating : option string;
  page : option string;
  limit : option string;
  sort : option string
}.
End Query.

(** The methods the router has routes for; a request with another method
    is outside the model. *)
Inductive Method := GET | POST | PUT | DELETE.

Record Request := {
  method : Method;
  path : list string;              (* the segments below the mount point *)
  authorization : option string;   (* req.headers.authorization *)
  cookie_token : option string;    (* req.cookies.token *)
  query : Query.t;
  body : Body;
  user : option User.t;            (* req.user *)
  validation_errors : list string  (* what the validation chains recorded *)
}.

Definition with_user (u : User.t) (r : Request) : Request :=
  {| method := method r; path := path r; authorization := authorization r;
     cookie_token := cookie_token r; query := query r; body := body r;
     user := Some u; validation_errors := validation_errors r |}.

(** The validation chains of a route, run together: the sanitized body and
    the errors they recorded. *)
Definition with_validation (b : Body) (errs : list string) (r : Request) : Request :=
  {| method := method r; path := path r; authorization := authorization r;
     cookie_token := cookie_token r; query := query r; body := b;
     user := user r; validation_errors := errs |}.

Record Category := { id : string; name : string; icon : string }.

Record Pagination := {
  currentPage : JS.num;
  totalServices : Z
}.

Inductive Json :=
| errors_json (errors : list string)
| message_json (success : bool) (message : string)
| service_json (message : option string) (service : option Service.t)
| services_json (services : list Service.t) (pagination : option Pagination)
| categories_json (categories : list Category)
| error_json (error : string).       (* the application's error handler *)

Record Response := { code : Z; json : Json }.

Record Collections := {
  users : list User.t;
  services : list Service.t
}.

Definition with_services (l : list Service.t) (db : Collections) : Collections :=
  {| users := users db; services := l |}.

(** What a middleware does: answer, or pass the request on. *)
Inductive Step :=
| Respond (r : Response)
| Next (req : Request).

(** ** middleware/auth.js *)

Section Auth.
Context {P : Platform}.

(** The token of a request: the second space-separated word of an
    [Authorization] header that starts with [Bearer], else the [token]
    cookie; [None] is [undefined]. *)
Definition extract_token (req : Request) : option string :=
  if JS.truthy_opt (authorization req)
     && opt_some (fun h => JS.startsWith h "Bearer") (authorization req)
  then match authorization req with
       | Some h => nth_error (JS.split " " h) 1
       | None => None
       end
  else if JS.truthy_opt (cookie_token req) then cookie_token req
  else None.

Definition unauthorized (msg : string) : Step :=
  Respond {| code := 401; json := message_json false msg |}.

Definition forbidden (msg : string) : Step :=
  Respond {| code := 403; json := message_json false msg |}.

Definition please_login : string :=
  "Not authorized to access this route. Please login.".

Definition protect (db : Collections) (req : Request) : Step :=
  let token := extract_token req in
  if negb (JS.truthy_opt token) then unauthorized please_login
  else
    match token with
    | None => unauthorized please_login
    | Some tok =>
        match jwt_verify tok JWT_SECRET with
        | None => unauthorized please_login
        | Some decoded =>
            match User.findById (users db) (decoded_id decoded) with
            | Throw _ => unauthorized please_login
            | Ok None => unauthorized "User not found. Please login again."
            | Ok (Some u) =>
                if negb (User.isActive u)
                then unauthorized
                       "Account is deactivated. Please contact support."
                else Next (with_user u req)
            end
        end
    end.

(** Reading [req.user.isVerified] with no [req.user] throws outside any
    [try]; the application's error handler answers. *)
Definition uncaught : Step :=
  Respond {| code := 500; json := error_json "Something went wrong!" |}.

Definition requireVerification (req : Request) : Step :=
  match user req with
  | Some u =>
      if negb (User.isVerified u)
      then forbidden
             "Account verification required. Please verify your email address."
      else Next req
  | None => uncaught
  end.

Definition requireServiceProvider (req : Request) : Step :=
  match user req with
  | Some u =>
      if negb (User.userType u =? "service_provider")%string
      then forbidden "This route is only accessible to service providers."
      else Next req
  | None => uncaught
  end.

Definition optionalAuth (db : Collections) (req : Request) : Step :=
  match extract_token req with
  | Some tok =>
      if JS.truthy tok then
        match jwt_verify tok JWT_SECRET with
        | Some decoded =>
            match User.findById (users db) (decoded_id decoded) with
            | Ok (Some u) => if User.isActive u then Next (with_user u req)
                             else Next req
            | _ => Next req
            end
        | None => Next req
        end
      else Next req
  | None => Next req
  end.

(** Running a chain: the first middleware that answers ends it. *)
Definition and_then (s : Step) (k : Request -> Step) : Step :=
  match s with
  | Respond r => Respond r
  | Next req => k req
  end.

End Auth.

(** ** Queries on the Service collection

    The part of Mongoose and MongoDB the routes use: filter documents as
    lists of clauses, sort documents as lists of keys with a direction,
    [skip] and [limit]. *)

Module Mongo.
Import Service.

Inductive Clause :=
| provider_is (id : string)                   (* provider: id *)
| status_is (v : string)                      (* status: v *)
| isVerified_is (v : bool)                    (* isVerified: v *)
| category_is (v : string)                    (* category: v *)
| cities_regex (pattern options : string)     (* 'serviceArea.cities': { $regex, $options } *)
| amount_range (gte lte : option string)      (* 'pricing.amount': { $gte, $lte } *)
| rating_gte (v : string)                     (* 'qualityRating.average': { $gte } *)
| isFeatured_is (v : bool)                    (* isFeatured: v *)
| isFeatured_ne (v : bool).                   (* isFeatured: { $ne: v } *)

Definition Filter := list Clause.

(** A clause after the casts to the schema types. *)
Inductive Cast :=
| c_provider (id : ObjectId)
| c_status (v : string)
| c_isVerified (v : bool)
| c_category (v : string)
| c_cities (re : string -> bool)
| c_amount (gte lte : option Q)
| c_rating (v : Q)
| c_isFeatured (v : bool)
| c_isFeatured_ne (v : bool).

Inductive SortKey := by_amount | by_rating | by_createdAt | by_featuredUntil | by_isFeatured.
Inductive Dir := asc | desc.
Definition Sort := list (SortKey * Dir).

Section Engine.
Context {P : Platform}.

Definition cast_number (o : option string) : result (option Q) :=
  match o with
  | None => Ok None
  | Some s =>
      match castNumber s with
      | Some q => Ok (Some q)
      | None => Throw CastError
      end
  end.

Definition cast_clause (c : Clause) : result Cast :=
  match c with
  | provider_is id =>
      match castObjectId id with
      | Some oid => Ok (c_provider oid)
      | None => Throw CastError
      end
  | status_is v => Ok (c_status v)
  | isVerified_is v => Ok (c_isVerified v)
  | category_is v => Ok (c_category v)
  | cities_regex pattern options =>
      match regex_compile pattern options with
      | Some re => Ok (c_cities re)
      | None => Throw MongoServerError
      end
  | amount_range gte lte =>
      (g <- cast_number gte ;;
       l <- cast_number lte ;;
       Ok (c_amount g l))%result
  | rating_gte v =>
      match castNumber v with
      | Some q => Ok (c_rating q)
      | None => Throw CastError
      end
  | isFeatured_is v => Ok (c_isFeatured v)
  | isFeatured_ne v => Ok (c_isFeatured_ne v)
  end.

Fixpoint cast_filter (f : Filter) : result (list Cast) :=
  match f with
  | [] => Ok []
  | c :: r =>
      (c' <- cast_clause c ;;
       r' <- cast_filter r ;;
       Ok (c' :: r'))%result
  end.

End Engine.

(** Does a document satisfy a clause?  A comparison with a missing number
    is false; a regular expression on an array path holds when one
    element matches. *)
Definition holds (c : Cast) (s : t) : bool :=
  match c with
  | c_provider id => opt_some (String.eqb id) (provider s)
  | c_status v => (status s =? v)%string
  | c_isVerified v => Bool.eqb (isVerified s) v
  | c_category v => opt_some (String.eqb v) (category s)
  | c_cities re => existsb re (cities s)
  | c_amount gte lte =>
      opt_some (fun a => opt_all (fun g => Qle_bool g a) gte
                         && opt_all (fun l => Qle_bool a l) lte)
               (amount (pricing s))
  | c_rating v => Qle_bool v (rating_average s)
  | c_isFeatured v => Bool.eqb (isFeatured s) v
  | c_isFeatured_ne v => negb (Bool.eqb (isFeatured s) v)
  end.

Definition matches (f : list Cast) (s : t) : bool :=
  forallb (fun c => holds c s) f.

(** The value a sort key reads; a missing value sorts below every number. *)
Definition sort_value (k : SortKey) (s : t) : option Q :=
  match k with
  | by_amount => amount (pricing s)
  | by_rating => Some (rating_average s)
  | by_createdAt => Some (inject_Z (createdAt s))
  | by_featuredUntil => option_map inject_Z (featuredUntil s)
  | by_isFeatured => Some (if isFeatured s then 1%Q else 0%Q)
  end.

Definition compare_value (a b : option Q) : comparison :=
  match a, b with
  | None, None => Eq
  | None, Some _ => Lt
  | Some _, None => Gt
  | Some x, Some y => (x ?= y)%Q
  end.

(** Lexicographic comparison along a sort document. *)
Fixpoint compare_by (o : Sort) (a b : t) : comparison :=
  match o with
  | [] => Eq
  | (k, d) :: r =>
      let c := compare_value (sort_value k a) (sort_value k b) in
      match (match d with asc => c | desc => CompOpp c end) with
      | Eq => compare_by r a b
      | c' => c'
      end
  end.

(** [a] may come before [b]. *)
Definition before (o : Sort) (a b : t) : bool :=
  match compare_by o a b with
  | Gt => false
  | _ => true
  end.

Fixpoint insert (o : Sort) (x : t) (l : list t) : list t :=
  match l with
  | [] => [x]
  | y :: r => if before o x y then x :: l else y :: insert o x r
  end.

(** Documents that compare equal keep their collection order. *)
Definition sort_by (o : Sort) (l : list t) : list t :=
  fold_right (insert o) [] l.

(** [cursor.skip(n)]: the server rejects a negative or non-numeric skip. *)
Definition skip (n : JS.num) (l : list t) : result (list t) :=
  match n with
  | JS.Int z => if z <? 0 then Throw MongoServerError
                else Ok (skipn (Z.to_nat z) l)
  | JS.NaN | JS.Infinity _ => Throw MongoServerError
  end.

(** [cursor.limit(n)]: 0 is no limit, a negative limit is its absolute
    value, a non-numeric one is rejected. *)
Definition limit (n : JS.num) (l : list t) : result (list t) :=
  match n with
  | JS.Int z => if z =? 0 then Ok l else Ok (firstn (Z.to_nat (Z.abs z)) l)
  | JS.NaN | JS.Infinity _ => Throw MongoServerError
  end.

Fixpoint lookup (l : list t) (id : ObjectId) : option t :=
  match l with
  | [] => None
  | s :: r => if (_id s =? id)%string then Some s else lookup r id
  end.

(** [Service.findById(id)]: the document Mongoose builds from the stored
    one. *)
Definition findById (l : list t) (id : string) : result (option t) :=
  match castObjectId id with
  | None => Throw CastError
  | Some oid => Ok (option_map Doc.hydrate (lookup l oid))
  end.

(** Replace the stored document that has the id of [d]. *)
Fixpoint replace (d : t) (l : list t) : list t :=
  match l with
  | [] => []
  | s :: r => if (_id s =? _id d)%string then d :: r else s :: replace d r
  end.

(** [Service.findByIdAndDelete(id)] *)
Fixpoint remove (id : ObjectId) (l : list t) : list t :=
  match l with
  | [] => []
  | s :: r => if (_id s =? id)%string then r else s :: remove id r
  end.

End Mongo.

(** ** Document methods and model operations with their failures *)

Module Model.
Import Service.

(** [doc.save()] of a new document: the schema validators, then the
    insert, which the unique index on [_id] can reject. *)
Definition save_new (d : t) (l : list t) : result (list t) :=
  if negb (Doc.validate d) then Throw ValidationError
  else match Mongo.lookup l (_id d) with
       | Some _ => Throw MongoServerError
       | None => Ok (l ++ [d])
       end.

(** [doc.save()] of a loaded document that was modified, at clock reading
    [time]: the schema validators run first; then the timestamps hook sets
    [updatedAt], and what is written is what changed together with the
    defaults the load filled in.  The result is the document in memory once
    the save is done, and the collection. *)
Definition save (time : Z) (d : t) (l : list t) : result (t * list t) :=
  if negb (Doc.validate d) then Throw ValidationError
  else
    let d' := Doc.set_updatedAt time d in
    Ok (d', Mongo.replace d' l).

(** [this.viewCount += 1; return this.save()]: the document in memory when
    the method returns its promise, and what the save then does. *)
Definition incrementViewCount (time : Z) (d : t) (l : list t)
  : t * result (t * list t) :=
  let d' := Doc.set_viewCount (viewCount d + 1) d in
  (d', save time d' l).

(** [Service.findByIdAndUpdate(id, update, { new: true, runValidators:
    true })] at clock reading [time]: the update validators run before the
    command is sent; the command sets the paths of the update and, for
    [timestamps: true], [updatedAt] on the stored document; the answer is
    the document Mongoose builds from the stored one afterwards, [None]
    when there is none. *)
Definition findByIdAndUpdate (time : Z) (l : list t) (id : string)
           (update : Body) : result (option t * list t) :=
  match castObjectId id with
  | None => Throw CastError
  | Some oid =>
      if negb (forallb Doc.validate_update_field update)
      then Throw ValidationError
      else match Mongo.lookup l oid with
           | None => Ok (None, l)
           | Some d =>
               let d' := Doc.set_updatedAt time (Doc.set_all update d) in
               Ok (Some (Doc.hydrate d'), Mongo.replace d' l)
           end
  end.

(** [Service.findByIdAndDelete(id)] *)
Definition findByIdAndDelete (l : list t) (id : string) : result (list t) :=
  match castObjectId id with
  | None => Throw CastError
  | Some oid => Ok (Mongo.remove oid l)
  end.

Section Queries.
Context {P : Platform}.

(** [Service.find(filter).sort(order).skip(s).limit(n)]; [None] for a
    stage the query does not have.  The server filters, sorts and cuts the
    stored documents; Mongoose builds its documents from what comes back. *)
Definition find (f : Mongo.Filter) (order : Mongo.Sort)
           (s n : option JS.num) (l : list t) : result (list t) :=
  (cf <- Mongo.cast_filter f ;;
   let found := Mongo.sort_by order (filter (Mongo.matches cf) l) in
   skipped <- match s with
              | Some k => Mongo.skip k found
              | None => Ok found
              end ;;
   limited <- match n with
              | Some k => Mongo.limit k skipped
              | None => Ok skipped
              end ;;
   Ok (map Doc.hydrate limited))%result.

Definition countDocuments (f : Mongo.Filter) (l : list t) : result Z :=
  (cf <- Mongo.cast_filter f ;;
   Ok (Z.of_nat (length (filter (Mongo.matches cf) l))))%result.

End Queries.

End Model.

(** ** routes/services.js

    Each handler takes the collections and the request and gives the answer
    and the collections afterwards; its [catch] block is the 500 answer.
    [populate(...)] only swaps the provider reference for a few display
    fields of the user in the JSON that is sent; answers here carry the
    document with the reference. *)

(** What a request handler reads besides the request and the database: the
    clock when the defaults of a new document are applied, the ObjectId the
    driver generates for it, and the clock when the write of the document
    with a given id is stamped. *)
Record Runtime := {
  now : Z;
  newObjectId : ObjectId;
  savedAt : ObjectId -> Z
}.

Module Routes.

Definition Answer : Type := Response * Collections.

Definition reply (c : Z) (j : Json) (db : Collections) : Answer :=
  ({| code := c; json := j |}, db).

Definition server_error (msg : string) (db : Collections) : Answer :=
  reply 500 (message_json false msg) db.

(** validator.js [isLength] (as of 13.9): [str.length] less the variation
    selectors and the surrogate pairs, so that a code point beyond U+FFFF
    counts once. *)
Definition len (s : string) : nat :=
  (JS.length s - JS.presentationSequences s - JS.surrogatePairs s)%nat.

Definition isLength (lo hi : nat) (s : string) : bool :=
  ((lo <=? len s) && (len s <=? hi))%nat.

Definition check (ok : bool) (msg : string) : list string :=
  if ok then [] else [msg].

Definition isEmpty (errs : list string) : bool :=
  match errs with
  | [] => true
  | _ => false
  end.

(** *** POST / *)

(** The validation chains of the route: sanitizers rewrite the body, each
    failed validator records its message. *)
Definition create_chains (req : Request) : Step :=
  let b := Body.sanitize Body.trim_description
             (Body.sanitize Body.trim_title (body req)) in
  Next (with_validation b
    (check (opt_some (isLength 5 100) (Body.title b))
           "Service title must be between 5 and 100 characters"
     ++ check (opt_some (isLength 20 1000) (Body.description b))
           "Service description must be between 20 and 1000 characters"
     ++ check (opt_some (fun c => isIn c Service.categories_enum)
                        (Body.category b))
           "Invalid service category"
     ++ check (opt_some (fun t => isIn t Service.pricing_type_enum)
                        (Body.pricing_type b))
           "Invalid pricing type"
     ++ check (opt_some (Qle_bool 0) (Body.pricing_amount b))
           "Price must be a positive number"
     ++ check (opt_some (fun l => (1 <=? length l)%nat)
                        (Body.serviceArea_cities b))
           "At least one service area city is required")
    req).

(** [{ ...req.body, provider: req.user._id, status: 'pending_review' }] *)
Definition serviceData (u : User.t) (b : Body) : Body :=
  b ++ [Field.provider (User._id u); Field.status "pending_review"].

Definition create (rt : Runtime) (db : Collections) (req : Request) : Answer :=
  if negb (isEmpty (validation_errors req))
  then reply 400 (errors_json (validation_errors req)) db
  else
    match user req with
    | None => server_error "Server error while creating service" db
    | Some u =>
        let service :=
          Doc.new (newObjectId rt) (now rt) (serviceData u (body req)) in
        match Model.save_new service (services db) with
        | Throw _ => server_error "Server error while creating service" db
        | Ok l =>
            reply 201
              (service_json
                 (Some "Service created successfully and pending review")
                 (Some service))
              (with_services l db)
        end
    end.

(** *** GET / *)

Section List.
Context {P : Platform}.

(** The [query(...)] chains: they record errors and change nothing.
    ([isString] holds of every parameter that is a string, so the
    [category] and [city] chains record nothing.) *)
Definition list_chains (req : Request) : Step :=
  let q := query req in
  let float_in (lo : Q) (hi : option Q) (s : string) :=
    opt_some (fun v => Qle_bool lo v && opt_all (Qle_bool v) hi) (isFloat s) in
  let int_in (lo : Z) (hi : option Z) (s : string) :=
    opt_some (fun v => (lo <=? v) && opt_all (Z.leb v) hi) (isInt s) in
  Next (with_validation (body req)
    (check (opt_all (float_in 0%Q None) (Query.minPrice q)) "Invalid value"
     ++ check (opt_all (float_in 0%Q None) (Query.maxPrice q)) "Invalid value"
     ++ check (opt_all (float_in 0%Q (Some 5%Q)) (Query.rating q)) "Invalid value"
     ++ check (opt_all (int_in 1 None) (Query.page q)) "Invalid value"
     ++ check (opt_all (int_in 1 (Some 50)) (Query.limit q)) "Invalid value"
     ++ check (opt_all (fun s => isIn s ["price_asc"; "price_desc";
                                          "rating_desc"; "newest"; "oldest"])
                       (Query.sort q)) "Invalid value")
    req).

Definition when (c : bool) (cl : Mongo.Clause) : Mongo.Filter :=
  if c then [cl] else [].

Definition or_empty (o : option string) : string :=
  match o with
  | Some s => s
  | None => ""
  end.

(** [const filter = { status: 'active', isVerified: true }] and the
    conditional assignments that follow it. *)
Definition build_filter (q : Query.t) : Mongo.Filter :=
  [Mongo.status_is "active"; Mongo.isVerified_is true]
  ++ when (JS.truthy_opt (Query.category q))
          (Mongo.category_is (or_empty (Query.category q)))
  ++ when (JS.truthy_opt (Query.city q))
          (Mongo.cities_regex (or_empty (Query.city q)) "i")
  ++ when (JS.truthy_opt (Query.minPrice q) || JS.truthy_opt (Query.maxPrice q))
          (Mongo.amount_range
             (if JS.truthy_opt (Query.minPrice q) then Query.minPrice q else None)
             (if JS.truthy_opt (Query.maxPrice q) then Query.maxPrice q else None))
  ++ when (JS.truthy_opt (Query.rating q))
          (Mongo.rating_gte (or_empty (Query.rating q))).

(** The [switch (sort)] *)
Definition sortObj (sort : string) : Mongo.Sort :=
  if (sort =? "price_asc")%string then [(Mongo.by_amount, Mongo.asc)]
  else if (sort =? "price_desc")%string then [(Mongo.by_amount, Mongo.desc)]
  else if (sort =? "rating_desc")%string then [(Mongo.by_rating, Mongo.desc)]
  else if (sort =? "oldest")%string then [(Mongo.by_createdAt, Mongo.asc)]
  else [(Mongo.by_createdAt, Mongo.desc)].

(** A destructuring default applies to [undefined] only. *)
Definition default (d : string) (o : option string) : string :=
  match o with
  | Some s => s
  | None => d
  end.

Definition featuredFilter (q : Query.t) : Mongo.Filter :=
  build_filter q ++ [Mongo.isFeatured_is true].

Definition regularFilter (q : Query.t) : Mongo.Filter :=
  build_filter q ++ [Mongo.isFeatured_ne true].

Definition featuredServices (db : Collections) (q : Query.t)
  : result (list Service.t) :=
  Model.find (featuredFilter q)
             ((Mongo.by_featuredUntil, Mongo.desc)
                :: sortObj (default "newest" (Query.sort q)))
             None
             (Some (JS.parseInt (default "12" (Query.limit q))))
             (services db).

Definition regularServices (db : Collections) (q : Query.t)
  : result (list Service.t) :=
  let limit := JS.parseInt (default "12" (Query.limit q)) in
  let skip := JS.mul (JS.sub (JS.parseInt (default "1" (Query.page q)))
                             (JS.Int 1)) limit in
  Model.find (regularFilter q)
             (sortObj (default "newest" (Query.sort q)))
             (Some skip) (Some limit) (services db).

(** [services.forEach(service => service.incrementViewCount())]: every
    document in memory is bumped; the saves are not awaited, so the answer is
    written from the documents as they are before a save has stamped them,
    and a save that fails leaves the collection as it was. *)
Definition bump_all (rt : Runtime) (found : list Service.t)
           (l : list Service.t) : list Service.t * list Service.t :=
  fold_left
    (fun acc d =>
       let '(d', saved) :=
         Model.incrementViewCount (savedAt rt (Service._id d)) d (snd acc) in
       (fst acc ++ [d'],
        match saved with
        | Ok (_, l') => l'
        | Throw _ => snd acc
        end))
    found ([], l).

(** The pagination block keeps the two fields that are integers; the
    page count and the next/previous flags are floating point
    arithmetic on them and are left out. *)
Definition listServices (rt : Runtime) (db : Collections) (req : Request)
  : Answer :=
  let q := query req in
  match featuredServices db q with
  | Throw _ => server_error "Server error while fetching services" db
  | Ok featured =>
      match regularServices db q, Model.countDocuments (regularFilter q) (services db) with
      | Ok regular, Ok total =>
          let '(shown, l) := bump_all rt (featured ++ regular) (services db) in
          reply 200
            (services_json shown
               (Some {| currentPage := JS.parseInt (default "1" (Query.page q));
                        totalServices := total + Z.of_nat (length featured) |}))
            (with_services l db)
      | _, _ => server_error "Server error while fetching services" db
      end
  end.

End List.

(** *** GET /:id *)

Definition getById (rt : Runtime) (db : Collections) (id : string) : Answer :=
  match Mongo.findById (services db) id with
  | Throw _ => server_error "Server error while fetching service" db
  | Ok None => reply 404 (message_json false "Service not found") db
  | Ok (Some service) =>
      if negb (Service.status service =? "active")%string
      then reply 404 (message_json false "Service not available") db
      else
        match Model.incrementViewCount (savedAt rt (Service._id service))
                service (services db) with
        | (_, Throw _) => server_error "Server error while fetching service" db
        | (_, Ok (service', l)) =>
            reply 200 (service_json None (Some service')) (with_services l db)
        end
  end.

(** *** PUT /:id *)

Definition update_chains (req : Request) : Step :=
  let b := Body.sanitize Body.trim_description
             (Body.sanitize Body.trim_title (body req)) in
  Next (with_validation b
    (check (opt_all (isLength 5 100) (Body.title b))
           "Service title must be between 5 and 100 characters"
     ++ check (opt_all (isLength 20 1000) (Body.description b))
           "Service description must be between 20 and 1000 characters"
     ++ check (opt_all (Qle_bool 0) (Body.pricing_amount b))
           "Price must be a positive number")
    req).

Definition allowedUpdates : list string :=
  ["title"; "description"; "shortDescription"; "subcategory"; "tags";
   "duration"; "availability"; "pricing"; "serviceArea"; "onSiteService";
   "remoteService"; "images"; "videos"; "documents"].

(** [Object.keys(updates).filter(...).reduce(...)] *)
Definition filteredUpdates (updates : Body) : Body :=
  filter (fun f => isIn (Field.key f) allowedUpdates) updates.

(** [filteredUpdates.title || filteredUpdates.description ||
    filteredUpdates.pricing]; an object is truthy. *)
Definition significant (u : Body) : bool :=
  JS.truthy_opt (Body.title u)
  || JS.truthy_opt (Body.description u)
  || opt_some (fun _ => true) (Body.pricing u).

Definition with_reset (u : Body) : Body :=
  if significant u then u ++ [Field.status "pending_review"] else u.

Definition update (rt : Runtime) (db : Collections) (req : Request)
           (id : string) : Answer :=
  if negb (isEmpty (validation_errors req))
  then reply 400 (errors_json (validation_errors req)) db
  else
    match Mongo.findById (services db) id with
    | Throw _ => server_error "Server error while updating service" db
    | Ok None => reply 404 (message_json false "Service not found") db
    | Ok (Some service) =>
        match Service.provider service, user req with
        | Some owner, Some u =>
            if negb (owner =? User._id u)%string
            then reply 403
                   (message_json false "Not authorized to update this service")
                   db
            else
              match Model.findByIdAndUpdate
                      (savedAt rt (Service._id service)) (services db) id
                      (with_reset (filteredUpdates (body req))) with
              | Throw _ => server_error "Server error while updating service" db
              | Ok (updatedService, l) =>
                  reply 200
                    (service_json (Some "Service updated successfully")
                                  updatedService)
                    (with_services l db)
              end
        | _, _ => server_error "Server error while updating service" db
        end
    end.

(** *** DELETE /:id *)

Definition delete (db : Collections) (req : Request) (id : string) : Answer :=
  match Mongo.findById (services db) id with
  | Throw _ => server_error "Server error while deleting service" db
  | Ok None => reply 404 (message_json false "Service not found") db
  | Ok (Some service) =>
      match Service.provider service, user req with
      | Some owner, Some u =>
          if negb (owner =? User._id u)%string
          then reply 403
                 (message_json false "Not authorized to delete this service")
                 db
          else
            match Model.findByIdAndDelete (services db) id with
            | Throw _ => server_error "Server error while deleting service" db
            | Ok l =>
                reply 200 (message_json true "Service deleted successfully")
                      (with_services l db)
            end
      | _, _ => server_error "Server error while deleting service" db
      end
  end.

(** *** GET /provider/:providerId *)

Section ByProvider.
Context {P : Platform}.

Definition listByProvider (db : Collections) (providerId : string) : Answer :=
  match Model.find [Mongo.provider_is providerId; Mongo.status_is "active";
                    Mongo.isVerified_is true]
                   [(Mongo.by_isFeatured, Mongo.desc);
                    (Mongo.by_createdAt, Mongo.desc)]
                   None None (services db) with
  | Throw _ => server_error "Server error while fetching provider services" db
  | Ok found =>
      reply 200 (services_json found None) db
  end.

End ByProvider.

(** *** GET /categories *)

Definition categories : list Category :=
  [ {| id := "home_services"; name := "Home Services"; icon := "🏠" |};
    {| id := "automotive"; name := "Automotive"; icon := "🚗" |};
    {| id := "healthcare"; name := "Healthcare"; icon := "🏥" |};
    {| id := "education"; name := "Education"; icon := "📚" |};
    {| id := "technology"; name := "Technology"; icon := "💻" |};
    {| id := "beauty_wellness"; name := "Beauty & Wellness"; icon := "💄" |};
    {| id := "professional_services"; name := "Professional Services";
       icon := "💼" |};
    {| id := "entertainment"; name := "Entertainment"; icon := "🎭" |};
    {| id := "maintenance"; name := "Maintenance"; icon := "🔧" |};
    {| id := "consulting"; name := "Consulting"; icon := "📋" |};
    {| id := "other"; name := "Other"; icon := "✨" |} ].

Definition listCategories (db : Collections) : Answer :=
  reply 200 (categories_json categories) db.

End Routes.

(** ** The router

    Express tries the routes of a router in the order they were registered
    and runs the first whose method and path pattern match; every handler
    above answers, so no later route is tried.  A pattern segment is a
    literal, compared without case, or a named parameter, which takes any
    one segment. *)

Module Router.
Import Routes.

Inductive Seg :=
| lit (s : string)
| param (name : string).

Fixpoint match_path (pattern : list Seg) (p : list string)
  : option (list string) :=
  match pattern, p with
  | [], [] => Some []
  | lit s :: pattern', x :: p' =>
      if (JS.toLowerCase s =? JS.toLowerCase x)%string
      then match_path pattern' p'
      else None
  | param _ :: pattern', x :: p' =>
      option_map (cons x) (match_path pattern' p')
  | _, _ => None
  end.

Definition method_eqb (a b : Method) : bool :=
  match a, b with
  | GET, GET | POST, POST | PUT, PUT | DELETE, DELETE => true
  | _, _ => false
  end.

Definition Handler : Type :=
  Runtime -> Collections -> Request -> list string -> Answer.

Record Route := {
  verb : Method;
  pattern : list Seg;
  handler : Handler
}.

Definition run (s : Step) (db : Collections) (h : Request -> Answer) : Answer :=
  match s with
  | Respond r => (r, db)
  | Next req => h req
  end.

Definition first_param (params : list string) : string :=
  match params with
  | x :: _ => x
  | [] => ""
  end.

Section Table.
Context {P : Platform}.

Definition post_root : Handler := fun rt db req _ =>
  run (and_then (and_then (and_then (protect db req) requireServiceProvider)
                          requireVerification)
                create_chains)
      db (create rt db).

Definition get_root : Handler := fun rt db req _ =>
  run (and_then (optionalAuth db req) list_chains) db (listServices rt db).

Definition get_id : Handler := fun rt db req params =>
  run (optionalAuth db req) db (fun _ => getById rt db (first_param params)).

Definition put_id : Handler := fun rt db req params =>
  run (and_then (and_then (and_then (protect db req) requireServiceProvider)
                          requireVerification)
                update_chains)
      db (fun r => update rt db r (first_param params)).

Definition delete_id : Handler := fun _ db req params =>
  run (and_then (protect db req) requireServiceProvider)
      db (fun r => delete db r (first_param params)).

Definition get_provider : Handler := fun _ db _ params =>
  listByProvider db (first_param params).

Definition get_categories : Handler := fun _ db _ _ => listCategories db.

(** The routes in the order of [routes/services.js]. *)
Definition table : list Route :=
  [ {| verb := POST;   pattern := [];                 handler := post_root |};
    {| verb := GET;    pattern := [];                 handler := get_root |};
    {| verb := GET;    pattern := [param "id"];       handler := get_id |};
    {| verb := PUT;    pattern := [param "id"];       handler := put_id |};
    {| verb := DELETE; pattern := [param "id"];       handler := delete_id |};
    {| verb := GET;    pattern := [lit "provider"; param "providerId"];
                                                      handler := get_provider |};
    {| verb := GET;    pattern := [lit "categories"]; handler := get_categories |} ].

Fixpoint dispatch (routes : list Route) (rt : Runtime) (db : Collections)
         (req : Request) : option Answer :=
  match routes with
  | [] => None
  | r :: rest =>
      if method_eqb (verb r) (method req) then
        match match_path (pattern r) (path req) with
        | Some params => Some (handler r rt db req params)
        | None => dispatch rest rt db req
        end
      else dispatch rest rt db req
  end.

(** A request under [/api/services]; [None] when no route takes it. *)
Definition serve (rt : Runtime) (db : Collections) (req : Request)
  : option Answer :=
  dispatch table rt db req.

End Table.

End Router.

(** ** middleware/auth.js: the other gates *)

(** [authorize(...userTypes)] *)
Definition authorize (userTypes : list string) (req : Request) : Step :=
  match user req with
  | None =>
      Respond {| code := 401; json := message_json false "User not authenticated" |}
  | Some u =>
      if negb (isIn (User.userType u) userTypes)
      then forbidden ("User type '" ++ User.userType u
                        ++ "' is not authorized to access this route")%string
      else Next req
  end.

Definition requireCustomer (req : Request) : Step :=
  match user req with
  | Some u =>
      if negb (User.userType u =? "customer")%string
      then forbidden "This route is only accessible to customers."
      else Next req
  | None => uncaught
  end.

Definition requireAdmin (req : Request) : Step :=
  match user req with
  | Some u =>
      if negb (User.userType u =? "admin")%string
      then forbidden "This route is only accessible to administrators."
      else Next req
  | None => uncaught
  end.

(** ** models/Service.js: the availability virtual *)

(** The [isAvailable] virtual *)
Definition isAvailable (s : Service.t) : bool :=
  (Service.status s =? "active")%string && Service.isVerified s.

(** ** A concrete platform and sample data

    The statements below hold for every platform.  To run the routes on
    concrete requests they are instantiated with a small one: tokens are
    [jwt.<user id>], numbers are read from plain decimal integers, and the
    regular expression engine knows literal characters and the dot, which is
    how every PCRE engine reads a pattern made of those. *)

Module Sample.

Definition is_digit (c : ascii) : bool :=
  let n := nat_of_ascii c in ((48 <=? n) && (n <=? 57))%nat.

Definition integer (s : string) : option Z :=
  let '(neg, body) :=
    match s with
    | String "-" r => (true, r)
    | _ => (false, s)
    end in
  if JS.truthy body && all_chars is_digit body
  then option_map (fun n => if neg then - n else n) (JS.digits 10 body None)
  else None.

Definition is_meta (c : ascii) : bool :=
  existsb (Ascii.eqb c) (list_ascii_of_string "\^$*+?()[]{}|").

(** Does the pattern match at the start of the subject? *)
Fixpoint match_here (p s : string) : bool :=
  match p, s with
  | EmptyString, _ => true
  | String pc p', String sc s' =>
      (if Ascii.eqb pc "." then negb (Ascii.eqb sc "010") else Ascii.eqb pc sc)
      && match_here p' s'
  | String _ _, EmptyString => false
  end.

Fixpoint search (p s : string) : bool :=
  match_here p s ||
  match s with
  | EmptyString => false
  | String _ s' => search p s'
  end.

Definition compile (pattern options : string) : option (string -> bool) :=
  if negb (all_chars (fun c => negb (is_meta c)) pattern) then None
  else if (options =? "i")%string
       then Some (fun s => search (JS.toLowerCase pattern) (JS.toLowerCase s))
       else if (options =? "")%string then Some (search pattern)
            else None.

Definition verify (token secret : string) : option Decoded :=
  if JS.startsWith token "jwt."
  then Some {| decoded_id := Some (substring 4 (String.length token - 4) token) |}
  else None.

#[local] Instance platform : Platform := {|
  JWT_SECRET := "az_globe_super_secret_jwt_key_2024_development";
  jwt_verify := verify;
  regex_compile := compile;
  castNumber := fun s => option_map inject_Z (integer s);
  isFloat := fun s => option_map inject_Z (integer s);
  isInt := integer
|}.

Definition alice_id : ObjectId := "aaaaaaaaaaaaaaaaaaaaaaaa".
Definition bob_id : ObjectId := "bbbbbbbbbbbbbbbbbbbbbbbb".
Definition carol_id : ObjectId := "cccccccccccccccccccccccc".
Definition dave_id : ObjectId := "dddddddddddddddddddddddd".
Definition eve_id : ObjectId := "eeeeeeeeeeeeeeeeeeeeeeee".

Definition person (i : ObjectId) (n kind : string) (verified active : bool)
  : User.t :=
  {| User._id := i; User.firstName := n; User.lastName := "Hansen";
     User.email := (n ++ "@example.no")%string; User.password := Some "$2a$12$hash";
     User.userType := kind; User.isVerified := verified;
     User.isActive := active |}.

(** Two verified providers, a customer, an unverified provider and a
    deactivated provider. *)
Definition alice := person alice_id "alice" "service_provider" true true.
Definition bob := person bob_id "bob" "service_provider" true true.
Definition carol := person carol_id "carol" "customer" true true.
Definition dave := person dave_id "dave" "service_provider" false true.
Definition eve := person eve_id "eve" "service_provider" true false.

Definition listing (i owner : ObjectId) (t : string) (price : Z)
           (where_ : list string) (stars : Q) (verified : bool) (st : string)
           (featured : bool) (till : option Z) (created : Z) : Service.t :=
  {| Service._id := i; Service.provider := Some owner;
     Service.title := Some t;
     Service.description := Some "A service offered by a local provider.";
     Service.shortDescription := None;
     Service.category := Some "home_services";
     Service.subcategory := None; Service.serviceType := "one_time";
     Service.duration := None;
     Service.pricing := {| type := Some "fixed"; amount := Some (inject_Z price);
                           currency := Some "NOK" |};
     Service.cities := where_; Service.rating_average := stars;
     Service.isVerified := verified; Service.status := st;
     Service.isFeatured := featured; Service.featuredUntil := till;
     Service.viewCount := 0; Service.createdAt := created;
     Service.updatedAt := created; Service.extras := [] |}.

Definition cleaning := listing "111111111111111111111111" alice_id
  "House cleaning" 500 ["Oslo"; "Bergen"] 4 true "active" false None 10.
Definition plumbing := listing "222222222222222222222222" bob_id
  "Plumbing repair" 900 ["Oslo"] 3 true "active" true (Some 1000) 20.
Definition painting := listing "333333333333333333333333" alice_id
  "House painting" 700 ["Trondheim"] 5 true "pending_review" false None 30.
Definition gardening := listing "444444444444444444444444" dave_id
  "Garden care" 300 ["Bergen"] 2 true "active" true (Some 9000) 40.

Definition db : Collections :=
  {| users := [alice; bob; carol; dave; eve];
     services := [cleaning; plumbing; painting; gardening] |}.

Definition rt : Runtime :=
  {| now := 5000; newObjectId := "999999999999999999999999";
     savedAt := fun _ => 5001 |}.

Definition no_query : Query.t :=
  {| Query.category := None; Query.city := None; Query.minPrice := None;
     Query.maxPrice := None; Query.rating := None; Query.page := None;
     Query.limit := None; Query.sort := None |}.

Definition request (m : Method) (p : list string) (auth : option string)
           (q : Query.t) (b : Body) : Request :=
  {| method := m; path := p; authorization := auth; cookie_token := None;
     query := q; body := b; user := None; validation_errors := [] |}.

Definition bearer (i : ObjectId) : option string :=
  Some ("Bearer jwt." ++ i)%string.

(** Sixty active, verified, plain listings of one provider. *)
Definition two_digits (n : nat) : string :=
  String (ascii_of_nat (48 + n / 10)) (String (ascii_of_nat (48 + n mod 10)) "").

Definition numbered (n : nat) : Service.t :=
  listing ("0000000000000000000000" ++ two_digits n)%string alice_id "Lawn mowing"
          (Z.of_nat n) ["Oslo"] 3 true "active" false None (Z.of_nat n).

Definition many : Collections :=
  {| users := [alice]; services := map numbered (seq 0 60) |}.

End Sample.

(** ** Notions used in the statements *)

(** No two stored listings share an id (the unique index on [_id]). *)
Definition unique_ids (l : list Service.t) : Prop := NoDup (map Service._id l).

(** The HTTP status of what the router answered. *)
Definition code_of (o : option Routes.Answer) : option Z :=
  option_map (fun a : Routes.Answer => code (fst a)) o.


(** The body after the two [trim] sanitizers. *)
Definition sanitized (b : Body) : Body :=
  Body.sanitize Body.trim_description (Body.sanitize Body.trim_title b).

(** The six validators of [POST /], read off the body as it was sent. *)
Definition passes_create_validators (b : Body) : Prop :=
  (exists t, Body.title b = Some t /\
             (5 <= Routes.len (JS.trim t) <= 100)%nat)
  /\ (exists d, Body.description b = Some d /\
                (20 <= Routes.len (JS.trim d) <= 1000)%nat)
  /\ (exists c, Body.category b = Some c /\ In c Service.categories_enum)
  /\ (exists t, Body.pricing_type b = Some t /\ In t Service.pricing_type_enum)
  /\ (exists a, Body.pricing_amount b = Some a /\ (0 <= a)%Q)
  /\ (exists l, Body.serviceArea_cities b = Some l /\ l <> []).

(** The three validators of [PUT /:id], read off the body as it was sent;
    each looks at its field only when the body has it. *)
Definition passes_update_validators (b : Body) : Prop :=
  (forall t, Body.title b = Some t -> (5 <= Routes.len (JS.trim t) <= 100)%nat)
  /\ (forall d, Body.description b = Some d ->
        (20 <= Routes.len (JS.trim d) <= 1000)%nat)
  /\ (forall a, Body.pricing_amount b = Some a -> (0 <= a)%Q).

(** The stored listing after the update [PUT /:id] makes of a body (as the
    chains of the route left it): the allowed paths of the body are set,
    the status is reset when a title, a description or a pricing is among
    them, and [updatedAt] is stamped. *)
Definition updated (rt : Runtime) (b : Body) (s : Service.t) : Service.t :=
  Doc.set_updatedAt (savedAt rt (Service._id s))
    (Doc.set_all (Routes.with_reset (Routes.filteredUpdates b)) s).

(** The document in memory after [incrementViewCount]. *)
Definition bump (d : Service.t) : Service.t :=
  Doc.set_viewCount (Service.viewCount d + 1) d.

(** A stored listing once an awaited [incrementViewCount] is done, in memory
    and in the collection: the document built from the stored one, with one
    view more and the stamp of the save. *)
Definition viewed (rt : Runtime) (s : Service.t) : Service.t :=
  Doc.set_updatedAt (savedAt rt (Service._id s)) (bump (Doc.hydrate s)).

(** What the filter built from the query string asks of a listing: the
    base restriction, and one condition for each parameter that is present
    and not empty. *)
Definition satisfies_query {P : Platform} (q : Query.t) (s : Service.t) : Prop :=
  Service.status s = "active" /\ Service.isVerified s = true
  /\ (forall c, Query.category q = Some c -> c <> "" ->
        Service.category s = Some c)
  /\ (forall p, Query.city q = Some p -> p <> "" ->
        exists re, regex_compile p "i" = Some re /\
                   exists c, In c (Service.cities s) /\ re c = true)
  /\ (forall m, Query.minPrice q = Some m -> m <> "" ->
        exists v a, castNumber m = Some v /\
                    amount (Service.pricing s) = Some a /\ (v <= a)%Q)
  /\ (forall m, Query.maxPrice q = Some m -> m <> "" ->
        exists v a, castNumber m = Some v /\
                    amount (Service.pricing s) = Some a /\ (a <= v)%Q)
  /\ (forall r, Query.rating q = Some r -> r <> "" ->
        exists v, castNumber r = Some v /\ (v <= Service.rating_average s)%Q).

(** A three-way comparison that behaves like one of a total preorder. *)
Definition Consistent {A : Type} (cmp : A -> A -> comparison) : Prop :=
  (forall a b, cmp b a = CompOpp (cmp a b))
  /\ (forall a b c, cmp a b = Eq -> cmp b c = Eq -> cmp a c = Eq)
  /\ (forall a b c, cmp a b = Lt -> cmp b c = Lt -> cmp a c = Lt)
  /\ (forall a b c, cmp a b = Eq -> cmp b c = Lt -> cmp a c = Lt)
  /\ (forall a b c, cmp a b = Lt -> cmp b c = Eq -> cmp a c = Lt).

(** [a] may come before [b] in the order of the sort document [o]. *)
Definition ordered (o : Mongo.Sort) (a b : Service.t) : Prop :=
  Mongo.before o a b = true.

(** [a] is featured for longer than [b]; a listing with no expiry date
    comes after every listing that has one. *)
Definition expires_later (a b : Service.t) : Prop :=
  match Service.featuredUntil a, Service.featuredUntil b with
  | Some x, Some y => y < x
  | Some _, None => True
  | None, _ => False
  end.

(** Feature expiry descending, then the order [o]. *)
Definition featured_order (o : Mongo.Sort) (a b : Service.t) : Prop :=
  expires_later a b
  \/ (Service.featuredUntil a = Service.featuredUntil b /\ ordered o a b).

(** The numbers [GET /] hands to [limit()] and to [skip()]:
    [parseInt(limit)] and [(parseInt(page) - 1) * parseInt(limit)]. *)
Definition limit_of (q : Query.t) : JS.num :=
  JS.parseInt (Routes.default "12" (Query.limit q)).

Definition skip_of (q : Query.t) : JS.num :=
  JS.mul (JS.sub (JS.parseInt (Routes.default "1" (Query.page q))) (JS.Int 1))
         (limit_of q).

(** The stored listings that match a cast filter, in the order of a sort
    document. *)
Definition matching (cf : list Mongo.Cast) (order : Mongo.Sort)
           (l : list Service.t) : list Service.t :=
  Mongo.sort_by order (filter (Mongo.matches cf) l).

(** The status codes the router sends. *)
Definition status_codes : list Z := [200; 201; 400; 401; 403; 404; 500].

(** The ids of the stored listings, in collection order. *)
Definition ids (l : list Service.t) : list ObjectId := map Service._id l.

(** [b] is [a], or the document built from [a], up to the two counters a
    read of a listing writes: the view count and the stamp of the last
    write. *)
Definition same_but_counters (a b : Service.t) : Prop :=
  exists c,
    (c = a \/ c = Doc.hydrate a)
    /\ b = Doc.set_updatedAt (Service.updatedAt b)
                             (Doc.set_viewCount (Service.viewCount b) c).

(** What every answer of a handler has in common. *)
Definition tidy (db : Collections) (a : Routes.Answer) : Prop :=
  In (code (fst a)) status_codes
  /\ ((forall c, json (fst a) <> categories_json c)
      /\ (forall e, json (fst a) <> error_json e))
  /\ users (snd a) = users db
  /\ (ids (services (snd a)) = ids (services db)
      \/ incl (services (snd a)) (services db)
         /\ (unique_ids (services db) -> unique_ids (services (snd a)))
      \/ exists d, services (snd a) = services db ++ [d]
                   /\ Mongo.lookup (services db) (Service._id d) = None).

(** The listings [GET /provider/:providerId] is to show for a provider. *)
Definition shown_for (oid : ObjectId) (s : Service.t) : bool :=
  opt_some (String.eqb oid) (Service.provider s) && isAvailable s.

(** Featured listings first, and newer before older among the featured and
    among the others. *)
Definition provider_order (a b : Service.t) : Prop :=
  (Service.isFeatured a = true /\ Service.isFeatured b = false)
  \/ (Service.isFeatured a = Service.isFeatured b
      /\ Service.createdAt b <= Service.createdAt a).

(** The query string with another [page]. *)
Definition with_page (p : option string) (q : Query.t) : Query.t :=
  {| Query.category := Query.category q; Query.city := Query.city q;
     Query.minPrice := Query.minPrice q; Query.maxPrice := Query.maxPrice q;
     Query.rating := Query.rating q; Query.page := p;
     Query.limit := Query.limit q; Query.sort := Query.sort q |}.

(** The fields of a listing that no body of [PUT /:id] reaches. *)
Definition protected_kept (a b : Service.t) : Prop :=
  Service._id b = Service._id a
  /\ Service.provider b = Service.provider a
  /\ Service.category b = Service.category a
  /\ Service.serviceType b = Service.serviceType a
  /\ Service.rating_average b = Service.rating_average a
  /\ Service.isVerified b = Service.isVerified a
  /\ Service.isFeatured b = Service.isFeatured a
  /\ Service.featuredUntil b = Service.featuredUntil a
  /\ Service.viewCount b = Service.viewCount a
  /\ Service.createdAt b = Service.createdAt a.

(** * Properties *)

Unset Implicit Arguments.

(** ** The JavaScript helpers on a few inputs *)

Example parseInt_12 : JS.parseInt "12" = JS.Int 12.
Proof. reflexivity. Qed.
Example parseInt_junk : JS.parseInt " -7px" = JS.Int (-7).
Proof. reflexivity. Qed.
Example parseInt_hex : JS.parseInt "0x1f" = JS.Int 31.
Proof. reflexivity. Qed.
Example parseInt_nan : JS.parseInt "abc" = JS.NaN.
Proof. reflexivity. Qed.
Example parseInt_rounds :
  JS.parseInt "9007199254740993" = JS.Int 9007199254740992
  /\ JS.parseInt "9007199254740995" = JS.Int 9007199254740996.
Proof. split; vm_compute; reflexivity. Qed.
Example len_counts_characters :
  Routes.len "Bærø" = 4%nat /\ String.length "Bærø" = 6%nat
  /\ Routes.len "😀" = 1%nat /\ JS.length "😀" = 2%nat.
Proof. repeat split. Qed.
Example trim_no_break_space :
  JS.trim (String "194" (String "160" " a b ")) = "a b".
Proof. reflexivity. Qed.
Example split_bearer : JS.split " " "Bearer abc def" = ["Bearer"; "abc"; "def"].
Proof. reflexivity. Qed.
Example trim_both : JS.trim "  a b  " = "a b".
Proof. reflexivity. Qed.
Example categories_is_no_ObjectId : castObjectId "categories" = None.
Proof. reflexivity. Qed.

(** ** Collections: lookup, replace, remove *)

Lemma lookup_id l id s : Mongo.lookup l id = Some s -> Service._id s = id.
Proof.
  induction l as [|x l IH]; simpl; [discriminate|].
  destruct (Service._id x =? id)%string eqn:E.
  - intros [= <-]. now apply String.eqb_eq.
  - exact IH.
Qed.

Lemma lookup_In l id s : Mongo.lookup l id = Some s -> In s l.
Proof.
  induction l as [|x l IH]; simpl; [discriminate|].
  destruct (Service._id x =? id)%string.
  - intros [= <-]. now left.
  - intro H. right. now apply IH.
Qed.

Lemma lookup_None_iff l id :
  Mongo.lookup l id = None <-> ~ In id (map Service._id l).
Proof.
  induction l as [|x l IH]; simpl.
  - split; [intros _ []|reflexivity].
  - destruct (Service._id x =? id)%string eqn:E.
    + apply String.eqb_eq in E. split; [discriminate|]. intros H. exfalso. apply H. now left.
    + apply String.eqb_neq in E. rewrite IH. tauto.
Qed.

Lemma lookup_replace l d :
  Mongo.lookup l (Service._id d) <> None ->
  Mongo.lookup (Mongo.replace d l) (Service._id d) = Some d.
Proof.
  induction l as [|x l IH]; simpl; [congruence|].
  destruct (Service._id x =? Service._id d)%string eqn:E; simpl.
  - now rewrite String.eqb_refl.
  - rewrite E. exact IH.
Qed.

Lemma lookup_replace_other l d id :
  id <> Service._id d ->
  Mongo.lookup (Mongo.replace d l) id = Mongo.lookup l id.
Proof.
  intro Hne. induction l as [|x l IH]; simpl; [reflexivity|].
  destruct (Service._id x =? Service._id d)%string eqn:E; simpl.
  - apply String.eqb_eq in E.
    destruct (Service._id d =? id)%string eqn:E1.
    + apply String.eqb_eq in E1. congruence.
    + destruct (Service._id x =? id)%string eqn:E2; [|reflexivity].
      apply String.eqb_eq in E2. congruence.
  - destruct (Service._id x =? id)%string; [reflexivity|exact IH].
Qed.

Lemma lookup_remove l id :
  unique_ids l -> Mongo.lookup (Mongo.remove id l) id = None.
Proof.
  unfold unique_ids. induction l as [|x l IH]; simpl; [reflexivity|].
  intro H. inversion H as [|? ? Hnot Hrest]; subst.
  destruct (Service._id x =? id)%string eqn:E; simpl.
  - apply String.eqb_eq in E. subst. now apply lookup_None_iff.
  - rewrite E. now apply IH.
Qed.


(** ** Documents built from stored ones *)

Lemma hydrate_fields s :
  Service._id (Doc.hydrate s) = Service._id s
  /\ Service.provider (Doc.hydrate s) = Service.provider s
  /\ Service.category (Doc.hydrate s) = Service.category s
  /\ Service.cities (Doc.hydrate s) = Service.cities s
  /\ Service.rating_average (Doc.hydrate s) = Service.rating_average s
  /\ Service.isVerified (Doc.hydrate s) = Service.isVerified s
  /\ Service.status (Doc.hydrate s) = Service.status s
  /\ Service.isFeatured (Doc.hydrate s) = Service.isFeatured s
  /\ Service.featuredUntil (Doc.hydrate s) = Service.featuredUntil s
  /\ Service.viewCount (Doc.hydrate s) = Service.viewCount s
  /\ Service.createdAt (Doc.hydrate s) = Service.createdAt s
  /\ Service.updatedAt (Doc.hydrate s) = Service.updatedAt s
  /\ amount (Service.pricing (Doc.hydrate s)) = amount (Service.pricing s).
Proof.
  unfold Doc.hydrate, Doc.default_currency.
  destruct (currency (Service.pricing s)); simpl; repeat split.
Qed.

Lemma hydrate_id s : Service._id (Doc.hydrate s) = Service._id s.
Proof. apply hydrate_fields. Qed.

Lemma hydrate_status s : Service.status (Doc.hydrate s) = Service.status s.
Proof. apply hydrate_fields. Qed.

Lemma hydrate_provider s : Service.provider (Doc.hydrate s) = Service.provider s.
Proof. apply hydrate_fields. Qed.

(** A document that has a currency is built as it is stored. *)
Lemma hydrate_stored s :
  currency (Service.pricing s) <> None -> Doc.hydrate s = s.
Proof.
  unfold Doc.hydrate, Doc.default_currency.
  destruct (currency (Service.pricing s)); [reflexivity|congruence].
Qed.

Lemma hydrate_hydrate s : Doc.hydrate (Doc.hydrate s) = Doc.hydrate s.
Proof.
  unfold Doc.hydrate, Doc.default_currency.
  destruct (currency (Service.pricing s)) eqn:E; [now rewrite E|reflexivity].
Qed.

Lemma ids_hydrate l : map Service._id (map Doc.hydrate l) = map Service._id l.
Proof.
  rewrite map_map. apply map_ext. intro s. apply hydrate_id.
Qed.

(** ** The authentication middleware *)

Section AuthFacts.
Context {P : Platform}.

Lemma findById_hides_password l id u :
  User.findById l id = Ok (Some u) -> User.password u = None.
Proof.
  unfold User.findById. destruct id as [s|]; [|discriminate].
  destruct (castObjectId s); [|discriminate].
  destruct (User.lookup l o); simpl; [|discriminate].
  now intros [= <-].
Qed.

Lemma findById_stored l id u :
  User.findById l id = Ok (Some u) ->
  exists s oid stored,
    id = Some s /\ castObjectId s = Some oid /\
    User.lookup l oid = Some stored /\ u = User.select_minus_password stored.
Proof.
  unfold User.findById. destruct id as [s|]; [|discriminate].
  destruct (castObjectId s) as [oid|] eqn:E; [|discriminate].
  destruct (User.lookup l oid) as [st|] eqn:L; simpl; [|discriminate].
  intros [= <-]. now exists s, oid, st.
Qed.

Lemma startsWith_Bearer_truthy h :
  JS.startsWith h "Bearer" = true -> JS.truthy h = true.
Proof. destruct h; [discriminate|reflexivity]. Qed.

Lemma extract_from_header req h :
  authorization req = Some h -> JS.startsWith h "Bearer" = true ->
  extract_token req = nth_error (JS.split " " h) 1.
Proof.
  intros Ha Hb. unfold extract_token. rewrite Ha. simpl.
  now rewrite (startsWith_Bearer_truthy _ Hb), Hb.
Qed.

Lemma extract_from_cookie req :
  (authorization req = None \/
   exists h, authorization req = Some h /\ JS.startsWith h "Bearer" = false) ->
  extract_token req =
    if JS.truthy_opt (cookie_token req) then cookie_token req else None.
Proof.
  unfold extract_token. intros [Ha|[h [Ha Hb]]]; rewrite Ha; simpl.
  - reflexivity.
  - rewrite Hb. now rewrite andb_false_r.
Qed.

(** What [protect] does, by cases on the token, the verification and the
    user lookup. *)
Lemma protect_cases db req :
  (JS.truthy_opt (extract_token req) = false /\
     protect db req = unauthorized please_login)
  \/ exists tok, extract_token req = Some tok /\ JS.truthy tok = true /\
       ((jwt_verify tok JWT_SECRET = None /\
           protect db req = unauthorized please_login)
        \/ exists d, jwt_verify tok JWT_SECRET = Some d /\
             (((exists e, User.findById (users db) (decoded_id d) = Throw e) /\
                 protect db req = unauthorized please_login)
              \/ (User.findById (users db) (decoded_id d) = Ok None /\
                    protect db req =
                      unauthorized "User not found. Please login again.")
              \/ exists u, User.findById (users db) (decoded_id d) = Ok (Some u) /\
                   ((User.isActive u = false /\
                       protect db req =
                         unauthorized
                           "Account is deactivated. Please contact support.")
                    \/ (User.isActive u = true /\
                          protect db req = Next (with_user u req))))).
Proof.
  unfold protect.
  destruct (extract_token req) as [tok|] eqn:Et; simpl; [|now left].
  destruct (JS.truthy tok) eqn:Ett; simpl; [|now left].
  right. exists tok. repeat split; try assumption.
  destruct (jwt_verify tok JWT_SECRET) as [d|] eqn:Ev; [|now left].
  right. exists d. split; [reflexivity|].
  destruct (User.findById (users db) (decoded_id d)) as [[u|]|e] eqn:Ef.
  - right. right. exists u. split; [reflexivity|].
    destruct (User.isActive u); simpl; [right|left]; now split.
  - right. left. now split.
  - left. split; [now exists e|reflexivity].
Qed.

End AuthFacts.

(** C6.  [protect] takes the token from an [Authorization] header that
    starts with [Bearer] (whatever the cookie holds), and from the [token]
    cookie otherwise.  It answers, and then always with 401, exactly when
    the token is absent, or [jwt.verify] rejects it, or the user its [id]
    claim names is not found, or that user is inactive.  Otherwise it passes
    the request on with that user, whose password field is absent, as its
    [user], and with nothing else of the request changed. *)
Theorem protect_unauthorized_exactly {P : Platform} (db : Collections) (req : Request) :
  (forall h, authorization req = Some h -> JS.startsWith h "Bearer" = true ->
     extract_token req = nth_error (JS.split " " h) 1)
  /\ ((authorization req = None \/
       exists h, authorization req = Some h /\ JS.startsWith h "Bearer" = false) ->
      extract_token req =
        if JS.truthy_opt (cookie_token req) then cookie_token req else None)
  /\ ((exists r, protect db req = Respond r) <->
      (JS.truthy_opt (extract_token req) = false
       \/ exists tok, extract_token req = Some tok /\
            (jwt_verify tok JWT_SECRET = None
             \/ exists d, jwt_verify tok JWT_SECRET = Some d /\
                  ((forall u, User.findById (users db) (decoded_id d) <> Ok (Some u))
                   \/ exists u, User.findById (users db) (decoded_id d) = Ok (Some u)
                                /\ User.isActive u = false))))
  /\ (forall r, protect db req = Respond r -> code r = 401)
  /\ (forall req', protect db req = Next req' ->
        exists tok d u,
          extract_token req = Some tok /\ jwt_verify tok JWT_SECRET = Some d /\
          User.findById (users db) (decoded_id d) = Ok (Some u) /\
          User.isActive u = true /\ User.password u = None /\
          user req' = Some u /\
          method req' = method req /\ path req' = path req /\
          authorization req' = authorization req /\
          cookie_token req' = cookie_token req /\
          query req' = query req /\ body req' = body req /\
          validation_errors req' = validation_errors req).
Proof.
  split; [intros h; apply extract_from_header|].
  split; [apply extract_from_cookie|].
  pose proof (protect_cases db req) as C.
  split; [split|split].
  - (* an answer comes from one of the failures *)
    intros [r Hr].
    destruct C as [[Ht _]|[tok [Et [Htt C]]]]; [now left|].
    right. exists tok. split; [assumption|].
    destruct C as [[Hv _]|[d [Hv C]]]; [now left|].
    right. exists d. split; [assumption|].
    destruct C as [[[e He] _]|[[Hn _]|[u [Hu C]]]].
    + left. intros u. congruence.
    + left. intros u. congruence.
    + destruct C as [[Hi _]|[_ Hp]]; [right; now exists u|congruence].
  - (* each failure gives an answer *)
    intros F.
    destruct C as [[_ Hp]|[tok [Et [Htt C]]]]; [eexists; exact Hp|].
    destruct C as [[_ Hp]|[d [Hv C]]]; [eexists; exact Hp|].
    destruct C as [[_ Hp]|[[_ Hp]|[u [Hu C]]]]; try (eexists; exact Hp).
    destruct C as [[_ Hp]|[Ha _]]; [eexists; exact Hp|].
    exfalso. destruct F as [F|[tok' [Et' F]]].
    + rewrite Et in F. simpl in F. congruence.
    + assert (tok' = tok) by congruence. subst tok'.
      destruct F as [F|[d' [Hv' F]]]; [congruence|].
      assert (d' = d) by congruence. subst d'.
      destruct F as [F|[u' [Hu' F]]]; [now apply (F u)|].
      assert (u' = u) by congruence. subst u'. congruence.
  - intros r Hr.
    destruct C as [[_ Hp]|[tok [_ [_ C]]]]; [rewrite Hp in Hr; now inversion Hr|].
    destruct C as [[_ Hp]|[d [_ C]]]; [rewrite Hp in Hr; now inversion Hr|].
    destruct C as [[_ Hp]|[[_ Hp]|[u [_ C]]]];
      try (rewrite Hp in Hr; now inversion Hr).
    destruct C as [[_ Hp]|[_ Hp]]; rewrite Hp in Hr; [now inversion Hr|discriminate].
  - intros req' Hn.
    destruct C as [[_ Hp]|[tok [Et [_ C]]]]; [rewrite Hp in Hn; discriminate|].
    destruct C as [[_ Hp]|[d [Hv C]]]; [rewrite Hp in Hn; discriminate|].
    destruct C as [[_ Hp]|[[_ Hp]|[u [Hu C]]]];
      try (rewrite Hp in Hn; discriminate).
    destruct C as [[_ Hp]|[Ha Hp]]; [rewrite Hp in Hn; discriminate|].
    assert (E : req' = with_user u req) by congruence. subst req'.
    exists tok, d, u. repeat split; try assumption.
    now apply findById_hides_password with (1 := Hu).
Qed.

(** A header and a cookie that name different users: the header wins, and
    the identity attached has no password. *)
Lemma protect_unauthorized_exactly_witness :
  let req := {| method := GET; path := [];
                authorization := Sample.bearer Sample.alice_id;
                cookie_token := Some ("jwt." ++ Sample.bob_id)%string;
                query := Sample.no_query; body := []; user := None;
                validation_errors := [] |} in
  extract_token req = Some ("jwt." ++ Sample.alice_id)%string
  /\ exists req' u,
       protect (P := Sample.platform) Sample.db req = Next req'
       /\ user req' = Some u
       /\ User._id u = Sample.alice_id /\ User.password u = None.
Proof.
  intro req.
  destruct (protect_unauthorized_exactly (P := Sample.platform) Sample.db req)
    as [Hh [_ [_ [_ Hn]]]].
  split.
  - rewrite (Hh _ eq_refl eq_refl). reflexivity.
  - destruct (Hn (with_user (User.select_minus_password Sample.alice) req) eq_refl)
      as [tok [d [u [_ [_ [_ [_ [Hp [Hu _]]]]]]]]].
    exists ({| method := GET; path := [];
               authorization := Sample.bearer Sample.alice_id;
               cookie_token := Some ("jwt." ++ Sample.bob_id)%string;
               query := Sample.no_query; body := []; user := Some u;
               validation_errors := [] |}), u.
    simpl in Hu. injection Hu as <-.
    split; [reflexivity|]. split; [reflexivity|]. split; reflexivity.
Defined.

(** ** Routing *)

Section RoutingFacts.
Context {P : Platform}.

Lemma optionalAuth_passes db req : exists req', optionalAuth db req = Next req'.
Proof.
  unfold optionalAuth.
  destruct (extract_token req) as [tok|]; [|now eexists].
  destruct (JS.truthy tok); [|now eexists].
  destruct (jwt_verify tok JWT_SECRET) as [d|]; [|now eexists].
  destruct (User.findById (users db) (decoded_id d)) as [[u|]|e];
    try now eexists.
  destruct (User.isActive u); now eexists.
Qed.

Lemma optionalAuth_keeps db req req' :
  optionalAuth db req = Next req' ->
  query req' = query req /\ body req' = body req /\ path req' = path req.
Proof.
  unfold optionalAuth.
  destruct (extract_token req) as [tok|]; [|now intros [= <-]].
  destruct (JS.truthy tok); [|now intros [= <-]].
  destruct (jwt_verify tok JWT_SECRET) as [d|]; [|now intros [= <-]].
  destruct (User.findById (users db) (decoded_id d)) as [[u|]|e];
    try now intros [= <-].
  destruct (User.isActive u); now intros [= <-].
Qed.

(** A GET with one path segment is taken by [/:id], whatever the segment. *)
Lemma serve_get_one rt db req x :
  method req = GET -> path req = [x] ->
  Router.serve rt db req = Some (Routes.getById rt db x).
Proof.
  intros Hm Hp. unfold Router.serve, Router.table, Router.dispatch.
  rewrite Hm, Hp. simpl. unfold Router.get_id, Router.run.
  destruct (optionalAuth_passes db req) as [req' ->]. reflexivity.
Qed.

Lemma serve_put_one rt db req x :
  method req = PUT -> path req = [x] ->
  Router.serve rt db req = Some (Router.put_id rt db req [x]).
Proof.
  intros Hm Hp. unfold Router.serve, Router.table, Router.dispatch.
  rewrite Hm, Hp. reflexivity.
Qed.

Lemma serve_delete_one rt db req x :
  method req = DELETE -> path req = [x] ->
  Router.serve rt db req = Some (Router.delete_id rt db req [x]).
Proof.
  intros Hm Hp. unfold Router.serve, Router.table, Router.dispatch.
  rewrite Hm, Hp. reflexivity.
Qed.

Lemma serve_post_root rt db req :
  method req = POST -> path req = [] ->
  Router.serve rt db req = Some (Router.post_root rt db req []).
Proof.
  intros Hm Hp. unfold Router.serve, Router.table, Router.dispatch.
  rewrite Hm, Hp. reflexivity.
Qed.

Lemma serve_get_root rt db req :
  method req = GET -> path req = [] ->
  Router.serve rt db req = Some (Router.get_root rt db req []).
Proof.
  intros Hm Hp. unfold Router.serve, Router.table, Router.dispatch.
  rewrite Hm, Hp. reflexivity.
Qed.

End RoutingFacts.

(** The handler registered for [/categories] would answer 200 with the
    eleven descriptors, in the order of the schema's category enum. *)
Lemma listCategories_static db :
  Routes.listCategories db = Routes.reply 200 (categories_json Routes.categories) db
  /\ length Routes.categories = 11%nat
  /\ map id Routes.categories = Service.categories_enum.
Proof. repeat split. Qed.

(** C7.  [GET /api/services/categories] does not reach the categories
    handler: [/:id] is registered before [/categories] and takes the request
    with [id = "categories"], which is no ObjectId, so [findById] throws and
    the answer is 500. *)
Theorem categories_route_is_shadowed {P : Platform}
        (rt : Runtime) (db : Collections) (req : Request) :
  method req = GET -> path req = ["categories"] ->
  Router.serve rt db req
    = Some (Routes.server_error "Server error while fetching service" db)
  /\ Router.serve rt db req <> Some (Routes.listCategories db).
Proof.
  intros Hm Hp. rewrite (serve_get_one rt db req _ Hm Hp).
  split; [reflexivity|]. discriminate.
Qed.

Lemma categories_route_is_shadowed_witness :
  option_map (fun a : Routes.Answer => code (fst a))
    (Router.serve (P := Sample.platform) Sample.rt Sample.db
       (Sample.request GET ["categories"] None Sample.no_query [])) = Some 500.
Proof.
  destruct (categories_route_is_shadowed (P := Sample.platform) Sample.rt Sample.db
              (Sample.request GET ["categories"] None Sample.no_query [])
              eq_refl eq_refl) as [H _].
  rewrite H. reflexivity.
Defined.

(** [GET /:id], case by case. *)
Lemma getById_malformed rt db id :
  castObjectId id = None ->
  Routes.getById rt db id
    = Routes.server_error "Server error while fetching service" db.
Proof.
  intro Hc. unfold Routes.getById, Mongo.findById. now rewrite Hc.
Qed.

Lemma getById_missing rt db id oid :
  castObjectId id = Some oid -> Mongo.lookup (services db) oid = None ->
  Routes.getById rt db id
    = Routes.reply 404 (message_json false "Service not found") db.
Proof.
  intros Hc Hl. unfold Routes.getById, Mongo.findById. now rewrite Hc, Hl.
Qed.

Lemma getById_inactive rt db id oid s :
  castObjectId id = Some oid -> Mongo.lookup (services db) oid = Some s ->
  Service.status s <> "active" ->
  Routes.getById rt db id
    = Routes.reply 404 (message_json false "Service not available") db.
Proof.
  intros Hc Hl Hs. unfold Routes.getById, Mongo.findById. rewrite Hc, Hl.
  cbn [option_map]. rewrite hydrate_status.
  apply String.eqb_neq in Hs. now rewrite Hs.
Qed.

Lemma getById_active rt db id oid s :
  castObjectId id = Some oid -> Mongo.lookup (services db) oid = Some s ->
  Service.status s = "active" ->
  Routes.getById rt db id
    = if Doc.validate (bump (Doc.hydrate s))
      then Routes.reply 200 (service_json None (Some (viewed rt s)))
             (with_services (Mongo.replace (viewed rt s) (services db)) db)
      else Routes.server_error "Server error while fetching service" db.
Proof.
  intros Hc Hl Hs. unfold Routes.getById, Mongo.findById. rewrite Hc, Hl.
  cbn [option_map]. rewrite hydrate_status, Hs.
  change ("active" =? "active")%string with true. cbn [negb].
  unfold Model.incrementViewCount, Model.save. fold (bump (Doc.hydrate s)).
  rewrite hydrate_id. fold (viewed rt s).
  now destruct (Doc.validate (bump (Doc.hydrate s))).
Qed.

Lemma viewed_id rt s : Service._id (viewed rt s) = Service._id s.
Proof. unfold viewed. simpl. apply hydrate_id. Qed.

Lemma viewed_viewCount rt s :
  Service.viewCount (viewed rt s) = Service.viewCount s + 1.
Proof.
  unfold viewed. simpl. f_equal. apply hydrate_fields.
Qed.

(** C4 fails for an id that is no ObjectId: [findById] throws on the cast
    and the answer is 500, although the id names no stored listing. *)
Lemma malformed_id_is_not_404 :
  let req := Sample.request GET ["no-such-listing"] None Sample.no_query [] in
  (forall s, In s (services Sample.db) -> Service._id s <> "no-such-listing")
  /\ castObjectId "no-such-listing" = None
  /\ Router.serve (P := Sample.platform) Sample.rt Sample.db req
     = Some (Routes.server_error "Server error while fetching service"
                                 Sample.db).
Proof.
  intro req. split; [|split; reflexivity].
  intros s [<-|[<-|[<-|[<-|[]]]]]; discriminate.
Qed.

(** C4, amended.  [GET /:id], for every caller (the request's credentials
    are not looked at).  An id that is no well-formed ObjectId is answered
    500.  For a well-formed id: 404 when no listing has the id; 404 when the
    listing is not active; for an active listing, 200 when the document with
    one view more passes the schema validators that [save()] runs, and then
    the answer carries the listing with its view counter one higher and
    the stamp of the save, and the collection holds the same; 500 when it
    does not pass.  So the answer is 404 exactly when the id is well formed
    and names no listing, or one that is not active. *)
Theorem getById_not_found_unless_active {P : Platform}
        (rt : Runtime) (db : Collections) (req : Request) (id : string) :
  method req = GET -> path req = [id] ->
  (castObjectId id = None ->
     Router.serve rt db req
       = Some (Routes.server_error "Server error while fetching service" db))
  /\ (forall oid, castObjectId id = Some oid ->
        (Mongo.lookup (services db) oid = None ->
           Router.serve rt db req
             = Some (Routes.reply 404 (message_json false "Service not found")
                                  db))
        /\ (forall s, Mongo.lookup (services db) oid = Some s ->
              Service.status s <> "active" ->
              Router.serve rt db req
                = Some (Routes.reply 404
                          (message_json false "Service not available") db))
        /\ (forall s, Mongo.lookup (services db) oid = Some s ->
              Service.status s = "active" ->
              (Doc.validate (bump (Doc.hydrate s)) = true ->
                 Router.serve rt db req
                   = Some (Routes.reply 200
                             (service_json None (Some (viewed rt s)))
                             (with_services
                                (Mongo.replace (viewed rt s) (services db)) db))
                 /\ Mongo.lookup (Mongo.replace (viewed rt s) (services db)) oid
                    = Some (viewed rt s)
                 /\ Service.viewCount (viewed rt s) = Service.viewCount s + 1)
              /\ (Doc.validate (bump (Doc.hydrate s)) = false ->
                  Router.serve rt db req
                    = Some (Routes.server_error
                              "Server error while fetching service" db))))
  /\ (code_of (Router.serve rt db req) = Some 404 <->
      exists oid, castObjectId id = Some oid
        /\ (Mongo.lookup (services db) oid = None
            \/ exists s, Mongo.lookup (services db) oid = Some s
                         /\ Service.status s <> "active")).
Proof.
  intros Hm Hp. rewrite (serve_get_one rt db req _ Hm Hp).
  split; [|split].
  - intro Hc. now rewrite (getById_malformed rt db id Hc).
  - intros oid Hc. split; [|split].
    + intro Hl. now rewrite (getById_missing rt db id oid Hc Hl).
    + intros s Hl Hs. now rewrite (getById_inactive rt db id oid s Hc Hl Hs).
    + intros s Hl Hs. rewrite (getById_active rt db id oid s Hc Hl Hs).
      split; intros ->; [|reflexivity].
      split; [reflexivity|]. split; [|apply viewed_viewCount].
      assert (Hid : Service._id (viewed rt s) = oid)
        by (rewrite viewed_id; apply (lookup_id _ _ _ Hl)).
      rewrite <- Hid. apply lookup_replace. rewrite Hid, Hl. discriminate.
  - destruct (castObjectId id) as [oid|] eqn:Hc.
    + destruct (Mongo.lookup (services db) oid) as [s|] eqn:Hl.
      * destruct (String.eqb_spec (Service.status s) "active") as [Hs|Hs].
        -- rewrite (getById_active rt db id oid s Hc Hl Hs).
           split.
           ++ destruct (Doc.validate _); discriminate.
           ++ intros [oid' [Hc' [H|[s' [Hl' H]]]]];
                injection Hc' as <-;
                [congruence|rewrite Hl in Hl'; injection Hl' as <-; contradiction].
        -- rewrite (getById_inactive rt db id oid s Hc Hl Hs).
           split; [|reflexivity].
           intros _. exists oid. split; [reflexivity|]. right. now exists s.
      * rewrite (getById_missing rt db id oid Hc Hl).
        split; [|reflexivity].
        intros _. exists oid. split; [reflexivity|]. now left.
    + rewrite (getById_malformed rt db id Hc).
      split; [discriminate|]. intros [oid [H _]]. discriminate H.
Qed.

Lemma getById_not_found_unless_active_witness :
  (* the owner asks for her own listing under review *)
  Router.serve (P := Sample.platform) Sample.rt Sample.db
    (Sample.request GET ["333333333333333333333333"]
       (Sample.bearer Sample.alice_id) Sample.no_query [])
  = Some (Routes.reply 404 (message_json false "Service not available")
                       Sample.db)
  (* anyone asks for an active one *)
  /\ Router.serve (P := Sample.platform) Sample.rt Sample.db
       (Sample.request GET ["111111111111111111111111"] None Sample.no_query [])
     = Some (Routes.reply 200
               (service_json None (Some (viewed Sample.rt Sample.cleaning)))
               (with_services
                  (Mongo.replace (viewed Sample.rt Sample.cleaning)
                                 (services Sample.db)) Sample.db))
  /\ Service.viewCount (viewed Sample.rt Sample.cleaning) = 1
  /\ Service.updatedAt (viewed Sample.rt Sample.cleaning) = 5001.
Proof.
  split; [|split; [|split; reflexivity]].
  - destruct (getById_not_found_unless_active (P := Sample.platform) Sample.rt
                Sample.db
                (Sample.request GET ["333333333333333333333333"]
                   (Sample.bearer Sample.alice_id) Sample.no_query [])
                "333333333333333333333333" eq_refl eq_refl) as [_ [H _]].
    destruct (H "333333333333333333333333" eq_refl) as [_ [H' _]].
    apply (H' Sample.painting eq_refl). discriminate.
  - destruct (getById_not_found_unless_active (P := Sample.platform) Sample.rt
                Sample.db
                (Sample.request GET ["111111111111111111111111"] None
                   Sample.no_query [])
                "111111111111111111111111" eq_refl eq_refl) as [_ [H _]].
    destruct (H "111111111111111111111111" eq_refl) as [_ [_ H']].
    destruct (H' Sample.cleaning eq_refl eq_refl) as [H'' _].
    apply (H'' eq_refl).
Defined.

(** ** Bodies and the documents made from them *)

Lemma get_app {A : Type} (sel : Field.t -> option A) (b : Body) (f : Field.t) :
  Body.get sel (b ++ [f]) =
    match sel f with
    | Some v => Some v
    | None => Body.get sel b
    end.
Proof. unfold Body.get. rewrite fold_left_app. reflexivity. Qed.

Lemma get_filter {A : Type} (sel : Field.t -> option A) (p : Field.t -> bool) (b : Body) :
  (forall f, sel f <> None -> p f = true) ->
  Body.get sel (filter p b) = Body.get sel b.
Proof.
  intro H. induction b as [|f b IH] using rev_ind; [reflexivity|].
  rewrite filter_app. simpl. rewrite get_app.
  destruct (p f) eqn:E.
  - rewrite get_app. now rewrite IH.
  - rewrite app_nil_r, IH.
    destruct (sel f) eqn:S; [|reflexivity].
    rewrite H in E; [discriminate|congruence].
Qed.

Lemma get_map {A : Type} (sel : Field.t -> option A) (g : Field.t -> Field.t)
      (h : A -> A) (b : Body) :
  (forall f, sel (g f) = option_map h (sel f)) ->
  Body.get sel (map g b) = option_map h (Body.get sel b).
Proof.
  intro H. induction b as [|f b IH] using rev_ind; [reflexivity|].
  rewrite map_app. simpl. rewrite !get_app, H, IH.
  now destruct (sel f).
Qed.

Lemma option_map_id {A : Type} (o : option A) : option_map (fun x => x) o = o.
Proof. now destruct o. Qed.

Lemma sanitized_title b :
  Body.title (sanitized b) = option_map JS.trim (Body.title b).
Proof.
  unfold sanitized, Body.sanitize, Body.title.
  rewrite (get_map _ Body.trim_description (fun x => x)).
  - rewrite option_map_id. apply get_map. now intros [].
  - now intros [].
Qed.

Lemma sanitized_description b :
  Body.description (sanitized b) = option_map JS.trim (Body.description b).
Proof.
  unfold sanitized, Body.sanitize, Body.description.
  rewrite (get_map _ Body.trim_description JS.trim).
  - f_equal. rewrite (get_map _ Body.trim_title (fun x => x)).
    + apply option_map_id.
    + now intros [].
  - now intros [].
Qed.

Lemma sanitized_pricing b : Body.pricing (sanitized b) = Body.pricing b.
Proof.
  unfold sanitized, Body.sanitize, Body.pricing.
  rewrite (get_map _ Body.trim_description (fun x => x)); [|now intros []].
  rewrite (get_map _ Body.trim_title (fun x => x)); [|now intros []].
  now rewrite !option_map_id.
Qed.

Lemma filtered_title b : Body.title (Routes.filteredUpdates b) = Body.title b.
Proof. apply get_filter. intros []; simpl; congruence. Qed.

Lemma filtered_description b :
  Body.description (Routes.filteredUpdates b) = Body.description b.
Proof. apply get_filter. intros []; simpl; congruence. Qed.

Lemma filtered_pricing b : Body.pricing (Routes.filteredUpdates b) = Body.pricing b.
Proof. apply get_filter. intros []; simpl; congruence. Qed.

(** No key of the allow-list is [status], [provider], [isVerified] or
    [isFeatured]. *)
Lemma filtered_keeps_no_status b f :
  In f (Routes.filteredUpdates b) ->
  match f with
  | Field.status _ | Field.provider _ | Field.isVerified _
  | Field.isFeatured _ | Field.featuredUntil _ | Field.category _
  | Field.serviceType _ => False
  | _ => True
  end.
Proof.
  unfold Routes.filteredUpdates. rewrite filter_In. intros [_ H].
  destruct f; simpl in H; try discriminate; exact I.
Qed.

Lemma set_all_app b f d : Doc.set_all (b ++ [f]) d = Doc.set f (Doc.set_all b d).
Proof. unfold Doc.set_all. now rewrite fold_left_app. Qed.

Lemma set_all_id b d : Service._id (Doc.set_all b d) = Service._id d.
Proof.
  induction b as [|f b IH] using rev_ind; [reflexivity|].
  rewrite set_all_app. simpl. exact IH.
Qed.

Lemma set_all_status_kept b d :
  (forall f, In f b -> match f with Field.status _ => False | _ => True end) ->
  Service.status (Doc.set_all b d) = Service.status d.
Proof.
  induction b as [|f b IH] using rev_ind; [reflexivity|].
  intro H. rewrite set_all_app. simpl.
  assert (Hf : match f with Field.status _ => False | _ => True end)
    by (apply H, in_or_app; right; now left).
  destruct f; try contradiction;
    apply IH; intros g Hg; apply H, in_or_app; now left.
Qed.

Lemma isLength_truthy lo hi s :
  (0 < lo)%nat -> Routes.isLength lo hi s = true -> JS.truthy s = true.
Proof.
  unfold Routes.isLength, Routes.len. intros Hlo H.
  destruct s; [|reflexivity].
  simpl in H. apply andb_prop in H. destruct H as [H _].
  apply Nat.leb_le in H. lia.
Qed.

Lemma check_nil ok msg : Routes.check ok msg = [] -> ok = true.
Proof. destruct ok; [reflexivity|discriminate]. Qed.

Lemma check_nil_iff ok msg : Routes.check ok msg = [] <-> ok = true.
Proof. destruct ok; simpl; split; congruence. Qed.

Lemma isLength_spec lo hi s :
  Routes.isLength lo hi s = true <-> (lo <= Routes.len s <= hi)%nat.
Proof.
  unfold Routes.isLength. rewrite andb_true_iff, !Nat.leb_le. tauto.
Qed.

(** What the chains of [PUT /:id] record is empty exactly for a body that
    passes the three validators. *)
Lemma update_chains_verdict req :
  exists errs,
    Routes.update_chains req
      = Next (with_validation (sanitized (body req)) errs req)
    /\ (errs = [] <-> passes_update_validators (body req)).
Proof.
  unfold Routes.update_chains. fold (sanitized (body req)).
  eexists. split; [reflexivity|].
  unfold passes_update_validators, Body.pricing_amount.
  rewrite sanitized_title, sanitized_description, sanitized_pricing.
  split.
  - intro H. apply app_eq_nil in H. destruct H as [Ht H].
    apply app_eq_nil in H. destruct H as [Hd Ha].
    apply check_nil in Ht. apply check_nil in Hd. apply check_nil in Ha.
    split; [|split].
    + intros t E. rewrite E in Ht. now apply isLength_spec.
    + intros d E. rewrite E in Hd. now apply isLength_spec.
    + intros a E. rewrite E in Ha. now apply Qle_bool_iff.
  - intros [Ht [Hd Ha]].
    assert (T : opt_all (Routes.isLength 5 100)
                        (option_map JS.trim (Body.title (body req))) = true).
    { destruct (Body.title (body req)) as [t|]; [|reflexivity].
      apply isLength_spec. now apply Ht. }
    assert (D : opt_all (Routes.isLength 20 1000)
                        (option_map JS.trim (Body.description (body req)))
                = true).
    { destruct (Body.description (body req)) as [d|]; [|reflexivity].
      apply isLength_spec. now apply Hd. }
    rewrite T, D. simpl.
    destruct (match Body.pricing (body req) with
              | Some p => amount p
              | None => None
              end) as [a|]; [|reflexivity].
    simpl. specialize (Ha a eq_refl). apply Qle_bool_iff in Ha. now rewrite Ha.
Qed.

(** ** Update and delete: existence, ownership, verification *)

Section OwnershipFacts.
Context {P : Platform}.

(** The chain of [PUT /:id] for an authenticated service provider. *)
Lemma put_id_of_provider rt db req id u :
  protect db req = Next (with_user u req) ->
  User.userType u = "service_provider" ->
  Router.put_id rt db req [id] =
    if User.isVerified u
    then Router.run (Routes.update_chains (with_user u req)) db
                    (fun r => Routes.update rt db r id)
    else (Routes.reply 403
            (message_json false
               "Account verification required. Please verify your email address.")
            db).
Proof.
  intros Hp Ht. unfold Router.put_id. rewrite Hp. simpl.
  unfold requireServiceProvider. simpl. rewrite Ht. simpl.
  unfold requireVerification. simpl.
  destruct (User.isVerified u); reflexivity.
Qed.

(** The chain of [DELETE /:id] for an authenticated service provider:
    no verification gate, no validation. *)
Lemma delete_id_of_provider rt db req id u :
  protect db req = Next (with_user u req) ->
  User.userType u = "service_provider" ->
  Router.delete_id rt db req [id] = Routes.delete db (with_user u req) id.
Proof.
  intros Hp Ht. unfold Router.delete_id. rewrite Hp. simpl.
  unfold requireServiceProvider. simpl. rewrite Ht. reflexivity.
Qed.

Lemma update_chains_next req :
  exists b errs, Routes.update_chains req = Next (with_validation b errs req).
Proof. unfold Routes.update_chains. now eexists; eexists. Qed.

Lemma update_of_stranger rt db r id oid s owner u :
  castObjectId id = Some oid ->
  Mongo.lookup (services db) oid = Some s ->
  Service.provider s = Some owner ->
  user r = Some u -> owner <> User._id u ->
  Routes.update rt db r id =
    if Routes.isEmpty (validation_errors r)
    then Routes.reply 403
           (message_json false "Not authorized to update this service") db
    else Routes.reply 400 (errors_json (validation_errors r)) db.
Proof.
  intros Hc Hl Ho Hu Hne. unfold Routes.update, Mongo.findById.
  destruct (Routes.isEmpty (validation_errors r)); simpl; [|reflexivity].
  rewrite Hc, Hl. cbn [option_map]. rewrite hydrate_provider, Ho, Hu.
  destruct (owner =? User._id u)%string eqn:E; [|reflexivity].
  apply String.eqb_eq in E. contradiction.
Qed.

Lemma delete_of_stranger db r id oid s owner u :
  castObjectId id = Some oid ->
  Mongo.lookup (services db) oid = Some s ->
  Service.provider s = Some owner ->
  user r = Some u -> owner <> User._id u ->
  Routes.delete db r id =
    Routes.reply 403
      (message_json false "Not authorized to delete this service") db.
Proof.
  intros Hc Hl Ho Hu Hne. unfold Routes.delete, Mongo.findById.
  rewrite Hc, Hl. cbn [option_map]. rewrite hydrate_provider, Ho, Hu.
  destruct (owner =? User._id u)%string eqn:E; [|reflexivity].
  apply String.eqb_eq in E. contradiction.
Qed.

Lemma isEmpty_nil (l : list string) : Routes.isEmpty l = true <-> l = [].
Proof. destruct l; simpl; split; congruence. Qed.

End OwnershipFacts.

(** C5, as stated, fails: a provider who does not own the listing and sends
    an update whose title is too short is answered 400 by the validation
    step, which runs before the listing is looked up. *)
Lemma stranger_update_can_be_400 :
  let req := Sample.request PUT ["111111111111111111111111"]
               (Sample.bearer Sample.bob_id) Sample.no_query [Field.title "abc"] in
  Mongo.lookup (services Sample.db) "111111111111111111111111" = Some Sample.cleaning
  /\ Service.provider Sample.cleaning = Some Sample.alice_id
  /\ protect (P := Sample.platform) Sample.db req
       = Next (with_user (User.select_minus_password Sample.bob) req)
  /\ User.userType Sample.bob = "service_provider"
  /\ Sample.alice_id <> Sample.bob_id
  /\ code_of (Router.serve (P := Sample.platform) Sample.rt Sample.db req) = Some 400.
Proof. repeat split. discriminate. Qed.

(** C5, amended.  For an existing listing and an authenticated service
    provider who is not its provider.  [DELETE /:id] answers 403 "Not
    authorized to delete this service".  [PUT /:id] answers 403 from the
    verification gate when the caller is not verified; when the caller is
    verified, 400 with the recorded errors if the body fails a validator of
    the route, and 403 "Not authorized to update this service" if it passes
    them.  So neither answer is ever 404, and the collections are left as
    they were. *)
Theorem stranger_is_forbidden_not_404 {P : Platform}
        (rt : Runtime) (db : Collections) (req : Request)
        (id : string) (oid : ObjectId) (s : Service.t) (owner : ObjectId) (u : User.t) :
  path req = [id] -> castObjectId id = Some oid ->
  Mongo.lookup (services db) oid = Some s ->
  Service.provider s = Some owner ->
  protect db req = Next (with_user u req) ->
  User.userType u = "service_provider" ->
  owner <> User._id u ->
  (method req = DELETE ->
     Router.serve rt db req
       = Some (Routes.reply 403
                 (message_json false "Not authorized to delete this service")
                 db))
  /\ (method req = PUT ->
      (User.isVerified u = false ->
         Router.serve rt db req
           = Some (Routes.reply 403
                     (message_json false
                        "Account verification required. Please verify your email address.")
                     db))
      /\ (User.isVerified u = true -> passes_update_validators (body req) ->
          Router.serve rt db req
            = Some (Routes.reply 403
                      (message_json false "Not authorized to update this service")
                      db))
      /\ (User.isVerified u = true -> ~ passes_update_validators (body req) ->
          exists errs,
            errs <> []
            /\ Router.serve rt db req
               = Some (Routes.reply 400 (errors_json errs) db))).
Proof.
  intros Hp Hc Hl Ho Ha Ht Hne. split; intro Hm.
  - rewrite (serve_delete_one rt db req _ Hm Hp).
    rewrite (delete_id_of_provider rt db req id u Ha Ht).
    now rewrite (delete_of_stranger db (with_user u req) id oid s owner u
                   Hc Hl Ho eq_refl Hne).
  - rewrite (serve_put_one rt db req _ Hm Hp).
    rewrite (put_id_of_provider rt db req id u Ha Ht).
    split; [intros ->; reflexivity|].
    destruct (update_chains_verdict (with_user u req)) as [errs [E Hv]].
    cbn [body with_user] in E, Hv.
    split; intros -> Hb; rewrite E; cbn [Router.run];
      rewrite (update_of_stranger rt db
                 (with_validation (sanitized (body req)) errs (with_user u req))
                 id oid s owner u Hc Hl Ho eq_refl Hne);
      cbn [validation_errors with_validation].
    + apply Hv in Hb. subst errs. reflexivity.
    + exists errs. split; [intro X; apply Hb, Hv, X|].
      destruct errs; [exfalso; now apply Hb, Hv|reflexivity].
Qed.

Lemma stranger_is_forbidden_not_404_witness :
  Router.serve (P := Sample.platform) Sample.rt Sample.db
    (Sample.request DELETE ["111111111111111111111111"]
       (Sample.bearer Sample.bob_id) Sample.no_query [])
  = Some (Routes.reply 403
            (message_json false "Not authorized to delete this service")
            Sample.db)
  /\ Router.serve (P := Sample.platform) Sample.rt Sample.db
       (Sample.request PUT ["111111111111111111111111"]
          (Sample.bearer Sample.bob_id) Sample.no_query
          [Field.title "Bærø rør"])
     = Some (Routes.reply 403
               (message_json false "Not authorized to update this service")
               Sample.db).
Proof.
  split.
  - destruct (stranger_is_forbidden_not_404 (P := Sample.platform) Sample.rt
                Sample.db
                (Sample.request DELETE ["111111111111111111111111"]
                   (Sample.bearer Sample.bob_id) Sample.no_query [])
                "111111111111111111111111" "111111111111111111111111"
                Sample.cleaning Sample.alice_id
                (User.select_minus_password Sample.bob)
                eq_refl eq_refl eq_refl eq_refl eq_refl eq_refl
                ltac:(discriminate)) as [H _].
    exact (H eq_refl).
  - destruct (stranger_is_forbidden_not_404 (P := Sample.platform) Sample.rt
                Sample.db
                (Sample.request PUT ["111111111111111111111111"]
                   (Sample.bearer Sample.bob_id) Sample.no_query
                   [Field.title "Bærø rør"])
                "111111111111111111111111" "111111111111111111111111"
                Sample.cleaning Sample.alice_id
                (User.select_minus_password Sample.bob)
                eq_refl eq_refl eq_refl eq_refl eq_refl eq_refl
                ltac:(discriminate)) as [_ H].
    destruct (H eq_refl) as [_ [H' _]].
    apply (H' eq_refl).
    split; [|split].
    + intros t [= <-]. vm_compute. lia.
    + intros d [=].
    + intros a [=].
Defined.

Section DeleteFacts.
Context {P : Platform}.



End DeleteFacts.




Section ProtectFacts.
Context {P : Platform}.

Lemma protect_answers_401 db req r : protect db req = Respond r -> code r = 401.
Proof.
  intro Hr. destruct (protect_cases db req) as [[_ Hp]|[tok [_ [_ C]]]];
    [rewrite Hp in Hr; now inversion Hr|].
  destruct C as [[_ Hp]|[d [_ C]]]; [rewrite Hp in Hr; now inversion Hr|].
  destruct C as [[_ Hp]|[[_ Hp]|[u [_ C]]]];
    try (rewrite Hp in Hr; now inversion Hr).
  destruct C as [[_ Hp]|[_ Hp]]; rewrite Hp in Hr; [now inversion Hr|discriminate].
Qed.

Lemma protect_passes_user db req req' :
  protect db req = Next req' -> exists u, req' = with_user u req.
Proof.
  intro Hn. destruct (protect_cases db req) as [[_ Hp]|[tok [_ [_ C]]]];
    [rewrite Hp in Hn; discriminate|].
  destruct C as [[_ Hp]|[d [_ C]]]; [rewrite Hp in Hn; discriminate|].
  destruct C as [[_ Hp]|[[_ Hp]|[u [_ C]]]];
    try (rewrite Hp in Hn; discriminate).
  destruct C as [[_ Hp]|[_ Hp]]; [rewrite Hp in Hn; discriminate|].
  exists u. congruence.
Qed.

(** The three gates in front of [POST /] and [PUT /:id]: either one of
    them answers, with 401 or 403, or the caller is an authenticated,
    verified service provider. *)
Lemma gates db req :
  (exists r, and_then (and_then (protect db req) requireServiceProvider)
                      requireVerification = Respond r
             /\ (code r = 401 \/ code r = 403))
  \/ exists u, protect db req = Next (with_user u req)
       /\ User.userType u = "service_provider" /\ User.isVerified u = true
       /\ and_then (and_then (protect db req) requireServiceProvider)
                   requireVerification = Next (with_user u req).
Proof.
  destruct (protect db req) as [r|req'] eqn:Hp.
  - left. exists r. split; [reflexivity|]. left. now apply protect_answers_401 with (1 := Hp).
  - destruct (protect_passes_user db req req' Hp) as [u ->]. simpl.
    unfold requireServiceProvider. simpl.
    destruct (User.userType u =? "service_provider")%string eqn:E; simpl.
    + apply String.eqb_eq in E. unfold requireVerification. simpl.
      destruct (User.isVerified u) eqn:V; simpl.
      * right. exists u. now repeat split.
      * left. eexists. split; [reflexivity|]. now right.
    + left. eexists. split; [reflexivity|]. now right.
Qed.

End ProtectFacts.

(** ** Update: the status reset *)

Lemma update_accepted rt db r id resp db' :
  Routes.update rt db r id = (resp, db') -> code resp = 200 ->
  exists oid s u,
    castObjectId id = Some oid /\ validation_errors r = [] /\
    Mongo.lookup (services db) oid = Some s /\
    Service.provider s = Some (User._id u) /\ user r = Some u /\
    forallb Doc.validate_update_field
            (Routes.with_reset (Routes.filteredUpdates (body r))) = true /\
    resp = {| code := 200;
              json := service_json (Some "Service updated successfully")
                        (Some (Doc.hydrate (updated rt (body r) s))) |} /\
    db' = with_services (Mongo.replace (updated rt (body r) s) (services db)) db.
Proof.
  unfold Routes.update, Mongo.findById, Model.findByIdAndUpdate, Routes.reply,
    Routes.server_error, updated.
  destruct (Routes.isEmpty (validation_errors r)) eqn:He; simpl;
    [|intros [= <- <-]; discriminate].
  apply isEmpty_nil in He.
  destruct (castObjectId id) as [oid|] eqn:Hc; [|intros [= <- <-]; discriminate].
  destruct (Mongo.lookup (services db) oid) as [s|] eqn:Hl;
    [|intros [= <- <-]; discriminate].
  cbn [option_map]. rewrite hydrate_provider, hydrate_id.
  destruct (Service.provider s) as [owner|] eqn:Ho; [|intros [= <- <-]; discriminate].
  destruct (user r) as [u|] eqn:Hu; [|intros [= <- <-]; discriminate].
  destruct (owner =? User._id u)%string eqn:E; simpl;
    [|intros [= <- <-]; discriminate].
  apply String.eqb_eq in E. subst owner.
  destruct (forallb Doc.validate_update_field
              (Routes.with_reset (Routes.filteredUpdates (body r)))) eqn:Hv; simpl;
    [|intros [= <- <-]; discriminate].
  intros [= <- <-] _. exists oid, s, u. now repeat split.
Qed.

Lemma get_In {A : Type} (sel : Field.t -> option A) (b : Body) (v : A) :
  Body.get sel b = Some v -> exists f, In f b /\ sel f = Some v.
Proof.
  induction b as [|f b IH] using rev_ind; [discriminate|].
  rewrite get_app. destruct (sel f) as [w|] eqn:E.
  - intros [= <-]. exists f. split; [apply in_or_app; right; now left|exact E].
  - intro H. destruct (IH H) as [g [Hg Hs]].
    exists g. split; [apply in_or_app; now left|exact Hs].
Qed.

(** An update that passes the update validators and sets the pricing sets
    it with a type and an amount. *)
Lemma accepted_pricing_is_whole b p :
  forallb Doc.validate_update_field
          (Routes.with_reset (Routes.filteredUpdates (sanitized b))) = true ->
  Body.pricing b = Some p -> type p <> None /\ amount p <> None.
Proof.
  intros Hv Hp. rewrite <- sanitized_pricing, <- filtered_pricing in Hp.
  destruct (get_In _ _ _ Hp) as [f [Hf Hs]].
  destruct f; try discriminate Hs. injection Hs as ->.
  rewrite forallb_forall in Hv.
  assert (Hin : In (Field.pricing p)
                   (Routes.with_reset (Routes.filteredUpdates (sanitized b)))).
  { unfold Routes.with_reset. destruct (Routes.significant _); [|exact Hf].
    apply in_or_app. now left. }
  specialize (Hv _ Hin). simpl in Hv.
  apply andb_prop in Hv. destruct Hv as [Hv _].
  apply andb_prop in Hv. destruct Hv as [Ht Ha].
  split; [destruct (type p)|destruct (amount p)]; (discriminate || congruence).
Qed.

(** A body that passes the validators of the route and has a title, a
    description or a pricing makes a significant update. *)
Lemma significant_of_present b :
  passes_update_validators b ->
  Body.title b <> None \/ Body.description b <> None \/ Body.pricing b <> None ->
  Routes.significant (Routes.filteredUpdates (sanitized b)) = true.
Proof.
  intros [Ht [Hd _]] Hset. unfold Routes.significant.
  rewrite filtered_title, filtered_description, filtered_pricing.
  rewrite sanitized_title, sanitized_description, sanitized_pricing.
  destruct Hset as [Hset|[Hset|Hset]].
  - destruct (Body.title b) as [t|]; [|congruence].
    specialize (Ht t eq_refl). apply isLength_spec in Ht.
    simpl. now rewrite (isLength_truthy 5 100 _ ltac:(lia) Ht).
  - destruct (Body.description b) as [t|]; [|congruence].
    specialize (Hd t eq_refl). apply isLength_spec in Hd.
    simpl. rewrite (isLength_truthy 20 1000 _ ltac:(lia) Hd).
    now rewrite orb_true_r.
  - destruct (Body.pricing b); [|congruence].
    simpl. now rewrite orb_true_r.
Qed.

Lemma significant_of_absent b :
  Body.title b = None -> Body.description b = None -> Body.pricing b = None ->
  Routes.significant (Routes.filteredUpdates (sanitized b)) = false.
Proof.
  intros Ht Hd Hp. unfold Routes.significant.
  rewrite filtered_title, filtered_description, filtered_pricing.
  rewrite sanitized_title, sanitized_description, sanitized_pricing.
  now rewrite Ht, Hd, Hp.
Qed.

Section UpdateFacts.
Context {P : Platform}.

(** What stands behind a 200 of [PUT /:id]. *)
Lemma put_200 rt db req id r db' :
  Router.put_id rt db req [id] = (r, db') -> code r = 200 ->
  exists u oid s,
    protect db req = Next (with_user u req)
    /\ User.userType u = "service_provider" /\ User.isVerified u = true
    /\ castObjectId id = Some oid
    /\ Mongo.lookup (services db) oid = Some s
    /\ Service.provider s = Some (User._id u)
    /\ passes_update_validators (body req)
    /\ forallb Doc.validate_update_field
               (Routes.with_reset
                  (Routes.filteredUpdates (sanitized (body req)))) = true
    /\ r = {| code := 200;
              json := service_json (Some "Service updated successfully")
                        (Some (Doc.hydrate
                                 (updated rt (sanitized (body req)) s))) |}
    /\ db' = with_services
               (Mongo.replace (updated rt (sanitized (body req)) s)
                              (services db)) db.
Proof.
  unfold Router.put_id. intros H Hc.
  destruct (gates db req) as [[r0 [G Hcode]]|[u [Hp [Ht [Hv G]]]]];
    rewrite G in H; cbn [and_then Router.run] in H.
  - injection H as <- <-. lia.
  - destruct (update_chains_verdict (with_user u req)) as [errs [E Hpass]].
    cbn [body with_user] in E, Hpass. rewrite E in H. cbn [Router.run] in H.
    destruct (update_accepted rt db _ id r db' H Hc)
      as [oid [s [u' [Hcast [He [Hl [Ho [Hu [Hval [-> ->]]]]]]]]]].
    cbn [validation_errors with_validation user with_user body] in *.
    injection Hu as <-. subst errs.
    exists u, oid, s. repeat (split; [assumption|]).
    split; [now apply Hpass|]. now repeat split.
Qed.

End UpdateFacts.

(** An update that sets the pricing without its type is not accepted: the
    update validators reject it and the answer is 500. *)
Example update_with_partial_pricing :
  Router.serve (P := Sample.platform) Sample.rt Sample.db
    (Sample.request PUT ["111111111111111111111111"]
       (Sample.bearer Sample.alice_id) Sample.no_query
       [Field.pricing {| type := None; amount := Some 50%Q; currency := None |}])
  = Some (Routes.server_error "Server error while updating service" Sample.db).
Proof. reflexivity. Qed.

(** C3.  Whenever [PUT /:id] answers 200, the body passed the validators of
    the route and of the update, so a pricing in it has a type and an
    amount; the listing stored under the id afterwards is the old one with
    the allowed paths of the body set and [updatedAt] stamped, and the
    answer carries the document built from it.  If the body has a [title],
    a [description] or a [pricing], the stored status is [pending_review];
    if it has none of them the status is what it was.  Either way a
    [status] in the body is not written. *)
Theorem update_resets_status {P : Platform}
        (rt : Runtime) (db : Collections) (req : Request) (id : string)
        (r : Response) (db' : Collections) :
  method req = PUT -> path req = [id] ->
  Router.serve rt db req = Some (r, db') -> code r = 200 ->
  exists oid s s',
    castObjectId id = Some oid /\
    Mongo.lookup (services db) oid = Some s /\
    s' = updated rt (sanitized (body req)) s /\
    Mongo.lookup (services db') oid = Some s' /\
    json r = service_json (Some "Service updated successfully")
                          (Some (Doc.hydrate s')) /\
    passes_update_validators (body req) /\
    (forall p, Body.pricing (body req) = Some p ->
       type p <> None /\ amount p <> None) /\
    ((Body.title (body req) <> None \/ Body.description (body req) <> None
      \/ Body.pricing (body req) <> None) ->
     Service.status s' = "pending_review") /\
    ((Body.title (body req) = None /\ Body.description (body req) = None
      /\ Body.pricing (body req) = None) ->
     Service.status s' = Service.status s).
Proof.
  intros Hm Hp Hs H200. rewrite (serve_put_one rt db req _ Hm Hp) in Hs.
  injection Hs as Hs.
  destruct (put_200 rt db req id r db' Hs H200)
    as [u [oid [s [_ [_ [_ [Hc [Hl [_ [Hpass [Hval [-> ->]]]]]]]]]]]].
  exists oid, s, (updated rt (sanitized (body req)) s).
  split; [exact Hc|]. split; [exact Hl|]. split; [reflexivity|].
  split.
  { cbn [services with_services].
    assert (Hid : Service._id (updated rt (sanitized (body req)) s) = oid)
      by (unfold updated; simpl; rewrite set_all_id;
          now apply lookup_id with (1 := Hl)).
    pose proof (lookup_replace (services db)
                  (updated rt (sanitized (body req)) s)) as L.
    rewrite Hid in L. apply L. rewrite Hl. discriminate. }
  split; [reflexivity|]. split; [exact Hpass|].
  split; [intros p; now apply accepted_pricing_is_whole|].
  unfold updated, Routes.with_reset. cbn [Service.status Doc.set_updatedAt].
  split.
  - intro Hset. rewrite (significant_of_present _ Hpass Hset).
    now rewrite set_all_app.
  - intros [Ht0 [Hd0 Hp0]]. rewrite (significant_of_absent _ Ht0 Hd0 Hp0).
    apply set_all_status_kept. intros f Hf.
    apply filtered_keeps_no_status in Hf. now destruct f.
Qed.

Lemma update_resets_status_witness :
  (* the owner renames an active listing and asks for it to stay active *)
  let req := Sample.request PUT ["111111111111111111111111"]
               (Sample.bearer Sample.alice_id) Sample.no_query
               [Field.title "Deep cleaning"; Field.status "active"] in
  exists r db' s',
    Router.serve (P := Sample.platform) Sample.rt Sample.db req = Some (r, db')
    /\ code r = 200
    /\ Service.status Sample.cleaning = "active"
    /\ Mongo.lookup (services db') "111111111111111111111111" = Some s'
    /\ Service.title s' = Some "Deep cleaning"
    /\ Service.updatedAt s' = 5001
    /\ Service.status s' = "pending_review".
Proof.
  intro req.
  destruct (Router.serve (P := Sample.platform) Sample.rt Sample.db req)
    as [[r db']|] eqn:E; [|vm_compute in E; discriminate E].
  assert (H200 : code r = 200) by (vm_compute in E; now injection E as <- _).
  destruct (update_resets_status (P := Sample.platform) Sample.rt Sample.db req
              "111111111111111111111111" r db' eq_refl eq_refl E H200)
    as [oid [s [s' [Hc [Hl [Hs' [Hl' [_ [_ [_ [Hset _]]]]]]]]]]].
  vm_compute in Hc. injection Hc as <-.
  vm_compute in Hl. injection Hl as <-.
  exists r, db', s'. split; [reflexivity|]. split; [exact H200|].
  split; [reflexivity|]. split; [exact Hl'|].
  split; [rewrite Hs'; vm_compute; reflexivity|].
  split; [rewrite Hs'; reflexivity|].
  apply Hset. left. discriminate.
Defined.

(** ** Create *)

Lemma sanitized_category b : Body.category (sanitized b) = Body.category b.
Proof.
  unfold sanitized, Body.sanitize, Body.category.
  rewrite (get_map _ Body.trim_description (fun x => x)); [|now intros []].
  rewrite (get_map _ Body.trim_title (fun x => x)); [|now intros []].
  now rewrite !option_map_id.
Qed.

Lemma sanitized_serviceArea b : Body.serviceArea (sanitized b) = Body.serviceArea b.
Proof.
  unfold sanitized, Body.sanitize, Body.serviceArea.
  rewrite (get_map _ Body.trim_description (fun x => x)); [|now intros []].
  rewrite (get_map _ Body.trim_title (fun x => x)); [|now intros []].
  now rewrite !option_map_id.
Qed.

Lemma isIn_In v l : isIn v l = true <-> In v l.
Proof.
  unfold isIn. rewrite existsb_exists. split.
  - intros [x [Hx E]]. apply String.eqb_eq in E. now subst.
  - intro H. exists v. split; [assumption|apply String.eqb_refl].
Qed.


Lemma create_chains_pass req :
  passes_create_validators (body req) ->
  Routes.create_chains req = Next (with_validation (sanitized (body req)) [] req).
Proof.
  intros [[t [Ht Htl]] [[d [Hd Hdl]] [[c [Hc Hcl]] [[ty [Hty Htyl]]
            [[a [Ha Hal]] [l [Hl Hll]]]]]]].
  unfold Routes.create_chains. fold (sanitized (body req)).
  unfold Body.pricing_type, Body.pricing_amount, Body.serviceArea_cities in *.
  rewrite sanitized_title, sanitized_description, sanitized_category,
    sanitized_pricing, sanitized_serviceArea.
  rewrite Ht, Hd, Hc.
  destruct (Body.pricing (body req)) as [p|]; [|discriminate].
  destruct (Body.serviceArea (body req)) as [sa|]; [|discriminate].
  rewrite Hty, Ha, Hl. cbn [option_map opt_some].
  apply isLength_spec in Htl, Hdl. rewrite Htl, Hdl.
  apply isIn_In in Hcl, Htyl. rewrite Hcl, Htyl.
  apply Qle_bool_iff in Hal. rewrite Hal.
  destruct l; [contradiction|reflexivity].
Qed.

(** What the chains of [POST /] record is empty exactly for a body that
    passes the six validators. *)
Lemma create_chains_verdict req :
  exists errs,
    Routes.create_chains req
      = Next (with_validation (sanitized (body req)) errs req)
    /\ (errs = [] <-> passes_create_validators (body req)).
Proof.
  unfold Routes.create_chains. fold (sanitized (body req)).
  eexists. split; [reflexivity|].
  split.
  - unfold passes_create_validators, Body.pricing_type, Body.pricing_amount,
      Body.serviceArea_cities.
    rewrite sanitized_title, sanitized_description, sanitized_category,
      sanitized_pricing, sanitized_serviceArea.
    intro H.
    apply app_eq_nil in H. destruct H as [Ht H].
    apply app_eq_nil in H. destruct H as [Hd H].
    apply app_eq_nil in H. destruct H as [Hc H].
    apply app_eq_nil in H. destruct H as [Hty H].
    apply app_eq_nil in H. destruct H as [Ha Hl].
    apply check_nil in Ht, Hd, Hc, Hty, Ha, Hl.
    destruct (Body.title (body req)) as [t|]; [|discriminate Ht].
    destruct (Body.description (body req)) as [d|]; [|discriminate Hd].
    destruct (Body.category (body req)) as [c|]; [|discriminate Hc].
    destruct (Body.pricing (body req)) as [p|]; [|discriminate Hty].
    destruct (type p) as [ty|]; [|discriminate Hty].
    destruct (amount p) as [a|]; [|discriminate Ha].
    destruct (Body.serviceArea (body req)) as [[l|]|]; try discriminate Hl.
    cbn [option_map opt_some] in *.
    split; [exists (t); split; [reflexivity|now apply isLength_spec]|].
    split; [exists d; split; [reflexivity|now apply isLength_spec]|].
    split; [exists c; split; [reflexivity|now apply isIn_In]|].
    split; [exists ty; split; [reflexivity|now apply isIn_In]|].
    split; [exists a; split; [reflexivity|now apply Qle_bool_iff]|].
    exists l. split; [reflexivity|].
    intros ->. discriminate Hl.
  - intro H. pose proof (create_chains_pass req H) as E.
    unfold Routes.create_chains in E. fold (sanitized (body req)) in E.
    apply (f_equal (fun s => match s with
                             | Next r => validation_errors r
                             | Respond _ => []
                             end)) in E.
    exact E.
Qed.

Lemma default_currency_keeps s :
  Service.status (Doc.default_currency s) = Service.status s
  /\ Service.provider (Doc.default_currency s) = Service.provider s.
Proof.
  unfold Doc.default_currency.
  destruct (currency (Service.pricing s)); now split.
Qed.

Lemma new_is_pending id now u b :
  Service.status (Doc.new id now (Routes.serviceData u b)) = "pending_review"
  /\ Service.provider (Doc.new id now (Routes.serviceData u b)) = Some (User._id u).
Proof.
  unfold Doc.new, Routes.serviceData.
  destruct (default_currency_keeps
              (Doc.set_all (b ++ [Field.provider (User._id u);
                                  Field.status "pending_review"])
                           (Doc.defaults id now))) as [-> ->].
  replace (b ++ [Field.provider (User._id u); Field.status "pending_review"])
    with ((b ++ [Field.provider (User._id u)]) ++ [Field.status "pending_review"])
    by (now rewrite <- app_assoc).
  rewrite !set_all_app. now split.
Qed.

Lemma post_root_of_provider {P : Platform} rt db req u :
  protect db req = Next (with_user u req) ->
  User.userType u = "service_provider" -> User.isVerified u = true ->
  Router.post_root rt db req [] =
    Router.run (Routes.create_chains (with_user u req)) db (Routes.create rt db).
Proof.
  intros Ha Ht Hv. unfold Router.post_root. rewrite Ha. simpl.
  unfold requireServiceProvider. simpl. rewrite Ht. simpl.
  unfold requireVerification. simpl. rewrite Hv. reflexivity.
Qed.

(** C2, as stated, fails: a verified provider sends a body that passes the
    six validators of the route and asks for 5 minutes of duration; the
    schema's minimum of 15 rejects the document on save, the answer is 500
    and nothing is stored. *)
Lemma create_can_be_rejected_by_schema :
  let b := [Field.title "House washing";
            Field.description "We wash houses inside and outside.";
            Field.category "home_services";
            Field.pricing {| type := Some "fixed"; amount := Some 100%Q;
                             currency := None |};
            Field.serviceArea (Some ["Oslo"]);
            Field.duration 5%Q] in
  let req := Sample.request POST [] (Sample.bearer Sample.alice_id)
               Sample.no_query b in
  User.userType Sample.alice = "service_provider"
  /\ User.isVerified Sample.alice = true
  /\ Routes.create_chains req = Next (with_validation b [] req)
  /\ Router.serve (P := Sample.platform) Sample.rt Sample.db req
       = Some (Routes.server_error "Server error while creating service" Sample.db).
Proof. repeat split. Qed.

(** C2, amended.  For an authenticated, verified service provider and a body
    that passes the six validators of the route, the document built for the
    request has the caller as provider and status [pending_review], whatever
    status or provider the body carries.  If that document passes the
    validators of the schema and its fresh id is not in the collection, the
    answer is 201 with the document, which is appended to the collection.
    If it fails a validator of the schema, or the id is in use, the answer
    is 500 and nothing is stored. *)
Theorem create_forces_pending_review {P : Platform}
        (rt : Runtime) (db : Collections) (req : Request) (u : User.t)
        (d : Service.t) :
  method req = POST -> path req = [] ->
  protect db req = Next (with_user u req) ->
  User.userType u = "service_provider" -> User.isVerified u = true ->
  passes_create_validators (body req) ->
  d = Doc.new (newObjectId rt) (now rt)
              (Routes.serviceData u (sanitized (body req))) ->
  Service.provider d = Some (User._id u)
  /\ Service.status d = "pending_review"
  /\ Service._id d = newObjectId rt
  /\ (Doc.validate d = true ->
      Mongo.lookup (services db) (newObjectId rt) = None ->
      Router.serve rt db req
        = Some (Routes.reply 201
                  (service_json
                     (Some "Service created successfully and pending review")
                     (Some d))
                  (with_services (services db ++ [d]) db)))
  /\ (Doc.validate d = false ->
      Router.serve rt db req
        = Some (Routes.server_error "Server error while creating service" db))
  /\ (Mongo.lookup (services db) (newObjectId rt) <> None ->
      Router.serve rt db req
        = Some (Routes.server_error "Server error while creating service" db)).
Proof.
  intros Hm Hp Ha Ht Hv Hb ->.
  destruct (new_is_pending (newObjectId rt) (now rt) u (sanitized (body req)))
    as [Hst Hpr].
  split; [exact Hpr|]. split; [exact Hst|].
  set (service := Doc.new (newObjectId rt) (now rt)
                          (Routes.serviceData u (sanitized (body req)))).
  assert (Hid : Service._id service = newObjectId rt).
  { unfold service, Doc.new, Doc.default_currency.
    destruct (currency _); simpl; now rewrite set_all_id. }
  split; [exact Hid|].
  rewrite (serve_post_root rt db req Hm Hp).
  rewrite (post_root_of_provider rt db req u Ha Ht Hv).
  rewrite (create_chains_pass (with_user u req) Hb).
  unfold Router.run, Routes.create. cbn [validation_errors with_validation
    Routes.isEmpty negb user with_user body].
  unfold Model.save_new. fold service. rewrite Hid.
  split; [|split].
  - intros Hval Hfresh. now rewrite Hval, Hfresh.
  - intros Hval. now rewrite Hval.
  - intros Hused. destruct (Doc.validate service); [|reflexivity].
    cbn [negb].
    destruct (Mongo.lookup (services db) (newObjectId rt)); [reflexivity|].
    congruence.
Qed.

Lemma create_forces_pending_review_witness :
  (* a title padded with a no-break space, a status and a provider in the
     body *)
  let b := [Field.title (String "194" (String "160" " Rørlegger "));
            Field.description "Vi reparerer rør og kraner.";
            Field.category "home_services";
            Field.pricing {| type := Some "fixed"; amount := Some 100%Q;
                             currency := None |};
            Field.serviceArea (Some ["Oslo"]);
            Field.status "active"; Field.provider Sample.bob_id] in
  let req := Sample.request POST [] (Sample.bearer Sample.alice_id)
               Sample.no_query b in
  let s := Doc.new (newObjectId Sample.rt) (now Sample.rt)
             (Routes.serviceData (User.select_minus_password Sample.alice)
                                 (sanitized b)) in
  Router.serve (P := Sample.platform) Sample.rt Sample.db req
    = Some (Routes.reply 201
              (service_json
                 (Some "Service created successfully and pending review")
                 (Some s))
              (with_services (services Sample.db ++ [s]) Sample.db))
  /\ Service.title s = Some "Rørlegger"
  /\ Service.provider s = Some Sample.alice_id
  /\ Service.status s = "pending_review"
  (* the same with a duration the schema rejects *)
  /\ Router.serve (P := Sample.platform) Sample.rt Sample.db
       (Sample.request POST [] (Sample.bearer Sample.alice_id) Sample.no_query
          (b ++ [Field.duration 5%Q]))
     = Some (Routes.server_error "Server error while creating service"
                                 Sample.db).
Proof.
  intros b req s.
  split; [|split; [vm_compute; reflexivity|]].
  - destruct (create_forces_pending_review (P := Sample.platform) Sample.rt
                Sample.db req (User.select_minus_password Sample.alice) s
                eq_refl eq_refl eq_refl eq_refl eq_refl)
      as [_ [_ [_ [Hok _]]]].
    + unfold passes_create_validators; repeat split;
        (eexists; split;
         [vm_compute; reflexivity
         |first [vm_compute; lia|simpl; tauto|discriminate]]).
    + reflexivity.
    + apply Hok; vm_compute; reflexivity.
  - destruct (create_forces_pending_review (P := Sample.platform) Sample.rt
                Sample.db
                (Sample.request POST [] (Sample.bearer Sample.alice_id)
                   Sample.no_query (b ++ [Field.duration 5%Q]))
                (User.select_minus_password Sample.alice)
                (Doc.new (newObjectId Sample.rt) (now Sample.rt)
                   (Routes.serviceData (User.select_minus_password Sample.alice)
                      (sanitized (b ++ [Field.duration 5%Q]))))
                eq_refl eq_refl eq_refl eq_refl eq_refl)
      as [Hpr [Hst [_ [_ [Hbad _]]]]].
    + unfold passes_create_validators; repeat split;
        (eexists; split;
         [vm_compute; reflexivity
         |first [vm_compute; lia|simpl; tauto|discriminate]]).
    + reflexivity.
    + split; [exact Hpr|]. split; [exact Hst|].
      apply Hbad. vm_compute. reflexivity.
Defined.

(** ** Sorting *)

Lemma compare_value_consistent : Consistent Mongo.compare_value.
Proof.
  unfold Consistent, Mongo.compare_value. repeat split.
  - intros [x|] [y|]; try reflexivity. symmetry. apply Qcompare_antisym.
  - intros [x|] [y|] [z|]; try discriminate; try reflexivity.
    rewrite <- !Qeq_alt. apply Qeq_trans.
  - intros [x|] [y|] [z|]; try discriminate; try reflexivity.
    rewrite <- !Qlt_alt. apply Qlt_trans.
  - intros [x|] [y|] [z|]; try discriminate; try reflexivity.
    rewrite <- Qeq_alt, <- !Qlt_alt. intros E L.
    apply Qle_lt_trans with y; [|exact L]. apply Qle_lteq. now right.
  - intros [x|] [y|] [z|]; try discriminate; try reflexivity.
    rewrite <- Qeq_alt, <- !Qlt_alt. intros L E.
    apply Qlt_le_trans with y; [exact L|]. apply Qle_lteq. now right.
Qed.

Lemma consistent_on {A B : Type} (cmp : B -> B -> comparison) (f : A -> B) :
  Consistent cmp -> Consistent (fun a b => cmp (f a) (f b)).
Proof.
  intros [H1 [H2 [H3 [H4 H5]]]]. unfold Consistent. repeat split; intros.
  - apply H1.
  - eapply H2; eassumption.
  - eapply H3; eassumption.
  - eapply H4; eassumption.
  - eapply H5; eassumption.
Qed.

Lemma CompOpp_Lt c : CompOpp c = Lt <-> c = Gt.
Proof. destruct c; simpl; split; congruence. Qed.

Lemma CompOpp_Eq c : CompOpp c = Eq <-> c = Eq.
Proof. destruct c; simpl; split; congruence. Qed.

Lemma consistent_flip {A : Type} (cmp : A -> A -> comparison) :
  Consistent cmp -> Consistent (fun a b => CompOpp (cmp a b)).
Proof.
  intros [H1 [H2 [H3 [H4 H5]]]]. unfold Consistent. repeat split.
  - intros a b. now rewrite (H1 a b).
  - intros a b c. rewrite !CompOpp_Eq. apply H2.
  - intros a b c. rewrite <- (H1 a b), <- (H1 b c), <- (H1 a c).
    intros X Y. now apply H3 with b.
  - intros a b c. rewrite <- (H1 a b), <- (H1 b c), <- (H1 a c).
    intros X Y. now apply H5 with b.
  - intros a b c. rewrite <- (H1 a b), <- (H1 b c), <- (H1 a c).
    intros X Y. now apply H4 with b.
Qed.

Lemma consistent_lex {A : Type} (c1 c2 : A -> A -> comparison) :
  Consistent c1 -> Consistent c2 ->
  Consistent (fun a b => match c1 a b with Eq => c2 a b | c => c end).
Proof.
  intros [A1 [A2 [A3 [A4 A5]]]] [B1 [B2 [B3 [B4 B5]]]].
  unfold Consistent. repeat split.
  - intros a b. rewrite (A1 a b), (B1 a b). now destruct (c1 a b).
  - intros a b c.
    destruct (c1 a b) eqn:X; try discriminate.
    destruct (c1 b c) eqn:Y; try discriminate.
    rewrite (A2 a b c X Y). apply B2.
  - intros a b c.
    destruct (c1 a b) eqn:X; try discriminate;
      destruct (c1 b c) eqn:Y; try discriminate.
    + rewrite (A2 a b c X Y). apply B3.
    + now rewrite (A4 a b c X Y).
    + now rewrite (A5 a b c X Y).
    + now rewrite (A3 a b c X Y).
  - intros a b c.
    destruct (c1 a b) eqn:X; try discriminate;
      destruct (c1 b c) eqn:Y; try discriminate.
    + rewrite (A2 a b c X Y). apply B4.
    + now rewrite (A4 a b c X Y).
  - intros a b c.
    destruct (c1 a b) eqn:X; try discriminate;
      destruct (c1 b c) eqn:Y; try discriminate.
    + rewrite (A2 a b c X Y). apply B5.
    + now rewrite (A5 a b c X Y).
Qed.

Lemma compare_by_consistent o : Consistent (Mongo.compare_by o).
Proof.
  induction o as [|[k d] o IH].
  - unfold Consistent. simpl. repeat split; congruence.
  - simpl. apply consistent_lex; [|exact IH].
    pose proof (consistent_on Mongo.compare_value (Mongo.sort_value k)
                  compare_value_consistent) as C.
    destruct d; [exact C|]. now apply consistent_flip.
Qed.

Lemma ordered_total o a b : Mongo.before o a b = false -> ordered o b a.
Proof.
  unfold ordered, Mongo.before.
  destruct (compare_by_consistent o) as [H1 _]. rewrite (H1 a b).
  now destruct (Mongo.compare_by o a b).
Qed.

Lemma ordered_trans o a b c : ordered o a b -> ordered o b c -> ordered o a c.
Proof.
  unfold ordered, Mongo.before.
  destruct (compare_by_consistent o) as [_ [H2 [H3 [H4 H5]]]].
  destruct (Mongo.compare_by o a b) eqn:X; try discriminate;
    destruct (Mongo.compare_by o b c) eqn:Y; try discriminate; intros _ _.
  - now rewrite (H2 a b c X Y).
  - now rewrite (H4 a b c X Y).
  - now rewrite (H5 a b c X Y).
  - now rewrite (H3 a b c X Y).
Qed.

Lemma In_insert o x l z : In z (Mongo.insert o x l) <-> z = x \/ In z l.
Proof.
  induction l as [|y l IH]; simpl.
  - intuition.
  - destruct (Mongo.before o x y); simpl; [intuition|].
    rewrite IH. intuition.
Qed.

Lemma insert_sorted o x l :
  StronglySorted (ordered o) l -> StronglySorted (ordered o) (Mongo.insert o x l).
Proof.
  induction 1 as [|y l Hl IH Hy]; simpl.
  - constructor; constructor.
  - destruct (Mongo.before o x y) eqn:E.
    + constructor; [now constructor|].
      constructor; [exact E|].
      rewrite Forall_forall in Hy |- *. intros z Hz.
      apply ordered_trans with y; [exact E|now apply Hy].
    + constructor; [exact IH|].
      rewrite Forall_forall in Hy |- *. intros z Hz.
      apply In_insert in Hz. destruct Hz as [->|Hz].
      * now apply ordered_total.
      * now apply Hy.
Qed.

Lemma sort_by_sorted o l : StronglySorted (ordered o) (Mongo.sort_by o l).
Proof.
  induction l as [|x l IH]; simpl; [constructor|now apply insert_sorted].
Qed.

Lemma In_sort_by o l z : In z (Mongo.sort_by o l) <-> In z l.
Proof.
  induction l as [|x l IH]; simpl; [tauto|].
  rewrite In_insert, IH. intuition.
Qed.

Lemma insert_length o x l : length (Mongo.insert o x l) = S (length l).
Proof.
  induction l as [|y l IH]; simpl; [reflexivity|].
  destruct (Mongo.before o x y); simpl; [reflexivity|now rewrite IH].
Qed.

Lemma sort_by_length o l : length (Mongo.sort_by o l) = length l.
Proof.
  induction l as [|x l IH]; simpl; [reflexivity|].
  now rewrite insert_length, IH.
Qed.

Lemma In_firstn {A : Type} n (l : list A) x : In x (firstn n l) -> In x l.
Proof.
  intro H. rewrite <- (firstn_skipn n l). apply in_or_app. now left.
Qed.

Lemma In_skipn {A : Type} n (l : list A) x : In x (skipn n l) -> In x l.
Proof.
  intro H. rewrite <- (firstn_skipn n l). apply in_or_app. now right.
Qed.

Lemma firstn_sorted {A : Type} (R : A -> A -> Prop) n l :
  StronglySorted R l -> StronglySorted R (firstn n l).
Proof.
  intro H. revert n. induction H as [|x l Hl IH Hx]; intro n.
  - rewrite firstn_nil. constructor.
  - destruct n; simpl; constructor; [apply IH|].
    rewrite Forall_forall in Hx |- *. intros z Hz.
    apply Hx. now apply In_firstn with n.
Qed.

Lemma skipn_sorted {A : Type} (R : A -> A -> Prop) n l :
  StronglySorted R l -> StronglySorted R (skipn n l).
Proof.
  intro H. revert n. induction H as [|x l Hl IH Hx]; intro n.
  - rewrite skipn_nil. constructor.
  - destruct n; simpl; [now constructor|apply IH].
Qed.

(** ** Queries *)

Section QueryFacts.
Context {P : Platform}.

Lemma cast_filter_app f g cf :
  Mongo.cast_filter (f ++ g) = Ok cf ->
  exists cf1 cf2,
    Mongo.cast_filter f = Ok cf1 /\ Mongo.cast_filter g = Ok cf2 /\ cf = cf1 ++ cf2.
Proof.
  revert cf. induction f as [|c f IH]; simpl; intros cf H.
  - exists [], cf. now repeat split.
  - destruct (Mongo.cast_clause c) as [c'|e]; simpl in *; [|discriminate].
    destruct (Mongo.cast_filter (f ++ g)) as [r|e]; simpl in *; [|discriminate].
    injection H as <-.
    destruct (IH r eq_refl) as [cf1 [cf2 [-> [Hg ->]]]].
    exists (c' :: cf1), cf2. now repeat split.
Qed.

Lemma cast_filter_In f cf c :
  Mongo.cast_filter f = Ok cf -> In c f ->
  exists c', Mongo.cast_clause c = Ok c' /\ In c' cf.
Proof.
  revert cf. induction f as [|d f IH]; simpl; intros cf H Hin; [contradiction|].
  destruct (Mongo.cast_clause d) as [d'|e] eqn:Ed; simpl in *; [|discriminate].
  destruct (Mongo.cast_filter f) as [r|e]; simpl in *; [|discriminate].
  injection H as <-. destruct Hin as [<-|Hin].
  - exists d'. split; [exact Ed|now left].
  - destruct (IH r eq_refl Hin) as [c' [Hc Hi]]. exists c'. split; [exact Hc|now right].
Qed.

(** A document that matches a cast filter satisfies each of its clauses. *)
Lemma clause_holds f cf c x :
  Mongo.cast_filter f = Ok cf -> Mongo.matches cf x = true -> In c f ->
  exists c', Mongo.cast_clause c = Ok c' /\ Mongo.holds c' x = true.
Proof.
  intros Hc Hm Hin. destruct (cast_filter_In f cf c Hc Hin) as [c' [E Hi]].
  exists c'. split; [exact E|].
  unfold Mongo.matches in Hm. rewrite forallb_forall in Hm. now apply Hm.
Qed.

Lemma truthy_nonempty s : s <> "" -> JS.truthy s = true.
Proof.
  intro H. unfold JS.truthy. apply String.eqb_neq in H. now rewrite H.
Qed.

Lemma In_build_filter q c :
  In c (Routes.build_filter q) <->
  c = Mongo.status_is "active" \/ c = Mongo.isVerified_is true
  \/ (JS.truthy_opt (Query.category q) = true
      /\ c = Mongo.category_is (Routes.or_empty (Query.category q)))
  \/ (JS.truthy_opt (Query.city q) = true
      /\ c = Mongo.cities_regex (Routes.or_empty (Query.city q)) "i")
  \/ ((JS.truthy_opt (Query.minPrice q) || JS.truthy_opt (Query.maxPrice q)) = true
      /\ c = Mongo.amount_range
               (if JS.truthy_opt (Query.minPrice q) then Query.minPrice q else None)
               (if JS.truthy_opt (Query.maxPrice q) then Query.maxPrice q else None))
  \/ (JS.truthy_opt (Query.rating q) = true
      /\ c = Mongo.rating_gte (Routes.or_empty (Query.rating q))).
Proof.
  unfold Routes.build_filter, Routes.when. simpl. rewrite !in_app_iff.
  destruct (JS.truthy_opt (Query.category q));
    destruct (JS.truthy_opt (Query.city q));
    destruct (JS.truthy_opt (Query.minPrice q));
    destruct (JS.truthy_opt (Query.maxPrice q));
    destruct (JS.truthy_opt (Query.rating q)); simpl;
    intuition (try discriminate; try congruence; auto).
Qed.

Lemma build_filter_sound q cf x :
  Mongo.cast_filter (Routes.build_filter q) = Ok cf ->
  Mongo.matches cf x = true -> satisfies_query q x.
Proof.
  intros Hc Hm.
  assert (H : forall c, In c (Routes.build_filter q) ->
                exists c', Mongo.cast_clause c = Ok c' /\ Mongo.holds c' x = true)
    by (intros c; apply clause_holds with (cf := cf); assumption).
  unfold satisfies_query. repeat split.
  - destruct (H (Mongo.status_is "active")) as [c' [E Hh]];
      [apply In_build_filter; now left|].
    injection E as <-. simpl in Hh. now apply String.eqb_eq.
  - destruct (H (Mongo.isVerified_is true)) as [c' [E Hh]];
      [apply In_build_filter; right; now left|].
    injection E as <-. simpl in Hh. now apply Bool.eqb_prop in Hh.
  - intros c Hq Hne.
    destruct (H (Mongo.category_is c)) as [c' [E Hh]].
    { apply In_build_filter. right; right; left. rewrite Hq. simpl.
      split; [now apply truthy_nonempty|reflexivity]. }
    injection E as <-. simpl in Hh.
    destruct (Service.category x) as [y|]; [|discriminate].
    simpl in Hh. apply String.eqb_eq in Hh. now subst.
  - intros p Hq Hne.
    destruct (H (Mongo.cities_regex p "i")) as [c' [E Hh]].
    { apply In_build_filter. right; right; right; left. rewrite Hq. simpl.
      split; [now apply truthy_nonempty|reflexivity]. }
    simpl in E. destruct (regex_compile p "i") as [re|]; [|discriminate].
    injection E as <-. simpl in Hh. exists re. split; [reflexivity|].
    now apply existsb_exists.
  - intros m Hq Hne.
    destruct (H (Mongo.amount_range (Some m)
                   (if JS.truthy_opt (Query.maxPrice q)
                    then Query.maxPrice q else None))) as [c' [E Hh]].
    { apply In_build_filter. right; right; right; right; left. rewrite Hq. simpl.
      rewrite (truthy_nonempty m Hne). now split. }
    simpl in E. destruct (castNumber m) as [v|]; [|discriminate]. simpl in E.
    destruct (Mongo.cast_number _) as [l|]; [|discriminate]. simpl in E.
    injection E as <-. simpl in Hh.
    destruct (amount (Service.pricing x)) as [a|]; [|discriminate].
    simpl in Hh. apply andb_prop in Hh. destruct Hh as [Hh _].
    exists v, a. repeat split. now apply Qle_bool_iff.
  - intros m Hq Hne.
    destruct (H (Mongo.amount_range
                   (if JS.truthy_opt (Query.minPrice q)
                    then Query.minPrice q else None) (Some m))) as [c' [E Hh]].
    { apply In_build_filter. right; right; right; right; left. rewrite Hq. simpl.
      rewrite (truthy_nonempty m Hne). rewrite orb_true_r. now split. }
    simpl in E. destruct (Mongo.cast_number _) as [g|]; [|discriminate]. simpl in E.
    destruct (castNumber m) as [v|]; [|discriminate]. simpl in E.
    injection E as <-. simpl in Hh.
    destruct (amount (Service.pricing x)) as [a|]; [|discriminate].
    simpl in Hh. apply andb_prop in Hh. destruct Hh as [_ Hh].
    exists v, a. repeat split. now apply Qle_bool_iff.
  - intros r Hq Hne.
    destruct (H (Mongo.rating_gte r)) as [c' [E Hh]].
    { apply In_build_filter. do 5 right. rewrite Hq. simpl.
      split; [now apply truthy_nonempty|reflexivity]. }
    simpl in E. destruct (castNumber r) as [v|]; [|discriminate].
    injection E as <-. simpl in Hh.
    exists v. split; [reflexivity|]. now apply Qle_bool_iff.
Qed.

(** The server reads no path of a stored document that a default fills
    in: the document built from it matches and sorts as it does. *)
Lemma hydrate_holds c s : Mongo.holds c (Doc.hydrate s) = Mongo.holds c s.
Proof.
  destruct (hydrate_fields s)
    as [_ [Hp [Hc [Hci [Hr [Hv [Hs [Hf [_ [_ [_ [_ Ha]]]]]]]]]]]].
  destruct c; simpl; now rewrite ?Hp, ?Hc, ?Hci, ?Hr, ?Hv, ?Hs, ?Hf, ?Ha.
Qed.

Lemma hydrate_matches cf s :
  Mongo.matches cf (Doc.hydrate s) = Mongo.matches cf s.
Proof.
  unfold Mongo.matches. induction cf as [|c cf IH]; simpl; [reflexivity|].
  now rewrite hydrate_holds, IH.
Qed.

Lemma hydrate_sort_value k s :
  Mongo.sort_value k (Doc.hydrate s) = Mongo.sort_value k s.
Proof.
  destruct (hydrate_fields s)
    as [_ [_ [_ [_ [Hr [_ [_ [Hf [Hu [_ [Hc [_ Ha]]]]]]]]]]]].
  destruct k; simpl; now rewrite ?Hr, ?Hf, ?Hu, ?Hc, ?Ha.
Qed.

Lemma hydrate_compare_by o a b :
  Mongo.compare_by o (Doc.hydrate a) (Doc.hydrate b) = Mongo.compare_by o a b.
Proof.
  induction o as [|[k d] o IH]; simpl; [reflexivity|].
  now rewrite !hydrate_sort_value, IH.
Qed.

Lemma hydrate_sorted o l :
  StronglySorted (ordered o) l ->
  StronglySorted (ordered o) (map Doc.hydrate l).
Proof.
  induction 1 as [|a l Hs IH Hall]; simpl; constructor; [exact IH|].
  rewrite Forall_forall in *. intros x Hx.
  apply in_map_iff in Hx. destruct Hx as [y [<- Hy]].
  unfold ordered, Mongo.before. rewrite hydrate_compare_by.
  exact (Hall y Hy).
Qed.

(** The stages of [find] on the server, before Mongoose builds its
    documents. *)
Lemma find_stages f order s n l r :
  Model.find f order s n l = Ok r ->
  exists cf skipped limited,
    Mongo.cast_filter f = Ok cf
    /\ match s with
       | Some k => Mongo.skip k (Mongo.sort_by order (filter (Mongo.matches cf) l))
       | None => Ok (Mongo.sort_by order (filter (Mongo.matches cf) l))
       end = Ok skipped
    /\ match n with
       | Some k => Mongo.limit k skipped
       | None => Ok skipped
       end = Ok limited
    /\ r = map Doc.hydrate limited.
Proof.
  unfold Model.find. destruct (Mongo.cast_filter f) as [cf|e]; simpl; [|discriminate].
  destruct (match s with
            | Some k => Mongo.skip k _
            | None => Ok _
            end) as [skipped|e] eqn:Hk; simpl; [|discriminate].
  destruct (match n with
            | Some k => Mongo.limit k skipped
            | None => Ok skipped
            end) as [limited|e] eqn:Hn; simpl; [|discriminate].
  intros [= <-]. exists cf, skipped, limited. now repeat split.
Qed.

Lemma skip_sound k l r :
  Mongo.skip k l = Ok r -> exists m, r = skipn m l.
Proof.
  destruct k as [|z|b]; simpl; try discriminate.
  destruct (z <? 0); [discriminate|]. intros [= <-]. now eexists.
Qed.

Lemma limit_sound k l r :
  Mongo.limit k l = Ok r -> r = l \/ exists m, r = firstn m l.
Proof.
  destruct k as [|z|b]; simpl; try discriminate.
  destruct (z =? 0); intros [= <-]; [now left|right; now eexists].
Qed.

(** What [find] returns: the documents built from documents of the
    collection that match the cast filter, in the order of the sort
    document. *)
Lemma find_sound f order s n l r :
  Model.find f order s n l = Ok r ->
  exists cf,
    Mongo.cast_filter f = Ok cf
    /\ (forall x, In x r ->
          (exists d, In d l /\ x = Doc.hydrate d)
          /\ Mongo.matches cf x = true)
    /\ StronglySorted (ordered order) r.
Proof.
  intro H. destruct (find_stages _ _ _ _ _ _ H)
    as [cf [skipped [limited [Hc [Hk [Hn ->]]]]]].
  exists cf. split; [exact Hc|].
  set (found := Mongo.sort_by order (filter (Mongo.matches cf) l)) in *.
  assert (Hf : forall x, In x found -> In x l /\ Mongo.matches cf x = true).
  { intros x Hx. apply In_sort_by in Hx. now apply filter_In in Hx. }
  assert (Hs : StronglySorted (ordered order) found) by apply sort_by_sorted.
  assert (Hsk : (forall x, In x skipped -> In x found)
                /\ StronglySorted (ordered order) skipped).
  { destruct s as [k|].
    - destruct (skip_sound _ _ _ Hk) as [m ->].
      split; [intro x; apply In_skipn|now apply skipn_sorted].
    - injection Hk as <-. now split. }
  destruct Hsk as [Hin Hss].
  assert (Hli : (forall x, In x limited -> In x skipped)
                /\ StronglySorted (ordered order) limited).
  { destruct n as [k|].
    - destruct (limit_sound _ _ _ Hn) as [->|[m ->]]; [now split|].
      split; [intros x Hx; now apply In_firstn in Hx|now apply firstn_sorted].
    - injection Hn as <-. now split. }
  destruct Hli as [Hin' Hsl].
  split; [|now apply hydrate_sorted].
  intros x Hx. apply in_map_iff in Hx. destruct Hx as [d [<- Hd]].
  destruct (Hf d (Hin d (Hin' d Hd))) as [Hl Hm].
  split; [now exists d|]. now rewrite hydrate_matches.
Qed.

Lemma find_bounded f order s n l r :
  Model.find f order s (Some (JS.Int n)) l = Ok r -> 0 < n ->
  (length r <= Z.to_nat n)%nat.
Proof.
  intros H Hn. destruct (find_stages _ _ _ _ _ _ H)
    as [cf [skipped [limited [_ [_ [Hl ->]]]]]].
  simpl in Hl. destruct (n =? 0) eqn:E; [lia|].
  injection Hl as <-. rewrite length_map, Z.abs_eq by lia.
  apply firstn_le_length.
Qed.

End QueryFacts.

(** ** The list route *)

Section ListFacts.
Context {P : Platform}.

Lemma bump_all_from rt found acc l :
  fst (fold_left
         (fun acc d =>
            let '(d', saved) :=
              Model.incrementViewCount (savedAt rt (Service._id d)) d (snd acc) in
            (fst acc ++ [d'],
             match saved with
             | Ok (_, l') => l'
             | Throw _ => snd acc
             end))
         found (acc, l))
  = acc ++ map bump found.
Proof.
  revert acc l. induction found as [|d found IH]; intros acc l; simpl.
  - now rewrite app_nil_r.
  - rewrite IH. simpl. now rewrite <- app_assoc.
Qed.

Lemma bump_all_shown rt found l :
  fst (Routes.bump_all rt found l) = map bump found.
Proof. unfold Routes.bump_all. now rewrite bump_all_from. Qed.

(** The handler reads nothing of the request but its query string. *)
Lemma listServices_reads_query rt db req req' :
  query req = query req' ->
  Routes.listServices rt db req = Routes.listServices rt db req'.
Proof. intro H. unfold Routes.listServices. now rewrite H. Qed.

Lemma get_root_is_list rt db req :
  Router.get_root rt db req [] = Routes.listServices rt db req.
Proof.
  unfold Router.get_root.
  destruct (optionalAuth_passes db req) as [req' E]. rewrite E. simpl.
  apply listServices_reads_query. simpl.
  now destruct (optionalAuth_keeps db req req' E) as [-> _].
Qed.

(** The two outcomes of the handler. *)
Lemma listServices_cases rt db req :
  (exists featured regular total l',
      Routes.featuredServices db (query req) = Ok featured
      /\ Routes.regularServices db (query req) = Ok regular
      /\ Model.countDocuments (Routes.regularFilter (query req)) (services db)
           = Ok total
      /\ Routes.listServices rt db req
         = Routes.reply 200
             (services_json (map bump (featured ++ regular))
                (Some {| currentPage :=
                           JS.parseInt (Routes.default "1" (Query.page (query req)));
                         totalServices := total + Z.of_nat (length featured) |}))
             (with_services l' db))
  \/ Routes.listServices rt db req
     = Routes.server_error "Server error while fetching services" db.
Proof.
  unfold Routes.listServices.
  destruct (Routes.featuredServices db (query req)) as [featured|e]; [|now right].
  destruct (Routes.regularServices db (query req)) as [regular|e]; [|now right].
  destruct (Model.countDocuments _ _) as [total|e]; [|now right].
  left. exists featured, regular, total.
  pose proof (bump_all_shown rt (featured ++ regular) (services db)) as Hb.
  destruct (Routes.bump_all rt (featured ++ regular) (services db)) as [shown l'].
  simpl in Hb. subst shown. exists l'. now repeat split.
Qed.

Lemma bump_satisfies q d : satisfies_query q d -> satisfies_query q (bump d).
Proof. exact (fun H => H). Qed.

Lemma featured_sound db q featured :
  Routes.featuredServices db q = Ok featured ->
  forall s, In s featured ->
    (exists d, In d (services db) /\ s = Doc.hydrate d)
    /\ Service.isFeatured s = true /\ satisfies_query q s.
Proof.
  unfold Routes.featuredServices, Routes.featuredFilter. intros H s Hs.
  destruct (find_sound _ _ _ _ _ _ H) as [cf [Hc [Hin _]]].
  destruct (cast_filter_app _ _ _ Hc) as [cf1 [cf2 [H1 [H2 ->]]]].
  destruct (Hin s Hs) as [Hl Hm]. split; [exact Hl|].
  unfold Mongo.matches in Hm. rewrite forallb_app in Hm.
  apply andb_prop in Hm. destruct Hm as [Hm1 Hm2].
  split.
  - simpl in H2. injection H2 as <-. simpl in Hm2.
    rewrite andb_true_r in Hm2. now apply Bool.eqb_prop in Hm2.
  - now apply build_filter_sound with (cf := cf1).
Qed.

Lemma regular_sound db q regular :
  Routes.regularServices db q = Ok regular ->
  forall s, In s regular ->
    (exists d, In d (services db) /\ s = Doc.hydrate d)
    /\ Service.isFeatured s = false /\ satisfies_query q s.
Proof.
  unfold Routes.regularServices, Routes.regularFilter. intros H s Hs.
  destruct (find_sound _ _ _ _ _ _ H) as [cf [Hc [Hin _]]].
  destruct (cast_filter_app _ _ _ Hc) as [cf1 [cf2 [H1 [H2 ->]]]].
  destruct (Hin s Hs) as [Hl Hm]. split; [exact Hl|].
  unfold Mongo.matches in Hm. rewrite forallb_app in Hm.
  apply andb_prop in Hm. destruct Hm as [Hm1 Hm2].
  split.
  - simpl in H2. injection H2 as <-. simpl in Hm2.
    rewrite andb_true_r in Hm2. destruct (Service.isFeatured s); [discriminate|reflexivity].
  - now apply build_filter_sound with (cf := cf1).
Qed.

End ListFacts.

(** C1, as stated, fails on the city filter: the parameter is handed to the
    database as a regular expression, not as a substring.  With [city=.]
    the answer lists a service whose only city is Bergen, which does not
    contain a dot. *)
Lemma city_is_a_pattern_not_a_substring :
  let q := {| Query.category := None; Query.city := Some ".";
              Query.minPrice := None; Query.maxPrice := None;
              Query.rating := None; Query.page := None;
              Query.limit := None; Query.sort := None |} in
  exists r db' l pag,
    Router.serve (P := Sample.platform) Sample.rt Sample.db
      (Sample.request GET [] None q []) = Some (r, db')
    /\ json r = services_json l pag
    /\ In (bump Sample.gardening) l
    /\ Service.cities (bump Sample.gardening) = ["Bergen"]
    /\ JS.includes (JS.toLowerCase "Bergen") (JS.toLowerCase ".") = false.
Proof.
  intro q. eexists. eexists. eexists. eexists.
  split; [vm_compute; reflexivity|].
  split; [reflexivity|].
  split; [now left|]. split; reflexivity.
Qed.

(** C1, amended.  Every listing in a 200 answer of [GET /] has status
    [active] and is verified, and for each query parameter that is present
    and not empty it satisfies the parameter's condition: the category is
    equal, some service-area city matches the city parameter read as a
    case-insensitive regular expression, the amount is at least [minPrice]
    and at most [maxPrice], the rating average is at least [rating]. *)
Theorem list_returns_only_matching {P : Platform}
        (rt : Runtime) (db : Collections) (req : Request)
        (r : Response) (db' : Collections)
        (l : list Service.t) (pag : option Pagination) :
  method req = GET -> path req = [] ->
  Router.serve rt db req = Some (r, db') ->
  json r = services_json l pag ->
  forall s, In s l -> satisfies_query (query req) s.
Proof.
  intros Hm Hp Hs Hj s Hin.
  rewrite (serve_get_root rt db req Hm Hp), get_root_is_list in Hs.
  injection Hs as Hs.
  destruct (listServices_cases rt db req)
    as [[featured [regular [total [l' [Hf [Hr [_ E]]]]]]]|E];
    rewrite E in Hs; injection Hs as <- <-; simpl in Hj; [|discriminate].
  injection Hj as <- _.
  apply in_map_iff in Hin. destruct Hin as [d [<- Hd]].
  apply bump_satisfies. apply in_app_or in Hd. destruct Hd as [Hd|Hd].
  - now apply (featured_sound db (query req) featured Hf d Hd).
  - now apply (regular_sound db (query req) regular Hr d Hd).
Qed.

Lemma list_returns_only_matching_witness :
  let q := {| Query.category := Some "home_services"; Query.city := Some "OSLO";
              Query.minPrice := Some "400"; Query.maxPrice := Some "600";
              Query.rating := Some "4"; Query.page := None;
              Query.limit := None; Query.sort := None |} in
  exists pag,
    option_map (fun a : Routes.Answer => json (fst a))
      (Router.serve (P := Sample.platform) Sample.rt Sample.db
         (Sample.request GET [] None q []))
    = Some (services_json [bump Sample.cleaning] pag)
    /\ satisfies_query (P := Sample.platform) q (bump Sample.cleaning).
Proof.
  intro q.
  destruct (Router.serve (P := Sample.platform) Sample.rt Sample.db
              (Sample.request GET [] None q [])) as [[r db']|] eqn:E;
    [|vm_compute in E; discriminate E].
  assert (Hj : json r = services_json [bump Sample.cleaning]
                 (Some {| currentPage := JS.Int 1; totalServices := 1 |})).
  { vm_compute in E. injection E as <- _. reflexivity. }
  exists (Some {| currentPage := JS.Int 1; totalServices := 1 |}).
  split; [simpl; now rewrite Hj|].
  apply (list_returns_only_matching (P := Sample.platform) Sample.rt Sample.db
           (Sample.request GET [] None q []) r db' _ _ eq_refl eq_refl E Hj).
  now left.
Defined.

(** ** The featured part of a page *)

Lemma Qcompare_inject_Z x y : (inject_Z x ?= inject_Z y)%Q = (x ?= y)%Z.
Proof. unfold Qcompare. simpl. now rewrite !Z.mul_1_r. Qed.

Lemma ordered_featured o a b :
  ordered ((Mongo.by_featuredUntil, Mongo.desc) :: o) a b -> featured_order o a b.
Proof.
  unfold ordered, featured_order, expires_later, Mongo.before.
  cbn [Mongo.compare_by Mongo.sort_value].
  destruct (Service.featuredUntil a) as [x|], (Service.featuredUntil b) as [y|];
    cbn [option_map Mongo.compare_value CompOpp].
  - rewrite Qcompare_inject_Z.
    destruct (Z.compare_spec x y) as [E|L|G]; cbn [CompOpp].
    + intro H. right. split; [now subst|exact H].
    + discriminate.
    + intros _. left. lia.
  - intros _. now left.
  - discriminate.
  - intro H. right. now split.
Qed.

Lemma sorted_weaken {A : Type} (R R' : A -> A -> Prop) l :
  (forall a b, R a b -> R' a b) -> StronglySorted R l -> StronglySorted R' l.
Proof.
  intros H S. induction S as [|x l Hl IH Hx]; constructor; [exact IH|].
  rewrite Forall_forall in Hx |- *. intros z Hz. now apply H, Hx.
Qed.

(** What [ordered] says for the one-key sort documents of the [switch]. *)
Lemma ordered_one_key k d a b :
  ordered [(k, d)] a b <->
  match d with
  | Mongo.asc =>
      Mongo.compare_value (Mongo.sort_value k a) (Mongo.sort_value k b) <> Gt
  | Mongo.desc =>
      Mongo.compare_value (Mongo.sort_value k b) (Mongo.sort_value k a) <> Gt
  end.
Proof.
  unfold ordered, Mongo.before. cbn [Mongo.compare_by].
  destruct compare_value_consistent as [H1 _].
  destruct d.
  - destruct (Mongo.compare_value _ _); split; congruence.
  - rewrite (H1 (Mongo.sort_value k a) (Mongo.sort_value k b)).
    destruct (Mongo.compare_value (Mongo.sort_value k a) (Mongo.sort_value k b));
      cbn [CompOpp]; split; congruence.
Qed.

(** C9, as stated, fails: the featured query filters on [isFeatured] alone
    and never reads [featuredUntil] against the clock, so a listing whose
    featuring ended long ago is still placed in the featured part; and
    [limit=0] reaches the database as "no limit", so the featured part is
    not bounded by it. *)
Lemma expired_listing_is_featured :
  Routes.featuredServices (P := Sample.platform) Sample.db Sample.no_query
    = Ok [Sample.gardening; Sample.plumbing]
  /\ Service.featuredUntil Sample.plumbing = Some 1000
  /\ 1000 < now Sample.rt
  /\ (exists r db' pag,
        Router.serve (P := Sample.platform) Sample.rt Sample.db
          (Sample.request GET [] None Sample.no_query []) = Some (r, db')
        /\ json r = services_json
                      [bump Sample.gardening; bump Sample.plumbing;
                       bump Sample.cleaning] pag)
  /\ (let q0 := {| Query.category := None; Query.city := None;
                   Query.minPrice := None; Query.maxPrice := None;
                   Query.rating := None; Query.page := None;
                   Query.limit := Some "0"; Query.sort := None |} in
      JS.parseInt "0" = JS.Int 0
      /\ Routes.featuredServices (P := Sample.platform) Sample.db q0
           = Ok [Sample.gardening; Sample.plumbing]).
Proof.
  split; [vm_compute; reflexivity|].
  split; [reflexivity|]. split; [reflexivity|].
  split.
  - eexists. eexists. eexists. split; [vm_compute; reflexivity|reflexivity].
  - split; vm_compute; reflexivity.
Qed.

(** C9, amended.  In a 200 answer of [GET /] the listings come in two
    parts.  The first holds listings that have the featured flag (whatever
    their expiry date) and satisfy the base restriction and the filters of
    the query; for a positive limit it has at most that many listings; it is
    ordered by feature expiry, latest first, and among equal expiry dates by
    the requested sort.  The second part holds listings without the flag. *)
Theorem featured_part_of_page {P : Platform}
        (rt : Runtime) (db : Collections) (req : Request)
        (r : Response) (db' : Collections)
        (l : list Service.t) (pag : option Pagination) :
  method req = GET -> path req = [] ->
  Router.serve rt db req = Some (r, db') ->
  json r = services_json l pag ->
  exists featured regular,
    Routes.featuredServices db (query req) = Ok featured
    /\ l = map bump featured ++ map bump regular
    /\ (forall s, In s featured ->
          (exists d, In d (services db) /\ s = Doc.hydrate d)
          /\ Service.isFeatured s = true
          /\ satisfies_query (query req) s)
    /\ (forall s, In s regular -> Service.isFeatured s = false)
    /\ (forall n,
          JS.parseInt (Routes.default "12" (Query.limit (query req))) = JS.Int n ->
          0 < n -> (length featured <= Z.to_nat n)%nat)
    /\ StronglySorted
         (featured_order
            (Routes.sortObj (Routes.default "newest" (Query.sort (query req)))))
         featured.
Proof.
  intros Hm Hp Hs Hj.
  rewrite (serve_get_root rt db req Hm Hp), get_root_is_list in Hs.
  injection Hs as Hs.
  destruct (listServices_cases rt db req)
    as [[featured [regular [total [l' [Hf [Hr [_ E]]]]]]]|E];
    rewrite E in Hs; injection Hs as <- <-; simpl in Hj; [|discriminate].
  injection Hj as <- _.
  exists featured, regular.
  split; [exact Hf|]. split; [apply map_app|].
  split; [apply (featured_sound db (query req) featured Hf)|].
  split; [intros s Hin; now apply (regular_sound db (query req) regular Hr s Hin)|].
  split.
  - intros n Hn Hpos. unfold Routes.featuredServices in Hf. rewrite Hn in Hf.
    now apply find_bounded with (1 := Hf).
  - unfold Routes.featuredServices in Hf.
    destruct (find_sound _ _ _ _ _ _ Hf) as [cf [_ [_ Hsorted]]].
    apply sorted_weaken with (2 := Hsorted). intros a b. apply ordered_featured.
Qed.

Lemma featured_part_of_page_witness :
  exists featured regular,
    Routes.featuredServices (P := Sample.platform) Sample.db Sample.no_query
      = Ok featured
    /\ [bump Sample.gardening; bump Sample.plumbing; bump Sample.cleaning]
       = map bump featured ++ map bump regular
    /\ StronglySorted (featured_order [(Mongo.by_createdAt, Mongo.desc)]) featured.
Proof.
  destruct (Router.serve (P := Sample.platform) Sample.rt Sample.db
              (Sample.request GET [] None Sample.no_query []))
    as [[r db']|] eqn:E; [|vm_compute in E; discriminate E].
  assert (Hj : json r = services_json
                          [bump Sample.gardening; bump Sample.plumbing;
                           bump Sample.cleaning]
                          (Some {| currentPage := JS.Int 1; totalServices := 3 |})).
  { vm_compute in E. injection E as <- _. reflexivity. }
  destruct (featured_part_of_page (P := Sample.platform) Sample.rt Sample.db
              (Sample.request GET [] None Sample.no_query []) r db' _ _
              eq_refl eq_refl E Hj)
    as [featured [regular [Hf [Hl [_ [_ [_ Hsorted]]]]]]].
  exists featured, regular. split; [exact Hf|]. split; [exact Hl|exact Hsorted].
Defined.

(** ** The list route and its validators *)

Lemma sortObj_default s :
  s <> "price_asc" -> s <> "price_desc" -> s <> "rating_desc" -> s <> "oldest" ->
  Routes.sortObj s = [(Mongo.by_createdAt, Mongo.desc)].
Proof.
  intros H1 H2 H3 H4. unfold Routes.sortObj.
  apply String.eqb_neq in H1, H2, H3, H4. now rewrite H1, H2, H3, H4.
Qed.

Section ListAnswers.
Context {P : Platform}.

Lemma listServices_code rt db req :
  code (fst (Routes.listServices rt db req)) = 200
  \/ code (fst (Routes.listServices rt db req)) = 500.
Proof.
  destruct (listServices_cases rt db req) as [[f [r [t [l [_ [_ [_ E]]]]]]]|E];
    rewrite E; [now left|now right].
Qed.

Lemma cast_filter_join f g cf1 cf2 :
  Mongo.cast_filter f = Ok cf1 -> Mongo.cast_filter g = Ok cf2 ->
  Mongo.cast_filter (f ++ g) = Ok (cf1 ++ cf2).
Proof.
  revert cf1. induction f as [|c f IH]; simpl; intros cf1 H1 H2.
  - now injection H1 as <-.
  - destruct (Mongo.cast_clause c) as [c'|e]; simpl in *; [|discriminate].
    destruct (Mongo.cast_filter f) as [r|e]; simpl in *; [|discriminate].
    injection H1 as <-. now rewrite (IH r eq_refl H2).
Qed.

Lemma cast_filter_throws f g e :
  Mongo.cast_filter f = Throw e -> Mongo.cast_filter (f ++ g) = Throw e.
Proof.
  induction f as [|c f IH]; simpl; [discriminate|].
  destruct (Mongo.cast_clause c) as [c'|e']; simpl; [|trivial].
  destruct (Mongo.cast_filter f) as [r|e']; simpl; [discriminate|].
  intros [= <-]. now rewrite (IH eq_refl).
Qed.

(** [find] with a limit and a skip that are integers in range. *)
Lemma find_cut f order cf n k l :
  Mongo.cast_filter f = Ok cf -> 0 < n -> 0 <= k ->
  Model.find f order None (Some (JS.Int n)) l
    = Ok (map Doc.hydrate (firstn (Z.to_nat n) (matching cf order l)))
  /\ Model.find f order (Some (JS.Int k)) (Some (JS.Int n)) l
     = Ok (map Doc.hydrate
             (firstn (Z.to_nat n) (skipn (Z.to_nat k) (matching cf order l)))).
Proof.
  intros Hc Hn Hk. unfold Model.find, matching. rewrite Hc.
  assert (En : (n =? 0) = false) by (apply Z.eqb_neq; lia).
  assert (Ek : (k <? 0) = false) by (apply Z.ltb_ge; lia).
  cbn [bind Mongo.skip Mongo.limit]. rewrite En, Ek.
  cbn [bind Mongo.skip Mongo.limit]. rewrite ?En, Z.abs_eq by lia. now split.
Qed.

Lemma find_throws f order s n l e :
  Mongo.cast_filter f = Throw e -> Model.find f order s n l = Throw e.
Proof. intro H. unfold Model.find. now rewrite H. Qed.

Lemma find_limit_NaN f order s l :
  exists e, Model.find f order s (Some JS.NaN) l = Throw e.
Proof.
  unfold Model.find. destruct (Mongo.cast_filter f) as [cf|e]; simpl;
    [|now eexists].
  destruct (match s with Some k => _ | None => _ end); simpl; now eexists.
Qed.

Lemma find_skip_negative f order n l k :
  k < 0 -> exists e, Model.find f order (Some (JS.Int k)) n l = Throw e.
Proof.
  intro Hk. unfold Model.find.
  destruct (Mongo.cast_filter f) as [cf|e]; simpl; [|now eexists].
  apply Z.ltb_lt in Hk. rewrite Hk. simpl. now eexists.
Qed.

End ListAnswers.

(** C10.  [GET /] never answers 400: the status is 200 or 500, and the
    answer depends on nothing of the request but its query string, so what
    the validation chains recorded changes nothing.  The values are used
    as they come.  When the filter casts, [parseInt(limit)] is a positive
    integer and [(parseInt(page) - 1) * parseInt(limit)] an integer that is
    not negative, the answer is 200 with, of the featured matches in their
    order, the first [limit], and of the other matches in the order of the
    sort, the [limit] after the first [skip], whatever the size of
    [limit]; every listing in it satisfies the conditions of the query as
    they were written.  A filter that does not cast, a [limit] that is no
    number and a negative [skip] (as for page 0) are answered 500.  Any
    sort value other than [price_asc], [price_desc], [rating_desc] and
    [oldest] orders by creation time, newest first. *)
Theorem list_ignores_validators {P : Platform}
        (rt : Runtime) (db : Collections) (req : Request) :
  method req = GET -> path req = [] ->
  (exists r db',
      Router.serve rt db req = Some (r, db') /\ (code r = 200 \/ code r = 500))
  /\ (forall req',
        method req' = GET -> path req' = [] -> query req' = query req ->
        Router.serve rt db req' = Router.serve rt db req)
  /\ (forall cf n k,
        Mongo.cast_filter (Routes.build_filter (query req)) = Ok cf ->
        limit_of (query req) = JS.Int n -> 0 < n ->
        skip_of (query req) = JS.Int k -> 0 <= k ->
        exists db',
          Router.serve rt db req
          = Some (Routes.reply 200
                    (services_json
                       (map bump
                          (map Doc.hydrate
                             (firstn (Z.to_nat n)
                                (matching (cf ++ [Mongo.c_isFeatured true])
                                   ((Mongo.by_featuredUntil, Mongo.desc)
                                      :: Routes.sortObj
                                           (Routes.default "newest"
                                              (Query.sort (query req))))
                                   (services db)))
                           ++ map Doc.hydrate
                                (firstn (Z.to_nat n)
                                   (skipn (Z.to_nat k)
                                      (matching
                                         (cf ++ [Mongo.c_isFeatured_ne true])
                                         (Routes.sortObj
                                            (Routes.default "newest"
                                               (Query.sort (query req))))
                                         (services db))))))
                       (Some {| currentPage :=
                                  JS.parseInt
                                    (Routes.default "1"
                                       (Query.page (query req)));
                                totalServices :=
                                  Z.of_nat
                                    (length
                                       (filter
                                          (Mongo.matches
                                             (cf ++ [Mongo.c_isFeatured_ne true]))
                                          (services db)))
                                  + Z.of_nat
                                      (length
                                         (firstn (Z.to_nat n)
                                            (matching
                                               (cf ++ [Mongo.c_isFeatured true])
                                               ((Mongo.by_featuredUntil, Mongo.desc)
                                                  :: Routes.sortObj
                                                       (Routes.default "newest"
                                                          (Query.sort (query req))))
                                               (services db)))) |}))
                    db'))
  /\ (forall e,
        Mongo.cast_filter (Routes.build_filter (query req)) = Throw e ->
        Router.serve rt db req
          = Some (Routes.server_error "Server error while fetching services" db))
  /\ (limit_of (query req) = JS.NaN ->
      Router.serve rt db req
        = Some (Routes.server_error "Server error while fetching services" db))
  /\ (forall k, skip_of (query req) = JS.Int k -> k < 0 ->
        Router.serve rt db req
          = Some (Routes.server_error "Server error while fetching services" db))
  /\ (forall r db' l pag,
        Router.serve rt db req = Some (r, db') ->
        json r = services_json l pag ->
        forall s, In s l -> satisfies_query (query req) s)
  /\ (forall s, s <> "price_asc" -> s <> "price_desc" -> s <> "rating_desc" ->
        s <> "oldest" -> Routes.sortObj s = [(Mongo.by_createdAt, Mongo.desc)]).
Proof.
  intros Hm Hp.
  assert (Hserve : Router.serve rt db req = Some (Routes.listServices rt db req))
    by now rewrite (serve_get_root rt db req Hm Hp), get_root_is_list.
  split.
  { rewrite Hserve. destruct (Routes.listServices rt db req) as [r db'] eqn:E.
    exists r, db'. split; [reflexivity|].
    pose proof (listServices_code rt db req) as Hc. now rewrite E in Hc. }
  split.
  { intros req' Hm' Hp' Hq. rewrite Hserve.
    rewrite (serve_get_root rt db req' Hm' Hp'), get_root_is_list.
    f_equal. now apply listServices_reads_query. }
  split.
  { intros cf n k Hc Hn Hnpos Hk Hkpos. rewrite Hserve.
    unfold Routes.listServices, Routes.featuredServices, Routes.regularServices,
      Model.countDocuments, Routes.featuredFilter, Routes.regularFilter.
    fold (limit_of (query req)). fold (skip_of (query req)). rewrite Hn, Hk.
    destruct (find_cut (Routes.build_filter (query req)
                          ++ [Mongo.isFeatured_is true])
                ((Mongo.by_featuredUntil, Mongo.desc)
                   :: Routes.sortObj
                        (Routes.default "newest" (Query.sort (query req))))
                (cf ++ [Mongo.c_isFeatured true]) n k (services db)
                (cast_filter_join (Routes.build_filter (query req))
                   [Mongo.isFeatured_is true] cf [Mongo.c_isFeatured true]
                   Hc eq_refl) Hnpos Hkpos) as [-> _].
    destruct (find_cut (Routes.build_filter (query req)
                          ++ [Mongo.isFeatured_ne true])
                (Routes.sortObj
                   (Routes.default "newest" (Query.sort (query req))))
                (cf ++ [Mongo.c_isFeatured_ne true]) n k (services db)
                (cast_filter_join (Routes.build_filter (query req))
                   [Mongo.isFeatured_ne true] cf [Mongo.c_isFeatured_ne true]
                   Hc eq_refl) Hnpos Hkpos) as [_ ->].
    rewrite (cast_filter_join (Routes.build_filter (query req))
               [Mongo.isFeatured_ne true] cf [Mongo.c_isFeatured_ne true]
               Hc eq_refl).
    cbn [bind].
    match goal with
    | |- context [Routes.bump_all rt ?x ?y] =>
        pose proof (bump_all_shown rt x y) as Hb;
        destruct (Routes.bump_all rt x y) as [shown l']
    end.
    simpl in Hb. subst shown. exists (with_services l' db).
    now rewrite length_map. }
  split.
  { intros e He. rewrite Hserve. unfold Routes.listServices, Routes.featuredServices.
    now rewrite (find_throws _ _ _ _ _ e
                   (cast_filter_throws _ [Mongo.isFeatured_is true] e He)). }
  split.
  { intro Hn. rewrite Hserve.
    unfold Routes.listServices, Routes.featuredServices.
    fold (limit_of (query req)). rewrite Hn.
    now destruct (find_limit_NaN (Routes.featuredFilter (query req))
                    ((Mongo.by_featuredUntil, Mongo.desc)
                       :: Routes.sortObj
                            (Routes.default "newest" (Query.sort (query req))))
                    None (services db)) as [e ->]. }
  split.
  { intros k Hk Hneg. rewrite Hserve.
    unfold Routes.listServices, Routes.regularServices.
    fold (limit_of (query req)). fold (skip_of (query req)). rewrite Hk.
    destruct (find_skip_negative (Routes.regularFilter (query req))
                (Routes.sortObj
                   (Routes.default "newest" (Query.sort (query req))))
                (Some (limit_of (query req))) (services db) k Hneg) as [e ->].
    now destruct (Routes.featuredServices db (query req)). }
  split; [|exact sortObj_default].
  intros r db' l pag Hs Hj s Hin. rewrite Hserve in Hs. injection Hs as Hs.
  destruct (listServices_cases rt db req)
    as [[featured [regular [total [l' [Hf [Hr [_ E]]]]]]]|E];
    rewrite E in Hs; injection Hs as <- <-; simpl in Hj; [|discriminate].
  injection Hj as <- _.
  apply in_map_iff in Hin. destruct Hin as [d [<- Hd]].
  apply bump_satisfies. apply in_app_or in Hd. destruct Hd as [Hd|Hd].
  - now apply (featured_sound db (query req) featured Hf d Hd).
  - now apply (regular_sound db (query req) regular Hr d Hd).
Qed.

Lemma list_ignores_validators_witness :
  (* a limit above 50 and an unknown sort key: sixty listings, newest first *)
  let q := {| Query.category := None; Query.city := None;
              Query.minPrice := None; Query.maxPrice := None;
              Query.rating := None; Query.page := None;
              Query.limit := Some "60"; Query.sort := Some "cheapest" |} in
  let req := Sample.request GET [] None q [] in
  (exists r', Routes.list_chains (P := Sample.platform) req = Next r'
              /\ length (validation_errors r') = 2%nat)
  /\ (exists db',
        Router.serve (P := Sample.platform) Sample.rt Sample.many req
        = Some (Routes.reply 200
                  (services_json
                     (map bump (rev (services Sample.many)))
                     (Some {| currentPage := JS.Int 1; totalServices := 60 |}))
                  db'))
  /\ length (services Sample.many) = 60%nat.
Proof.
  intros q req.
  destruct (list_ignores_validators (P := Sample.platform) Sample.rt Sample.many
              req eq_refl eq_refl) as [_ [_ [H _]]].
  split; [eexists; split; [reflexivity|vm_compute; reflexivity]|].
  split; [|reflexivity].
  destruct (H [Mongo.c_status "active"; Mongo.c_isVerified true] 60 0
              eq_refl eq_refl eq_refl eq_refl ltac:(lia)) as [db' E].
  exists db'. rewrite E. vm_compute. reflexivity.
Defined.

(** * Further properties of the code *)

(** ** The gates of middleware/auth.js *)

(** [optionalAuth] never answers.  It attaches a user exactly when [protect]
    would let the request through, and then the same user; when [protect]
    would answer 401 it passes the request on untouched. *)
Theorem optionalAuth_agrees_with_protect {P : Platform}
        (db : Collections) (req : Request) :
  (forall req', protect db req = Next req' -> optionalAuth db req = Next req')
  /\ (forall r, protect db req = Respond r -> optionalAuth db req = Next req)
  /\ (exists req', optionalAuth db req = Next req').
Proof.
  pose proof (protect_cases db req) as C.
  assert (H : (exists req', protect db req = Next req'
                            /\ optionalAuth db req = Next req')
              \/ ((exists r, protect db req = Respond r)
                  /\ optionalAuth db req = Next req)).
  { unfold optionalAuth.
    destruct C as [[Ht Hp]|[tok [Et [Htt C]]]].
    - right. split; [eexists; exact Hp|].
      destruct (extract_token req) as [tok|]; [|reflexivity].
      simpl in Ht. now rewrite Ht.
    - rewrite Et, Htt.
      destruct C as [[Hv Hp]|[d [Hv C]]].
      + right. split; [eexists; exact Hp|]. now rewrite Hv.
      + rewrite Hv.
        destruct C as [[[e He] Hp]|[[Hn Hp]|[u [Hu C]]]].
        * right. split; [eexists; exact Hp|]. now rewrite He.
        * right. split; [eexists; exact Hp|]. now rewrite Hn.
        * rewrite Hu. destruct C as [[Hi Hp]|[Ha Hp]].
          -- right. split; [eexists; exact Hp|]. now rewrite Hi.
          -- left. eexists. split; [exact Hp|]. now rewrite Ha. }
  split; [|split].
  - intros req' Hn. destruct H as [[r' [Hp Ho]]|[[r Hr] _]]; congruence.
  - intros r Hr. destruct H as [[r' [Hp Ho]]|[_ Ho]]; congruence.
  - destruct H as [[r' [_ Ho]]|[_ Ho]]; eexists; exact Ho.
Qed.

Lemma isIn_one (v t : string) : isIn v [t] = (v =? t)%string.
Proof. unfold isIn. simpl. now rewrite orb_false_r. Qed.

(** [authorize(...userTypes)] answers 401 when no user was attached, 403
    when the user's type is not among the allowed ones, and passes the
    request on unchanged otherwise.  On a request that has a user, each of
    [requireServiceProvider], [requireCustomer] and [requireAdmin] passes or
    refuses (with 403) exactly as [authorize] with that one type does. *)
Theorem authorize_subsumes_role_gates (userTypes : list string) (req : Request) :
  (user req = None ->
     exists r, authorize userTypes req = Respond r /\ code r = 401)
  /\ (forall u, user req = Some u ->
        (In (User.userType u) userTypes -> authorize userTypes req = Next req)
        /\ (~ In (User.userType u) userTypes ->
            exists r, authorize userTypes req = Respond r /\ code r = 403)
        /\ forall (gate : Request -> Step) (t : string),
             In (gate, t) [(requireServiceProvider, "service_provider");
                           (requireCustomer, "customer");
                           (requireAdmin, "admin")] ->
             (authorize [t] req = Next req <-> gate req = Next req)
             /\ ((exists r, authorize [t] req = Respond r /\ code r = 403)
                 <-> (exists r, gate req = Respond r /\ code r = 403))).
Proof.
  split.
  - intro Hu. unfold authorize. rewrite Hu. eexists. now split.
  - intros u Hu. split; [|split].
    + intro Hin. unfold authorize. rewrite Hu.
      apply isIn_In in Hin. now rewrite Hin.
    + intro Hin. unfold authorize. rewrite Hu.
      destruct (isIn (User.userType u) userTypes) eqn:E.
      * apply isIn_In in E. contradiction.
      * simpl. eexists. now split.
    + intros gate t Hg.
      assert (Hgate : ((User.userType u =? t)%string = true -> gate req = Next req)
                      /\ ((User.userType u =? t)%string = false ->
                          exists r, gate req = Respond r /\ code r = 403)).
      { simpl in Hg.
        destruct Hg as [Hg|[Hg|[Hg|[]]]]; injection Hg as <- <-;
          unfold requireServiceProvider, requireCustomer, requireAdmin;
          rewrite Hu;
          destruct (User.userType u =? _)%string; simpl;
            (split; intro X; try discriminate; try reflexivity);
            eexists; now split. }
      destruct Hgate as [Hyes Hno].
      unfold authorize. rewrite Hu, isIn_one.
      destruct (User.userType u =? t)%string eqn:E; simpl.
      * rewrite (Hyes eq_refl). split; [tauto|].
        split; intros [r [Hr _]]; discriminate.
      * destruct (Hno eq_refl) as [r [Hr Hc]]. rewrite Hr.
        split; [split; discriminate|].
        split; intros _; eexists; now split.
Qed.

(** No request passes two of the three role gates. *)
Theorem role_gates_exclude_each_other (req : Request) :
  ~ (requireServiceProvider req = Next req /\ requireCustomer req = Next req)
  /\ ~ (requireServiceProvider req = Next req /\ requireAdmin req = Next req)
  /\ ~ (requireCustomer req = Next req /\ requireAdmin req = Next req).
Proof.
  unfold requireServiceProvider, requireCustomer, requireAdmin.
  destruct (user req) as [u|]; [|repeat split; intros [H _]; discriminate].
  destruct (User.userType u =? "service_provider")%string eqn:E1;
    destruct (User.userType u =? "customer")%string eqn:E2;
    destruct (User.userType u =? "admin")%string eqn:E3; simpl;
    repeat split; intros [H1 H2]; try discriminate;
    repeat match goal with
           | E : (_ =? _)%string = true |- _ => apply String.eqb_eq in E
           end;
    congruence.
Qed.

Lemma split_without_separator sep s :
  all_chars (fun c => negb (Ascii.eqb c sep)) s = true -> JS.split sep s = [s].
Proof.
  induction s as [|c s IH]; simpl; [reflexivity|].
  intro H. apply andb_prop in H. destruct H as [Hc Hs].
  destruct (Ascii.eqb c sep); [discriminate|]. now rewrite (IH Hs).
Qed.

Lemma split_Bearer tok :
  all_chars (fun c => negb (Ascii.eqb c " ")) tok = true ->
  JS.split " " ("Bearer " ++ tok)%string = ["Bearer"; tok].
Proof. intro H. simpl. now rewrite (split_without_separator _ _ H). Qed.

(** A token that [jwt.verify] accepts and that names a stored, active user
    lets the request through [protect] and [optionalAuth], which pass it on
    with that user as its [user] and nothing else changed, both when
    it comes as [Authorization: Bearer <token>] (whatever the cookie is) and
    when there is no [Authorization] header and it comes in the [token]
    cookie.  (A token has no space in it and is not empty.) *)
Theorem protect_accepts_valid_token {P : Platform}
        (db : Collections) (req : Request) (tok : string) (d : Decoded) (u : User.t) :
  tok <> "" ->
  all_chars (fun c => negb (Ascii.eqb c " ")) tok = true ->
  jwt_verify tok JWT_SECRET = Some d ->
  User.findById (users db) (decoded_id d) = Ok (Some u) ->
  User.isActive u = true ->
  (authorization req = Some ("Bearer " ++ tok)%string
   \/ (authorization req = None /\ cookie_token req = Some tok)) ->
  exists req',
    protect db req = Next req'
    /\ optionalAuth db req = Next req'
    /\ user req' = Some u
    /\ User.password u = None
    /\ method req' = method req /\ path req' = path req
    /\ query req' = query req /\ body req' = body req.
Proof.
  intros Hne Hsp Hv Hf Ha Hfrom.
  assert (Et : extract_token req = Some tok).
  { destruct Hfrom as [Hh|[Hh Hc]].
    - rewrite (extract_from_header req _ Hh eq_refl).
      now rewrite (split_Bearer tok Hsp).
    - rewrite (extract_from_cookie req (or_introl Hh)), Hc. simpl.
      now rewrite (truthy_nonempty tok Hne). }
  assert (Hp : protect db req = Next (with_user u req)).
  { unfold protect. rewrite Et. simpl. rewrite (truthy_nonempty tok Hne). simpl.
    now rewrite Hv, Hf, Ha. }
  exists (with_user u req). split; [exact Hp|]. split.
  - unfold optionalAuth. rewrite Et, (truthy_nonempty tok Hne), Hv, Hf, Ha.
    reflexivity.
  - split; [reflexivity|].
    split; [now apply findById_hides_password with (1 := Hf)|].
    now repeat split.
Qed.

Lemma protect_accepts_valid_token_witness :
  let req := {| method := GET; path := []; authorization := None;
                cookie_token := Some ("jwt." ++ Sample.alice_id)%string;
                query := Sample.no_query; body := []; user := None;
                validation_errors := [] |} in
  exists req',
    protect (P := Sample.platform) Sample.db req = Next req'
    /\ user req' = Some (User.select_minus_password Sample.alice).
Proof.
  intro req.
  destruct (protect_accepts_valid_token (P := Sample.platform) Sample.db req
              ("jwt." ++ Sample.alice_id)%string
              {| decoded_id := Some Sample.alice_id |}
              (User.select_minus_password Sample.alice))
    as [req' [Hp [_ [Hu _]]]].
  - discriminate.
  - reflexivity.
  - reflexivity.
  - reflexivity.
  - reflexivity.
  - right. split; reflexivity.
  - exists req'. now split.
Defined.

(** ** The router as a whole *)

Section RouterFacts.
Context {P : Platform}.

(** Which route takes a request: the table, resolved. *)
Lemma serve_resolved rt db req :
  Router.serve rt db req =
    match method req, path req with
    | POST, [] => Some (Router.post_root rt db req [])
    | GET, [] => Some (Routes.listServices rt db req)
    | GET, [x] => Some (Routes.getById rt db x)
    | GET, [x; y] =>
        if (JS.toLowerCase x =? "provider")%string
        then Some (Routes.listByProvider db y) else None
    | PUT, [x] => Some (Router.put_id rt db req [x])
    | DELETE, [x] => Some (Router.delete_id rt db req [x])
    | _, _ => None
    end.
Proof.
  destruct (method req) eqn:Hm; destruct (path req) as [|x [|y [|z p]]] eqn:Hp;
    try (rewrite (serve_get_root rt db req Hm Hp); now rewrite get_root_is_list);
    try (apply (serve_get_one rt db req x Hm Hp));
    unfold Router.serve, Router.table, Router.dispatch; rewrite Hm, Hp;
    cbn -[String.eqb JS.toLowerCase];
    change (JS.toLowerCase "provider") with "provider";
    try rewrite (String.eqb_sym "provider");
    repeat match goal with
           | |- context [(?a =? ?b)%string] => destruct (a =? b)%string
           end;
    reflexivity.
Qed.

Lemma replace_ids d l : ids (Mongo.replace d l) = ids l.
Proof.
  unfold ids. induction l as [|x l IH]; simpl; [reflexivity|].
  destruct (Service._id x =? Service._id d)%string eqn:E; simpl.
  - apply String.eqb_eq in E. now rewrite E.
  - now rewrite IH.
Qed.

Lemma bump_all_ids_from rt found acc l :
  ids (snd (fold_left
              (fun acc d =>
                 let '(d', saved) :=
                   Model.incrementViewCount (savedAt rt (Service._id d)) d
                                            (snd acc) in
                 (fst acc ++ [d'],
                  match saved with
                  | Ok (_, l') => l'
                  | Throw _ => snd acc
                  end))
              found (acc, l)))
  = ids l.
Proof.
  revert acc l. induction found as [|d found IH]; intros acc l; simpl;
    [reflexivity|].
  rewrite IH. unfold Model.save. destruct (Doc.validate _); simpl;
    [apply replace_ids|reflexivity].
Qed.

Lemma bump_all_ids rt found l :
  ids (snd (Routes.bump_all rt found l)) = ids l.
Proof. unfold Routes.bump_all. apply bump_all_ids_from. Qed.

Lemma remove_incl id l : incl (Mongo.remove id l) l.
Proof.
  induction l as [|x l IH]; simpl; [apply incl_refl|].
  destruct (Service._id x =? id)%string.
  - apply incl_tl, incl_refl.
  - intros y [<-|Hy]; [now left|right; now apply IH].
Qed.

Lemma remove_unique id l : unique_ids l -> unique_ids (Mongo.remove id l).
Proof.
  unfold unique_ids. induction l as [|x l IH]; simpl; [trivial|].
  intro H. inversion H as [|? ? Hnot Hrest]; subst.
  destruct (Service._id x =? id)%string; [exact Hrest|].
  simpl. constructor; [|now apply IH].
  intro Hin. apply Hnot. apply in_map_iff in Hin.
  destruct Hin as [y [Hy Hin]]. apply in_map_iff. exists y.
  split; [exact Hy|]. now apply (remove_incl id l).
Qed.

Lemma append_unique d l :
  Mongo.lookup l (Service._id d) = None -> unique_ids l -> unique_ids (l ++ [d]).
Proof.
  unfold unique_ids. intros Hl Hu. rewrite map_app. simpl.
  apply NoDup_app; [exact Hu|constructor; [intros []|constructor]|].
  intros x Hx [<-|[]]. now apply lookup_None_iff in Hl.
Qed.

Ltac in_codes := simpl; repeat (first [left; reflexivity | right]).

Ltac tidy_same :=
  unfold tidy, status_codes; simpl;
  split; [in_codes|]; split; [split; discriminate|]; split; [reflexivity|];
  left; try reflexivity.

Lemma tidy_getById rt db x : tidy db (Routes.getById rt db x).
Proof.
  unfold Routes.getById.
  destruct (Mongo.findById (services db) x) as [[s|]|e]; try tidy_same.
  destruct (negb _); [tidy_same|].
  unfold Model.incrementViewCount, Model.save.
  destruct (Doc.validate _); simpl; tidy_same. apply replace_ids.
Qed.

Lemma tidy_list rt db req : tidy db (Routes.listServices rt db req).
Proof.
  unfold Routes.listServices.
  destruct (Routes.featuredServices db (query req)) as [f|e]; [|tidy_same].
  destruct (Routes.regularServices db (query req)) as [r|e]; [|tidy_same].
  destruct (Model.countDocuments _ _) as [t|e]; [|tidy_same].
  pose proof (bump_all_ids rt (f ++ r) (services db)) as Hids.
  destruct (Routes.bump_all rt (f ++ r) (services db)) as [shown l].
  tidy_same. exact Hids.
Qed.

Lemma tidy_byProvider db y : tidy db (Routes.listByProvider db y).
Proof.
  unfold Routes.listByProvider. destruct (Model.find _ _ _ _ _); tidy_same.
Qed.

Lemma tidy_update rt db r x : tidy db (Routes.update rt db r x).
Proof.
  unfold Routes.update.
  destruct (negb _); [tidy_same|].
  destruct (Mongo.findById (services db) x) as [[s|]|e]; try tidy_same.
  destruct (Service.provider s); [|tidy_same].
  destruct (user r); [|tidy_same].
  destruct (negb _); [tidy_same|].
  unfold Model.findByIdAndUpdate.
  destruct (castObjectId x) as [oid|]; [|tidy_same].
  destruct (negb _); [tidy_same|].
  destruct (Mongo.lookup (services db) oid); tidy_same. apply replace_ids.
Qed.

Lemma tidy_delete db r x : tidy db (Routes.delete db r x).
Proof.
  unfold Routes.delete.
  destruct (Mongo.findById (services db) x) as [[s|]|e]; try tidy_same.
  destruct (Service.provider s); [|tidy_same].
  destruct (user r); [|tidy_same].
  destruct (negb _); [tidy_same|].
  unfold Model.findByIdAndDelete.
  destruct (castObjectId x); [|tidy_same].
  unfold tidy, status_codes. simpl.
  split; [in_codes|]. split; [split; discriminate|]. split; [reflexivity|].
  right. left. split; [apply remove_incl|apply remove_unique].
Qed.

Lemma tidy_create rt db r : tidy db (Routes.create rt db r).
Proof.
  unfold Routes.create.
  destruct (negb _); [tidy_same|].
  destruct (user r) as [u|]; [|tidy_same].
  unfold Model.save_new.
  destruct (negb _); [tidy_same|].
  destruct (Mongo.lookup _ _) eqn:E; [tidy_same|].
  unfold tidy, status_codes. simpl.
  split; [in_codes|]. split; [split; discriminate|]. split; [reflexivity|].
  right. right. eexists. split; [reflexivity|exact E].
Qed.

(** The gates answer with a message and 401 or 403. *)
Lemma gates_answer db req r :
  and_then (and_then (protect db req) requireServiceProvider)
           requireVerification = Respond r ->
  (code r = 401 \/ code r = 403) /\ exists b m, json r = message_json b m.
Proof.
  destruct (protect db req) as [r0|req'] eqn:Hp; simpl.
  - intros [= <-]. split; [left; now apply protect_answers_401 with (1 := Hp)|].
    destruct (protect_cases db req) as [[_ H]|[tok [_ [_ C]]]];
      [rewrite H in Hp; injection Hp as <-; now eexists; eexists|].
    destruct C as [[_ H]|[d [_ C]]];
      [rewrite H in Hp; injection Hp as <-; now eexists; eexists|].
    destruct C as [[_ H]|[[_ H]|[u [_ C]]]];
      try (rewrite H in Hp; injection Hp as <-; now eexists; eexists).
    destruct C as [[_ H]|[_ H]]; rewrite H in Hp;
      [injection Hp as <-; now eexists; eexists|discriminate].
  - destruct (protect_passes_user db req req' Hp) as [u ->].
    unfold requireServiceProvider. simpl.
    destruct (negb _); simpl.
    + intros [= <-]. split; [now right|now eexists; eexists].
    + unfold requireVerification. simpl. destruct (negb _); simpl.
      * intros [= <-]. split; [now right|now eexists; eexists].
      * discriminate.
Qed.

Lemma tidy_gate db r :
  (code r = 401 \/ code r = 403) -> (exists b m, json r = message_json b m) ->
  tidy db (r, db).
Proof.
  intros Hc [b [m Hj]]. unfold tidy, status_codes. simpl.
  split; [destruct Hc as [-> | ->]; in_codes|].
  split; [rewrite Hj; split; discriminate|]. split; [reflexivity|now left].
Qed.

Lemma tidy_post_root rt db req : tidy db (Router.post_root rt db req []).
Proof.
  unfold Router.post_root.
  destruct (and_then (and_then (protect db req) requireServiceProvider)
                     requireVerification) as [r|req'] eqn:G; simpl.
  - destruct (gates_answer db req r G). now apply tidy_gate.
  - apply tidy_create.
Qed.

Lemma tidy_put_id rt db req x : tidy db (Router.put_id rt db req [x]).
Proof.
  unfold Router.put_id.
  destruct (and_then (and_then (protect db req) requireServiceProvider)
                     requireVerification) as [r|req'] eqn:G; simpl.
  - destruct (gates_answer db req r G). now apply tidy_gate.
  - apply tidy_update.
Qed.

Lemma tidy_delete_id rt db req x : tidy db (Router.delete_id rt db req [x]).
Proof.
  unfold Router.delete_id.
  destruct (protect db req) as [r0|req'] eqn:Hp; simpl.
  - apply tidy_gate; [left; now apply protect_answers_401 with (1 := Hp)|].
    destruct (protect_cases db req) as [[_ H]|[tok [_ [_ C]]]];
      [rewrite H in Hp; injection Hp as <-; now eexists; eexists|].
    destruct C as [[_ H]|[d [_ C]]];
      [rewrite H in Hp; injection Hp as <-; now eexists; eexists|].
    destruct C as [[_ H]|[[_ H]|[u [_ C]]]];
      try (rewrite H in Hp; injection Hp as <-; now eexists; eexists).
    destruct C as [[_ H]|[_ H]]; rewrite H in Hp;
      [injection Hp as <-; now eexists; eexists|discriminate].
  - destruct (protect_passes_user db req req' Hp) as [u ->].
    unfold requireServiceProvider. simpl. destruct (negb _); simpl.
    + apply tidy_gate; [now right|now eexists; eexists].
    + apply tidy_delete.
Qed.

Lemma serve_tidy rt db req a : Router.serve rt db req = Some a -> tidy db a.
Proof.
  rewrite serve_resolved.
  destruct (method req); destruct (path req) as [|x [|y [|z p]]];
    try discriminate;
    try (intros [= <-];
         first [apply tidy_list | apply tidy_getById | apply tidy_post_root
               | apply tidy_put_id | apply tidy_delete_id]).
  destruct (JS.toLowerCase x =? "provider")%string; [|discriminate].
  intros [= <-]. apply tidy_byProvider.
Qed.

End RouterFacts.

(** Every answer of the router has one of seven status codes. *)
Theorem router_status_codes {P : Platform}
        (rt : Runtime) (db : Collections) (req : Request)
        (r : Response) (db' : Collections) :
  Router.serve rt db req = Some (r, db') -> In (code r) status_codes.
Proof. intro H. now destruct (serve_tidy rt db req (r, db') H) as [Hc _]. Qed.

Lemma router_status_codes_witness :
  exists r db',
    Router.serve (P := Sample.platform) Sample.rt Sample.db
      (Sample.request GET ["333333333333333333333333"] None Sample.no_query [])
    = Some (r, db')
    /\ code r = 404 /\ In (code r) status_codes.
Proof.
  destruct (Router.serve (P := Sample.platform) Sample.rt Sample.db
              (Sample.request GET ["333333333333333333333333"] None
                 Sample.no_query []))
    as [[r db']|] eqn:E; [|vm_compute in E; discriminate E].
  exists r, db'. split; [reflexivity|].
  split; [vm_compute in E; now injection E as <- _|].
  exact (router_status_codes (P := Sample.platform) Sample.rt Sample.db _ r db' E).
Defined.

(** No request at all is answered with the category list: the handler of
    [/categories] is never the one that runs. *)
Theorem router_never_sends_categories {P : Platform}
        (rt : Runtime) (db : Collections) (req : Request)
        (r : Response) (db' : Collections) (c : list Category) :
  Router.serve rt db req = Some (r, db') -> json r <> categories_json c.
Proof. intro H. destruct (serve_tidy rt db req (r, db') H) as [_ [[Hj _] _]]. apply Hj. Qed.

Lemma router_never_sends_categories_witness :
  option_map (fun a : Routes.Answer => json (fst a))
    (Router.serve (P := Sample.platform) Sample.rt Sample.db
       (Sample.request GET ["Categories"] None Sample.no_query []))
  <> Some (categories_json Routes.categories).
Proof.
  intro H.
  destruct (Router.serve (P := Sample.platform) Sample.rt Sample.db
              (Sample.request GET ["Categories"] None Sample.no_query []))
    as [[r db']|] eqn:E; [|discriminate H].
  simpl in H. injection H as H.
  exact (router_never_sends_categories (P := Sample.platform) Sample.rt Sample.db
           _ r db' Routes.categories E H).
Defined.

(** No route touches the users.  To the listings a request does one of
    three things: it leaves the stored ids as they are, in their order; or it
    only removes listings; or it appends one listing whose id was not in
    use.  So ids that are unique stay unique. *)
Theorem router_keeps_collections_sound {P : Platform}
        (rt : Runtime) (db : Collections) (req : Request)
        (r : Response) (db' : Collections) :
  Router.serve rt db req = Some (r, db') ->
  users db' = users db
  /\ (ids (services db') = ids (services db)
      \/ incl (services db') (services db)
      \/ exists d, services db' = services db ++ [d]
                   /\ ~ In (Service._id d) (ids (services db)))
  /\ (unique_ids (services db) -> unique_ids (services db')).
Proof.
  intro H. destruct (serve_tidy rt db req (r, db') H) as [_ [_ [Hu Hs]]].
  simpl in Hu, Hs. split; [exact Hu|].
  destruct Hs as [Hs|[[Hs Hk]|[d [Hs Hf]]]].
  - split; [now left|]. unfold unique_ids. fold (ids (services db')).
    fold (ids (services db)). now rewrite Hs.
  - split; [right; now left|exact Hk].
  - split.
    + right. right. exists d. split; [exact Hs|]. now apply lookup_None_iff.
    + intro Hk. rewrite Hs. now apply append_unique.
Qed.

Lemma router_keeps_collections_sound_witness :
  exists db',
    option_map snd
      (Router.serve (P := Sample.platform) Sample.rt Sample.db
         (Sample.request DELETE ["111111111111111111111111"]
            (Sample.bearer Sample.alice_id) Sample.no_query [])) = Some db'
    /\ users db' = users Sample.db
    /\ unique_ids (services db').
Proof.
  destruct (Router.serve (P := Sample.platform) Sample.rt Sample.db
              (Sample.request DELETE ["111111111111111111111111"]
                 (Sample.bearer Sample.alice_id) Sample.no_query []))
    as [[r db']|] eqn:E; [|vm_compute in E; discriminate E].
  exists db'. split; [reflexivity|].
  destruct (router_keeps_collections_sound (P := Sample.platform) Sample.rt
              Sample.db _ r db' E) as [Hu [_ Hk]].
  split; [exact Hu|]. apply Hk.
  unfold unique_ids. simpl.
  repeat (constructor; [simpl; intuition discriminate|]). constructor.
Defined.

(** ** Listings of one provider *)

Lemma insert_perm o x l : Permutation (x :: l) (Mongo.insert o x l).
Proof.
  induction l as [|y l IH]; simpl; [apply Permutation_refl|].
  destruct (Mongo.before o x y); [apply Permutation_refl|].
  apply perm_trans with (y :: x :: l); [apply perm_swap|now apply perm_skip].
Qed.

Lemma sort_by_perm o l : Permutation l (Mongo.sort_by o l).
Proof.
  induction l as [|x l IH]; simpl; [apply perm_nil|].
  apply perm_trans with (x :: Mongo.sort_by o l);
    [now apply perm_skip|apply insert_perm].
Qed.

Lemma ordered_provider a b :
  ordered [(Mongo.by_isFeatured, Mongo.desc); (Mongo.by_createdAt, Mongo.desc)] a b ->
  provider_order a b.
Proof.
  unfold ordered, provider_order, Mongo.before.
  cbn [Mongo.compare_by Mongo.sort_value Mongo.compare_value].
  rewrite Qcompare_inject_Z.
  destruct (Service.isFeatured a), (Service.isFeatured b);
    change (1 ?= 1)%Q with Eq; change (0 ?= 0)%Q with Eq;
    change (1 ?= 0)%Q with Gt; change (0 ?= 1)%Q with Lt; cbn [CompOpp].
  - destruct (Z.compare_spec (Service.createdAt a) (Service.createdAt b))
      as [E|L|G];
      cbn [CompOpp]; intro X; try discriminate; right; split; (reflexivity || lia).
  - intros _. left. now split.
  - discriminate.
  - destruct (Z.compare_spec (Service.createdAt a) (Service.createdAt b))
      as [E|L|G];
      cbn [CompOpp]; intro X; try discriminate; right; split; (reflexivity || lia).
Qed.

(** [GET /provider/:providerId] answers 500 when the id is malformed.
    Otherwise it answers 200 with exactly the documents built from the
    stored listings of that provider that are active and verified, each
    once, featured ones first
    and newest first within each group; it changes nothing, not even the
    view counters. *)
Theorem listByProvider_exact {P : Platform}
        (rt : Runtime) (db : Collections) (req : Request) (x y : string) :
  method req = GET -> path req = [x; y] -> JS.toLowerCase x = "provider" ->
  (castObjectId y = None ->
     Router.serve rt db req
       = Some (Routes.server_error
                 "Server error while fetching provider services" db))
  /\ (forall oid, castObjectId y = Some oid ->
        exists found,
          Router.serve rt db req
            = Some (Routes.reply 200 (services_json found None) db)
          /\ Permutation found
               (map Doc.hydrate (filter (shown_for oid) (services db)))
          /\ StronglySorted provider_order found).
Proof.
  intros Hm Hp Hx. rewrite serve_resolved, Hm, Hp, Hx. simpl String.eqb. cbv iota.
  unfold Routes.listByProvider, Model.find. simpl Mongo.cast_filter.
  split.
  - intros ->. reflexivity.
  - intros oid ->. simpl.
    eexists. split; [reflexivity|]. split.
    + apply Permutation_map. apply Permutation_sym.
      eapply perm_trans; [|apply sort_by_perm].
      match goal with
      | |- Permutation (filter ?f _) (filter ?g _) =>
          rewrite (filter_ext f g); [apply Permutation_refl|]
      end.
      intro s. unfold shown_for, isAvailable, Mongo.matches. simpl.
      rewrite andb_true_r.
      destruct (Service.isVerified s); simpl; now rewrite ?andb_true_r, ?andb_false_r.
    + apply sorted_weaken with (2 := hydrate_sorted _ _ (sort_by_sorted _ _)).
      intros a b. apply ordered_provider.
Qed.

Lemma listByProvider_exact_witness :
  Router.serve (P := Sample.platform) Sample.rt Sample.db
    (Sample.request GET ["provider"; Sample.alice_id] None Sample.no_query [])
  = Some (Routes.reply 200 (services_json [Sample.cleaning] None) Sample.db).
Proof.
  destruct (listByProvider_exact (P := Sample.platform) Sample.rt Sample.db
              (Sample.request GET ["provider"; Sample.alice_id] None
                 Sample.no_query [])
              "provider" Sample.alice_id eq_refl eq_refl eq_refl) as [_ H].
  destruct (H Sample.alice_id eq_refl) as [found [E _]].
  rewrite E. vm_compute in E. injection E as <-. reflexivity.
Defined.

(** ** A page of the list: no repetition, and only view counters change *)

Lemma ids_filter_unique p l : unique_ids l -> unique_ids (filter p l).
Proof.
  unfold unique_ids. induction l as [|x l IH]; simpl; [trivial|].
  intro H. inversion H as [|? ? Hnot Hrest]; subst.
  destruct (p x); simpl; [|now apply IH].
  constructor; [|now apply IH].
  intro Hin. apply Hnot. apply in_map_iff in Hin.
  destruct Hin as [y [Hy Hin]]. apply in_map_iff. exists y.
  split; [exact Hy|]. now apply filter_In in Hin.
Qed.

Lemma ids_firstn_unique n l : unique_ids l -> unique_ids (firstn n l).
Proof.
  unfold unique_ids. intro H. rewrite <- (firstn_skipn n l), map_app in H.
  now apply NoDup_app_remove_r in H.
Qed.

Lemma ids_skipn_unique n l : unique_ids l -> unique_ids (skipn n l).
Proof.
  unfold unique_ids. intro H. rewrite <- (firstn_skipn n l), map_app in H.
  now apply NoDup_app_remove_l in H.
Qed.

Lemma ids_sort_unique o l : unique_ids l -> unique_ids (Mongo.sort_by o l).
Proof.
  unfold unique_ids. apply Permutation_NoDup, Permutation_map, sort_by_perm.
Qed.

Lemma find_unique {P : Platform} f order s n l r :
  Model.find f order s n l = Ok r -> unique_ids l -> unique_ids r.
Proof.
  intros H Hu. destruct (find_stages _ _ _ _ _ _ H)
    as [cf [skipped [limited [_ [Hk [Hn ->]]]]]].
  assert (Hf : unique_ids (Mongo.sort_by order (filter (Mongo.matches cf) l)))
    by now apply ids_sort_unique, ids_filter_unique.
  assert (Hs : unique_ids skipped).
  { destruct s as [k|]; [|now injection Hk as <-].
    destruct (skip_sound _ _ _ Hk) as [m ->]. now apply ids_skipn_unique. }
  assert (Hl : unique_ids limited).
  { destruct n as [k|]; [|now injection Hn as <-].
    destruct (limit_sound _ _ _ Hn) as [->|[m ->]];
      [exact Hs|now apply ids_firstn_unique]. }
  unfold unique_ids. now rewrite ids_hydrate.
Qed.

Lemma unique_same_id l a b :
  unique_ids l -> In a l -> In b l -> Service._id a = Service._id b -> a = b.
Proof.
  unfold unique_ids. induction l as [|x l IH]; simpl; [contradiction|].
  intros H Ha Hb E. inversion H as [|? ? Hnot Hrest]; subst.
  destruct Ha as [<-|Ha], Hb as [<-|Hb]; try reflexivity.
  - exfalso. apply Hnot. rewrite E. now apply in_map.
  - exfalso. apply Hnot. rewrite <- E. now apply in_map.
  - now apply IH.
Qed.

Lemma ids_bump l : ids (map bump l) = ids l.
Proof. unfold ids. rewrite map_map. reflexivity. Qed.

(** When the stored ids are unique, a page of [GET /] shows no listing
    twice: the featured part and the regular part have no listing in
    common, and neither repeats one. *)
Theorem page_shows_no_listing_twice {P : Platform}
        (rt : Runtime) (db : Collections) (req : Request)
        (r : Response) (db' : Collections)
        (l : list Service.t) (pag : option Pagination) :
  unique_ids (services db) ->
  method req = GET -> path req = [] ->
  Router.serve rt db req = Some (r, db') ->
  json r = services_json l pag ->
  NoDup (ids l).
Proof.
  intros Hu Hm Hp Hs Hj.
  rewrite serve_resolved, Hm, Hp in Hs. injection Hs as Hs.
  destruct (listServices_cases rt db req)
    as [[featured [regular [total [l' [Hf [Hr [_ E]]]]]]]|E];
    rewrite E in Hs; injection Hs as <- <-; simpl in Hj; [|discriminate].
  injection Hj as <- _. rewrite ids_bump. unfold ids. rewrite map_app.
  apply NoDup_app.
  - unfold Routes.featuredServices in Hf. apply (find_unique _ _ _ _ _ _ Hf Hu).
  - unfold Routes.regularServices in Hr. apply (find_unique _ _ _ _ _ _ Hr Hu).
  - intros i Hi Hi'. apply in_map_iff in Hi, Hi'.
    destruct Hi as [a [<- Ha]]. destruct Hi' as [b [Eb Hb]].
    destruct (featured_sound db (query req) featured Hf a Ha)
      as [[a0 [Hal ->]] [Hfa _]].
    destruct (regular_sound db (query req) regular Hr b Hb)
      as [[b0 [Hbl ->]] [Hfb _]].
    rewrite !hydrate_id in Eb.
    assert (a0 = b0) by (apply (unique_same_id (services db)); auto).
    subst b0. congruence.
Qed.

Lemma page_shows_no_listing_twice_witness :
  exists l pag,
    option_map (fun a : Routes.Answer => json (fst a))
      (Router.serve (P := Sample.platform) Sample.rt Sample.db
         (Sample.request GET [] None Sample.no_query []))
    = Some (services_json l pag)
    /\ length l = 3%nat /\ NoDup (ids l).
Proof.
  destruct (Router.serve (P := Sample.platform) Sample.rt Sample.db
              (Sample.request GET [] None Sample.no_query []))
    as [[r db']|] eqn:E; [|vm_compute in E; discriminate E].
  assert (Hj : json r = services_json
                          [bump Sample.gardening; bump Sample.plumbing;
                           bump Sample.cleaning]
                          (Some {| currentPage := JS.Int 1; totalServices := 3 |})).
  { vm_compute in E. injection E as <- _. reflexivity. }
  eexists. eexists. split; [simpl; rewrite Hj; reflexivity|].
  split; [reflexivity|].
  apply (page_shows_no_listing_twice (P := Sample.platform) Sample.rt Sample.db
           (Sample.request GET [] None Sample.no_query []) r db' _
           (Some {| currentPage := JS.Int 1; totalServices := 3 |})).
  - unfold unique_ids. simpl.
    repeat (constructor; [simpl; intuition discriminate|]). constructor.
  - reflexivity.
  - reflexivity.
  - exact E.
  - exact Hj.
Defined.

Lemma same_but_counters_refl a : same_but_counters a a.
Proof. exists a. split; [now left|now destruct a]. Qed.

Lemma same_but_counters_id a b :
  same_but_counters a b -> Service._id b = Service._id a.
Proof.
  intros [c [[->| ->] ->]]; simpl; [reflexivity|apply hydrate_id].
Qed.

Lemma same_but_counters_saved t a :
  same_but_counters a (Doc.set_updatedAt t (bump (Doc.hydrate a))).
Proof. exists (Doc.hydrate a). split; [now right|reflexivity]. Qed.

Lemma same_but_counters_all l : Forall2 same_but_counters l l.
Proof. induction l; constructor; [apply same_but_counters_refl|assumption]. Qed.

(** Replacing the stored document of a listing by a version of it that
    differs in the counters keeps every listing up to the counters. *)
Lemma replace_counters l0 l d d' :
  unique_ids l0 -> Forall2 same_but_counters l0 l -> In d l0 ->
  same_but_counters d d' -> Forall2 same_but_counters l0 (Mongo.replace d' l).
Proof.
  intros Hu HF. revert Hu. induction HF as [|a b l0 l Hab HF IH]; intros Hu Hin Hd.
  - constructor.
  - simpl. pose proof (same_but_counters_id _ _ Hab) as Eb.
    pose proof (same_but_counters_id _ _ Hd) as Ed.
    unfold unique_ids in Hu. simpl in Hu.
    inversion Hu as [|? ? Hnot Hrest]; subst.
    destruct (Service._id b =? Service._id d')%string eqn:E.
    + apply String.eqb_eq in E.
      assert (d = a).
      { destruct Hin as [->|Hin]; [reflexivity|].
        exfalso. apply Hnot. replace (Service._id a) with (Service._id d) by congruence.
        now apply in_map. }
      subst d. constructor; assumption.
    + apply String.eqb_neq in E. constructor; [exact Hab|].
      apply IH; try assumption.
      destruct Hin as [->|Hin]; [congruence|exact Hin].
Qed.

Lemma bump_all_counters_from rt l0 found acc l :
  unique_ids l0 -> Forall2 same_but_counters l0 l ->
  (forall d, In d found -> exists d0, In d0 l0 /\ d = Doc.hydrate d0) ->
  Forall2 same_but_counters l0
    (snd (fold_left
            (fun acc d =>
               let '(d', saved) :=
                 Model.incrementViewCount (savedAt rt (Service._id d)) d
                                          (snd acc) in
               (fst acc ++ [d'],
                match saved with
                | Ok (_, l') => l'
                | Throw _ => snd acc
                end))
            found (acc, l))).
Proof.
  intro Hu. revert acc l.
  induction found as [|d found IH]; intros acc l HF Hin; simpl; [exact HF|].
  apply IH; [|intros x Hx; apply Hin; now right].
  unfold Model.save. destruct (Doc.validate _); simpl; [|exact HF].
  destruct (Hin d (or_introl eq_refl)) as [d0 [Hd0 ->]].
  apply replace_counters with (d := d0); try assumption.
  apply same_but_counters_saved.
Qed.

Lemma get_keeps_listings_up_to_counters {P : Platform} rt db req r db' :
  unique_ids (services db) -> method req = GET ->
  Router.serve rt db req = Some (r, db') ->
  Forall2 same_but_counters (services db) (services db').
Proof.
  intros Hu Hm Hs. rewrite serve_resolved, Hm in Hs.
  destruct (path req) as [|x [|y [|z p]]]; try discriminate.
  - injection Hs as Hs. unfold Routes.listServices in Hs.
    destruct (Routes.featuredServices db (query req)) as [f|e] eqn:Hf;
      [|injection Hs as <- <-; apply same_but_counters_all].
    destruct (Routes.regularServices db (query req)) as [g|e] eqn:Hg;
      [|injection Hs as <- <-; apply same_but_counters_all].
    destruct (Model.countDocuments _ _) as [t|e];
      [|injection Hs as <- <-; apply same_but_counters_all].
    pose proof (bump_all_counters_from rt (services db) (f ++ g) []
                  (services db) Hu (same_but_counters_all _)) as Hb.
    fold (Routes.bump_all rt (f ++ g) (services db)) in Hb.
    destruct (Routes.bump_all rt (f ++ g) (services db)) as [shown l].
    injection Hs as <- <-. simpl. apply Hb.
    intros d Hd. apply in_app_or in Hd. destruct Hd as [Hd|Hd].
    + now apply (featured_sound db (query req) f Hf d Hd).
    + now apply (regular_sound db (query req) g Hg d Hd).
  - injection Hs as Hs.
    destruct (castObjectId x) as [oid|] eqn:Hc;
      [|rewrite (getById_malformed rt db x Hc) in Hs;
        injection Hs as <- <-; apply same_but_counters_all].
    destruct (Mongo.lookup (services db) oid) as [s|] eqn:Hl;
      [|rewrite (getById_missing rt db x oid Hc Hl) in Hs;
        injection Hs as <- <-; apply same_but_counters_all].
    destruct (String.eqb_spec (Service.status s) "active") as [Ha|Ha];
      [|rewrite (getById_inactive rt db x oid s Hc Hl Ha) in Hs;
        injection Hs as <- <-; apply same_but_counters_all].
    rewrite (getById_active rt db x oid s Hc Hl Ha) in Hs.
    destruct (Doc.validate _); injection Hs as <- <-;
      [|apply same_but_counters_all].
    simpl. apply replace_counters with (d := s); try assumption.
    + apply same_but_counters_all.
    + now apply lookup_In with (1 := Hl).
    + apply same_but_counters_saved.
  - destruct (JS.toLowerCase x =? "provider")%string; [|discriminate].
    injection Hs as Hs. unfold Routes.listByProvider in Hs.
    destruct (Model.find _ _ _ _ _); injection Hs as <- <-;
      apply same_but_counters_all.
Qed.

(** A GET request changes nothing in the collections but counters:
    afterwards the same listings are stored, in the same order, each what
    it was, or the document Mongoose builds from what it was, in every
    field except possibly [viewCount] and [updatedAt], and the users are as
    they were.  (The stored ids are unique.) *)
Theorem get_changes_only_view_counters {P : Platform}
        (rt : Runtime) (db : Collections) (req : Request)
        (r : Response) (db' : Collections) :
  unique_ids (services db) -> method req = GET ->
  Router.serve rt db req = Some (r, db') ->
  users db' = users db
  /\ Forall2 same_but_counters (services db) (services db').
Proof.
  intros Hu Hm Hs. split.
  - now destruct (serve_tidy rt db req (r, db') Hs) as [_ [_ [Hk _]]].
  - now apply (get_keeps_listings_up_to_counters rt db req r db').
Qed.

Lemma get_changes_only_view_counters_witness :
  exists db',
    option_map snd
      (Router.serve (P := Sample.platform) Sample.rt Sample.db
         (Sample.request GET [] None Sample.no_query [])) = Some db'
    /\ Forall2 same_but_counters (services Sample.db) (services db')
    /\ map Service.updatedAt (services db') = [5001; 5001; 30; 5001]
    /\ map Service.viewCount (services db') = [1; 1; 0; 1].
Proof.
  destruct (Router.serve (P := Sample.platform) Sample.rt Sample.db
              (Sample.request GET [] None Sample.no_query []))
    as [[r db']|] eqn:E; [|vm_compute in E; discriminate E].
  exists db'. split; [reflexivity|].
  split.
  - apply (get_changes_only_view_counters (P := Sample.platform) Sample.rt
             Sample.db (Sample.request GET [] None Sample.no_query []) r db');
      [|reflexivity|exact E].
    unfold unique_ids. simpl.
    repeat (constructor; [simpl; intuition discriminate|]). constructor.
  - vm_compute in E. injection E as _ <-. split; reflexivity.
Defined.

(** ** The featured part of a page *)

Lemma featured_part_recognised {P : Platform} db q f g :
  Routes.featuredServices db q = Ok f -> Routes.regularServices db q = Ok g ->
  filter Service.isFeatured (map bump (f ++ g)) = map bump f
  /\ Forall (fun s => Service.isFeatured s = false) (map bump g).
Proof.
  intros Hf Hg.
  assert (F : filter Service.isFeatured (map bump f) = map bump f).
  { pose proof (featured_sound db q f Hf) as H. clear Hf.
    induction f as [|x f IH]; [reflexivity|]. cbn [map filter].
    change (Service.isFeatured (bump x)) with (Service.isFeatured x).
    destruct (H x (or_introl eq_refl)) as [_ [-> _]]. f_equal.
    apply IH. intros s Hs. apply H. now right. }
  assert (G : Forall (fun s => Service.isFeatured s = false) (map bump g)).
  { apply Forall_forall. intros s Hs. apply in_map_iff in Hs.
    destruct Hs as [x [<- Hx]].
    change (Service.isFeatured (bump x)) with (Service.isFeatured x).
    now destruct (regular_sound db q g Hg x Hx) as [_ [-> _]]. }
  split; [|exact G].
  rewrite map_app, filter_app, F.
  assert (N : filter Service.isFeatured (map bump g) = []).
  { clear - G. induction (map bump g) as [|x l IH]; [reflexivity|].
    inversion G as [|? ? Hx Hl]; subst. cbn [filter]. rewrite Hx. now apply IH. }
  rewrite N. apply app_nil_r.
Qed.

(** The featured part of a page does not depend on the page.  Two
    [GET /] requests on the same collections whose query strings differ in
    [page] only, both answered with a list, show the same featured
    listings in the same order, and each list is its featured part followed
    by listings that are not featured. *)
Theorem featured_part_repeats_on_every_page {P : Platform}
        (rt : Runtime) (db : Collections) (req1 req2 : Request)
        (r1 r2 : Response) (db1 db2 : Collections)
        (l1 l2 : list Service.t) (pag1 pag2 : option Pagination) :
  method req1 = GET -> path req1 = [] ->
  method req2 = GET -> path req2 = [] ->
  query req2 = with_page (Query.page (query req2)) (query req1) ->
  Router.serve rt db req1 = Some (r1, db1) -> json r1 = services_json l1 pag1 ->
  Router.serve rt db req2 = Some (r2, db2) -> json r2 = services_json l2 pag2 ->
  filter Service.isFeatured l1 = filter Service.isFeatured l2
  /\ exists rest1 rest2,
       l1 = filter Service.isFeatured l1 ++ rest1
       /\ l2 = filter Service.isFeatured l2 ++ rest2
       /\ Forall (fun s => Service.isFeatured s = false) rest1
       /\ Forall (fun s => Service.isFeatured s = false) rest2.
Proof.
  intros Hm1 Hp1 Hm2 Hp2 Hq Hs1 Hj1 Hs2 Hj2.
  rewrite (serve_get_root rt db _ Hm1 Hp1), get_root_is_list in Hs1.
  rewrite (serve_get_root rt db _ Hm2 Hp2), get_root_is_list in Hs2.
  injection Hs1 as Hs1. injection Hs2 as Hs2.
  destruct (listServices_cases rt db req1)
    as [[f1 [g1 [t1 [l1' [Hf1 [Hg1 [_ E1]]]]]]]|E1];
    rewrite E1 in Hs1; injection Hs1 as <- <-; simpl in Hj1; [|discriminate].
  destruct (listServices_cases rt db req2)
    as [[f2 [g2 [t2 [l2' [Hf2 [Hg2 [_ E2]]]]]]]|E2];
    rewrite E2 in Hs2; injection Hs2 as <- <-; simpl in Hj2; [|discriminate].
  injection Hj1 as <- _. injection Hj2 as <- _.
  assert (f2 = f1).
  { rewrite Hq in Hf2. unfold Routes.featuredServices in Hf1, Hf2.
    change (Routes.featuredFilter (with_page _ (query req1)))
      with (Routes.featuredFilter (query req1)) in Hf2.
    cbn [with_page Query.sort Query.limit] in Hf2. congruence. }
  subst f2.
  destruct (featured_part_recognised db (query req1) f1 g1 Hf1 Hg1) as [F1 G1].
  destruct (featured_part_recognised db (query req2) f1 g2 Hf2 Hg2) as [F2 G2].
  rewrite F1, F2. split; [reflexivity|].
  exists (map bump g1), (map bump g2). rewrite !map_app. now repeat split.
Qed.

Lemma featured_part_repeats_on_every_page_witness :
  let page (p : option string) :=
    Sample.request GET [] None (with_page p Sample.no_query) [] in
  exists l1 l2 pag1 pag2,
    option_map (fun a : Routes.Answer => json (fst a))
      (Router.serve (P := Sample.platform) Sample.rt Sample.db (page None))
    = Some (services_json l1 pag1)
    /\ option_map (fun a : Routes.Answer => json (fst a))
         (Router.serve (P := Sample.platform) Sample.rt Sample.db
            (page (Some "2")))
       = Some (services_json l2 pag2)
    /\ l1 <> l2
    /\ filter Service.isFeatured l1 = filter Service.isFeatured l2.
Proof.
  intro page.
  destruct (Router.serve (P := Sample.platform) Sample.rt Sample.db (page None))
    as [[r1 db1]|] eqn:E1; [|vm_compute in E1; discriminate E1].
  destruct (Router.serve (P := Sample.platform) Sample.rt Sample.db
              (page (Some "2")))
    as [[r2 db2]|] eqn:E2; [|vm_compute in E2; discriminate E2].
  assert (Hj1 : json r1 = services_json
                            [bump Sample.gardening; bump Sample.plumbing;
                             bump Sample.cleaning]
                            (Some {| currentPage := JS.Int 1;
                                     totalServices := 3 |}))
    by (vm_compute in E1; injection E1 as <- _; reflexivity).
  assert (Hj2 : json r2 = services_json
                            [bump Sample.gardening; bump Sample.plumbing]
                            (Some {| currentPage := JS.Int 2;
                                     totalServices := 3 |}))
    by (vm_compute in E2; injection E2 as <- _; reflexivity).
  eexists. eexists. eexists. eexists.
  split; [simpl; rewrite Hj1; reflexivity|].
  split; [simpl; rewrite Hj2; reflexivity|].
  split; [discriminate|].
  exact (proj1 (featured_part_repeats_on_every_page (P := Sample.platform)
                  Sample.rt Sample.db (page None) (page (Some "2"))
                  r1 r2 db1 db2 _ _ _ _
                  eq_refl eq_refl eq_refl eq_refl eq_refl E1 Hj1 E2 Hj2)).
Defined.

(** ** Writing routes: who gets to write, and what *)

Section WriteFacts.
Context {P : Platform}.

Lemma new_id id now data : Service._id (Doc.new id now data) = id.
Proof.
  unfold Doc.new, Doc.default_currency.
  destruct (currency _); simpl; now rewrite set_all_id.
Qed.

Lemma create_201 rt db r resp db' :
  Routes.create rt db r = (resp, db') -> code resp = 201 ->
  exists u,
    validation_errors r = [] /\ user r = Some u
    /\ Doc.validate (Doc.new (newObjectId rt) (now rt)
                             (Routes.serviceData u (body r))) = true
    /\ Mongo.lookup (services db) (newObjectId rt) = None
    /\ resp = {| code := 201;
                 json := service_json
                           (Some "Service created successfully and pending review")
                           (Some (Doc.new (newObjectId rt) (now rt)
                                          (Routes.serviceData u (body r)))) |}
    /\ db' = with_services
               (services db
                  ++ [Doc.new (newObjectId rt) (now rt)
                              (Routes.serviceData u (body r))])
               db.
Proof.
  unfold Routes.create, Model.save_new, Routes.reply, Routes.server_error.
  destruct (Routes.isEmpty (validation_errors r)) eqn:He; simpl;
    [|intros [= <- <-]; discriminate].
  apply isEmpty_nil in He.
  destruct (user r) as [u|]; [|intros [= <- <-]; discriminate].
  rewrite new_id.
  destruct (Doc.validate _) eqn:Hv; simpl; [|intros [= <- <-]; discriminate].
  destruct (Mongo.lookup _ _) eqn:Hl; [intros [= <- <-]; discriminate|].
  intros [= <- <-] _. exists u. now repeat split.
Qed.

Lemma create_not_201 rt db r resp db' :
  Routes.create rt db r = (resp, db') -> code resp <> 201 -> db' = db.
Proof.
  unfold Routes.create, Model.save_new, Routes.reply, Routes.server_error.
  destruct (negb _); [now intros [= _ <-]|].
  destruct (user r); [|now intros [= _ <-]].
  destruct (negb _); [now intros [= _ <-]|].
  destruct (Mongo.lookup _ _); [now intros [= _ <-]|].
  intros [= <- _] Hc. now elim Hc.
Qed.

(** What stands behind a 201 of [POST /]. *)
Lemma post_201 rt db req r db' :
  Router.post_root rt db req [] = (r, db') -> code r = 201 ->
  exists u,
    protect db req = Next (with_user u req)
    /\ User.userType u = "service_provider" /\ User.isVerified u = true
    /\ passes_create_validators (body req)
    /\ Doc.validate (Doc.new (newObjectId rt) (now rt)
                       (Routes.serviceData u (sanitized (body req)))) = true
    /\ Mongo.lookup (services db) (newObjectId rt) = None
    /\ r = {| code := 201;
              json := service_json
                        (Some "Service created successfully and pending review")
                        (Some (Doc.new (newObjectId rt) (now rt)
                                 (Routes.serviceData u (sanitized (body req))))) |}
    /\ db' = with_services
               (services db
                  ++ [Doc.new (newObjectId rt) (now rt)
                              (Routes.serviceData u (sanitized (body req)))])
               db.
Proof.
  intros H Hc.
  destruct (gates db req) as [[r0 [G Hcode]]|[u [Hp [Ht [Hv G]]]]].
  - unfold Router.post_root in H. rewrite G in H. simpl in H.
    injection H as <- <-. lia.
  - rewrite (post_root_of_provider rt db req u Hp Ht Hv) in H.
    destruct (create_chains_verdict (with_user u req))
      as [errs [Hshape Hverdict]].
    change (body (with_user u req)) with (body req) in Hshape, Hverdict.
    rewrite Hshape in H. cbn [Router.run] in H.
    destruct (create_201 rt db _ r db' H Hc)
      as [u' [He [Hu [Hval [Hfresh [-> ->]]]]]].
    cbn [validation_errors user body with_validation with_user] in He, Hu, Hval.
    injection Hu as <-.
    exists u. cbn [body with_validation with_user].
    split; [assumption|]. split; [assumption|]. split; [assumption|].
    split; [now apply Hverdict|]. split; [exact Hval|]. now repeat split.
Qed.

Lemma post_not_201 rt db req r db' :
  Router.post_root rt db req [] = (r, db') -> code r <> 201 -> db' = db.
Proof.
  unfold Router.post_root. intros H Hc.
  destruct (and_then _ Routes.create_chains) as [r0|req']; cbn [Router.run] in H.
  - now injection H as _ <-.
  - now apply create_not_201 with (1 := H).
Qed.

End WriteFacts.

(** [POST /] stores a listing only for an authenticated, verified service
    provider whose body passes the six validators of the route (lengths
    counted in characters, after trimming) and whose document passes the
    schema's validators, and then exactly one: it is the document made of
    the trimmed body, is appended, has the generated id, the caller as
    provider and status [pending_review].  With any other answer the
    collections are as they were. *)
Theorem create_writes_only_for_verified_providers {P : Platform}
        (rt : Runtime) (db : Collections) (req : Request)
        (r : Response) (db' : Collections) :
  method req = POST -> path req = [] ->
  Router.serve rt db req = Some (r, db') ->
  (code r = 201 ->
     exists u d,
       protect db req = Next (with_user u req)
       /\ User.userType u = "service_provider" /\ User.isVerified u = true
       /\ passes_create_validators (body req)
       /\ d = Doc.new (newObjectId rt) (now rt)
                      (Routes.serviceData u (sanitized (body req)))
       /\ Doc.validate d = true
       /\ db' = with_services (services db ++ [d]) db
       /\ Service._id d = newObjectId rt
       /\ ~ In (newObjectId rt) (ids (services db))
       /\ Service.provider d = Some (User._id u)
       /\ Service.status d = "pending_review"
       /\ json r = service_json
                     (Some "Service created successfully and pending review")
                     (Some d))
  /\ (code r <> 201 -> db' = db).
Proof.
  intros Hm Hp Hs. rewrite serve_resolved, Hm, Hp in Hs. injection Hs as Hs.
  split.
  - intro Hc.
    destruct (post_201 rt db req r db' Hs Hc)
      as [u [Ha [Ht [Hv [Hch [Hval [Hfresh [-> ->]]]]]]]].
    destruct (new_is_pending (newObjectId rt) (now rt) u (sanitized (body req)))
      as [Hst Hpr].
    exists u, (Doc.new (newObjectId rt) (now rt)
                       (Routes.serviceData u (sanitized (body req)))).
    repeat (split; [assumption|]).
    split; [reflexivity|]. split; [exact Hval|].
    split; [reflexivity|].
    split; [apply new_id|].
    split; [now apply lookup_None_iff|].
    split; [exact Hpr|]. split; [exact Hst|reflexivity].
  - now apply post_not_201 with (rt := rt) (req := req) (r := r).
Qed.

Lemma create_writes_only_for_verified_providers_witness :
  let b := [Field.title "House washing";
            Field.description "We wash houses inside and outside.";
            Field.category "home_services";
            Field.pricing {| type := Some "fixed"; amount := Some 100%Q;
                             currency := None |};
            Field.serviceArea (Some ["Oslo"])] in
  let req := Sample.request POST [] (Sample.bearer Sample.alice_id)
               Sample.no_query b in
  exists r db' d,
    Router.serve (P := Sample.platform) Sample.rt Sample.db req = Some (r, db')
    /\ services db' = services Sample.db ++ [d]
    /\ Service._id d = newObjectId Sample.rt
    /\ Service.status d = "pending_review".
Proof.
  intros b req.
  destruct (Router.serve (P := Sample.platform) Sample.rt Sample.db req)
    as [[r db']|] eqn:E; [|vm_compute in E; discriminate E].
  destruct (create_writes_only_for_verified_providers (P := Sample.platform)
              Sample.rt Sample.db req r db' eq_refl eq_refl E) as [H _].
  assert (Hc : code r = 201) by (vm_compute in E; now injection E as <- _).
  destruct (H Hc) as [u [d [_ [_ [_ [_ [_ [_ [-> [Hi [_ [_ [Hs _]]]]]]]]]]]]].
  exists r, (with_services (services Sample.db ++ [d]) Sample.db), d.
  split; [reflexivity|]. split; [reflexivity|]. split; [exact Hi|exact Hs].
Defined.

(** ** PUT /:id: what an update can reach *)

Lemma in_with_reset u f :
  In f (Routes.with_reset u) -> In f u \/ f = Field.status "pending_review".
Proof.
  unfold Routes.with_reset. destruct (Routes.significant u); [|now left].
  intro H. apply in_app_or in H. destruct H as [H|[H|[]]]; [now left|now right].
Qed.

Lemma set_all_protected b s :
  (forall f, In f b ->
     isIn (Field.key f) Routes.allowedUpdates = true
     \/ f = Field.status "pending_review") ->
  protected_kept s (Doc.set_all b s)
  /\ (Service.status (Doc.set_all b s) = Service.status s
      \/ Service.status (Doc.set_all b s) = "pending_review").
Proof.
  induction b as [|f b IH] using rev_ind; intro H.
  - unfold protected_kept. simpl. tauto.
  - rewrite set_all_app.
    destruct IH as [IHp IHs];
      [intros g Hg; apply H, in_or_app; now left|].
    assert (Hf : isIn (Field.key f) Routes.allowedUpdates = true
                 \/ f = Field.status "pending_review")
      by (apply H, in_or_app; right; now left).
    unfold protected_kept in *.
    destruct f; simpl;
      try (destruct Hf as [Hf|Hf]; [vm_compute in Hf|]; discriminate Hf);
      try tauto.
    destruct Hf as [Hf|Hf]; [vm_compute in Hf; discriminate Hf|].
    injection Hf as ->. tauto.
Qed.

(** An accepted update changes one stored listing and nothing else: the
    collection keeps its ids in their order, every other listing is as it
    was, and of the updated one the id, the provider, the category, the
    service type, the rating, the verification and feature flags, the view
    count and the creation date are as they were, whatever the body
    carried; the status is the old one or [pending_review], and [updatedAt]
    is the stamp of the update.  The answer carries the document built from
    the stored one. *)
Theorem update_touches_only_allowed_fields {P : Platform}
        (rt : Runtime) (db : Collections) (req : Request) (id : string)
        (r : Response) (db' : Collections) :
  method req = PUT -> path req = [id] ->
  Router.serve rt db req = Some (r, db') -> code r = 200 ->
  exists oid s s',
    castObjectId id = Some oid
    /\ Mongo.lookup (services db) oid = Some s
    /\ json r = service_json (Some "Service updated successfully")
                             (Some (Doc.hydrate s'))
    /\ services db' = Mongo.replace s' (services db)
    /\ users db' = users db
    /\ protected_kept s s'
    /\ (Service.status s' = Service.status s
        \/ Service.status s' = "pending_review")
    /\ Service.updatedAt s' = savedAt rt oid
    /\ ids (services db') = ids (services db)
    /\ forall id', id' <> oid ->
         Mongo.lookup (services db') id' = Mongo.lookup (services db) id'.
Proof.
  intros Hm Hp Hs Hc. rewrite (serve_put_one rt db req id Hm Hp) in Hs.
  injection Hs as Hs.
  destruct (put_200 rt db req id r db' Hs Hc)
    as [u [oid [s [_ [_ [_ [Hcast [Hl [_ [_ [_ [-> ->]]]]]]]]]]]].
  set (U := Routes.with_reset (Routes.filteredUpdates (sanitized (body req)))).
  destruct (set_all_protected U s) as [Hk Hst].
  { intros f Hf. apply in_with_reset in Hf. destruct Hf as [Hf|Hf]; [left|now right].
    unfold Routes.filteredUpdates in Hf. now apply filter_In in Hf. }
  pose proof (lookup_id _ _ _ Hl) as Hid.
  exists oid, s, (updated rt (sanitized (body req)) s).
  split; [exact Hcast|]. split; [exact Hl|]. split; [reflexivity|].
  split; [reflexivity|]. split; [reflexivity|].
  split; [exact Hk|]. split; [exact Hst|].
  split; [unfold updated; simpl; now rewrite Hid|].
  split; [apply replace_ids|].
  intros id' Hne. cbn [services with_services].
  apply lookup_replace_other. unfold updated. simpl. rewrite set_all_id.
  now rewrite Hid.
Qed.

Lemma update_touches_only_allowed_fields_witness :
  (* the owner tries to feature, verify and activate her listing under
     review while changing its subcategory *)
  let b := [Field.subcategory "walls"; Field.status "active";
            Field.isVerified true; Field.isFeatured true;
            Field.featuredUntil 99999; Field.category "other"] in
  let req := Sample.request PUT ["333333333333333333333333"]
               (Sample.bearer Sample.alice_id) Sample.no_query b in
  exists r db' s',
    Router.serve (P := Sample.platform) Sample.rt Sample.db req = Some (r, db')
    /\ Mongo.lookup (services db') "333333333333333333333333" = Some s'
    /\ protected_kept Sample.painting s'
    /\ Service.status s' = "pending_review".
Proof.
  intros b req.
  destruct (Router.serve (P := Sample.platform) Sample.rt Sample.db req)
    as [[r db']|] eqn:E; [|vm_compute in E; discriminate E].
  assert (Hc : code r = 200) by (vm_compute in E; now injection E as <- _).
  destruct (update_touches_only_allowed_fields (P := Sample.platform)
              Sample.rt Sample.db req "333333333333333333333333" r db'
              eq_refl eq_refl E Hc)
    as [oid [s [s' [Hcast [Hl [_ [Hdb [_ [Hk [Hst _]]]]]]]]]].
  vm_compute in Hcast. injection Hcast as <-.
  vm_compute in Hl. injection Hl as <-.
  exists r, db', s'. split; [reflexivity|].
  split.
  { rewrite Hdb.
    destruct Hk as [Hid _]. simpl in Hid.
    rewrite <- Hid. apply lookup_replace. rewrite Hid. vm_compute. discriminate. }
  split; [exact Hk|].
  destruct Hst as [Hst|Hst]; [rewrite Hst; reflexivity|exact Hst].
Defined.

(** ** Sequences of requests *)

Section SequenceFacts.
Context {P : Platform}.

Lemma lookup_app_new l d :
  Mongo.lookup l (Service._id d) = None ->
  Mongo.lookup (l ++ [d]) (Service._id d) = Some d.
Proof.
  induction l as [|x l IH]; simpl.
  - now rewrite String.eqb_refl.
  - destruct (Service._id x =? Service._id d)%string; [discriminate|exact IH].
Qed.

(** What stands behind a 200 of [DELETE /:id]. *)
Lemma delete_200 rt db req id r db' :
  Router.delete_id rt db req [id] = (r, db') -> code r = 200 ->
  exists u oid s,
    protect db req = Next (with_user u req)
    /\ User.userType u = "service_provider"
    /\ castObjectId id = Some oid
    /\ Mongo.lookup (services db) oid = Some s
    /\ Service.provider s = Some (User._id u)
    /\ db' = with_services (Mongo.remove oid (services db)) db.
Proof.
  unfold Router.delete_id. intros H Hc.
  destruct (protect db req) as [r0|req'] eqn:Hp.
  - simpl in H. injection H as <- <-.
    pose proof (protect_answers_401 db req r0 Hp). lia.
  - destruct (protect_passes_user db req req' Hp) as [u ->].
    cbn [and_then] in H. unfold requireServiceProvider in H.
    cbn [user with_user] in H.
    destruct (User.userType u =? "service_provider")%string eqn:Et;
      cbn [negb Router.run] in H; [|injection H as <- <-; discriminate].
    apply String.eqb_eq in Et.
    unfold Routes.delete, Mongo.findById, Model.findByIdAndDelete,
      Routes.reply, Routes.server_error, Router.first_param in H.
    destruct (castObjectId id) as [oid|]; [|injection H as <- <-; discriminate].
    destruct (Mongo.lookup (services db) oid) as [s|] eqn:Hl;
      [|injection H as <- <-; discriminate].
    cbn [option_map] in H. rewrite hydrate_provider in H.
    destruct (Service.provider s) as [owner|] eqn:Ho;
      [|injection H as <- <-; discriminate].
    cbn [user with_user] in H.
    destruct (owner =? User._id u)%string eqn:E; cbn [negb] in H;
      [|injection H as <- <-; discriminate].
    apply String.eqb_eq in E. subst owner. injection H as _ <-.
    exists u, oid, s. now repeat split.
Qed.

End SequenceFacts.

(** A listing that was just created is not public: with a generated id that
    is a well-formed ObjectId, [GET /:id] of it answers 404 "Service not
    available", and no page of [GET /] shows it, whatever the query. *)
Theorem created_listing_is_not_public {P : Platform}
        (rt : Runtime) (db : Collections) (req : Request)
        (r : Response) (db' : Collections) :
  method req = POST -> path req = [] ->
  Router.serve rt db req = Some (r, db') -> code r = 201 ->
  castObjectId (newObjectId rt) = Some (newObjectId rt) ->
  forall (rt2 : Runtime) (get : Request), method get = GET ->
    (path get = [newObjectId rt] ->
       Router.serve rt2 db' get
         = Some (Routes.reply 404 (message_json false "Service not available")
                              db'))
    /\ (path get = [] ->
        forall r2 db2 l pag,
          Router.serve rt2 db' get = Some (r2, db2) ->
          json r2 = services_json l pag ->
          forall s, In s l -> Service._id s <> newObjectId rt).
Proof.
  intros Hm Hp Hs Hc Hcast rt2 get Hg.
  rewrite serve_resolved, Hm, Hp in Hs. injection Hs as Hs.
  destruct (post_201 rt db req r db' Hs Hc)
    as [u [_ [_ [_ [_ [_ [Hfresh [_ ->]]]]]]]].
  set (d := Doc.new (newObjectId rt) (now rt)
                    (Routes.serviceData u (sanitized (body req)))).
  assert (Hid : Service._id d = newObjectId rt) by apply new_id.
  assert (Hst : Service.status d = "pending_review") by apply new_is_pending.
  split.
  - intro Hpath. rewrite (serve_get_one rt2 _ get _ Hg Hpath). f_equal.
    apply getById_inactive with (oid := newObjectId rt) (s := d);
      [exact Hcast| |rewrite Hst; discriminate].
    cbn [services with_services]. rewrite <- Hid.
    apply lookup_app_new. now rewrite Hid.
  - intros Hpath r2 db2 l pag Hs2 Hj s Hin.
    rewrite (serve_get_root rt2 _ get Hg Hpath), get_root_is_list in Hs2.
    injection Hs2 as Hs2.
    destruct (listServices_cases rt2 (with_services (services db ++ [d]) db) get)
      as [[featured [regular [total [l' [Hf [Hr [_ Hl]]]]]]]|Hl];
      rewrite Hl in Hs2; injection Hs2 as <- _; simpl in Hj;
      [|discriminate Hj].
    injection Hj as <- _.
    apply in_map_iff in Hin. destruct Hin as [x [<- Hx]].
    assert (Hx' : exists x0, In x0 (services db ++ [d]) /\ x = Doc.hydrate x0
                             /\ Service.status x = "active").
    { apply in_app_or in Hx. destruct Hx as [Hx|Hx].
      - destruct (featured_sound _ _ _ Hf x Hx) as [[x0 [Hi E]] [_ [Ha _]]].
        now exists x0.
      - destruct (regular_sound _ _ _ Hr x Hx) as [[x0 [Hi E]] [_ [Ha _]]].
        now exists x0. }
    destruct Hx' as [x0 [Hi [-> Ha]]].
    change (Service._id (bump (Doc.hydrate x0)))
      with (Service._id (Doc.hydrate x0)).
    rewrite hydrate_id. rewrite hydrate_status in Ha.
    apply in_app_or in Hi. destruct Hi as [Hi|[<-|[]]].
    + intro E. apply lookup_None_iff in Hfresh. apply Hfresh.
      rewrite <- E. now apply in_map.
    + rewrite Hst in Ha. discriminate Ha.
Qed.

Lemma created_listing_is_not_public_witness :
  let b := [Field.title "House washing";
            Field.description "We wash houses inside and outside.";
            Field.category "home_services";
            Field.pricing {| type := Some "fixed"; amount := Some 100%Q;
                             currency := None |};
            Field.serviceArea (Some ["Oslo"])] in
  let req := Sample.request POST [] (Sample.bearer Sample.alice_id)
               Sample.no_query b in
  exists r db',
    Router.serve (P := Sample.platform) Sample.rt Sample.db req = Some (r, db')
    /\ Router.serve (P := Sample.platform) Sample.rt db'
         (Sample.request GET [newObjectId Sample.rt] None Sample.no_query [])
       = Some (Routes.reply 404 (message_json false "Service not available")
                            db').
Proof.
  intros b req.
  destruct (Router.serve (P := Sample.platform) Sample.rt Sample.db req)
    as [[r db']|] eqn:E; [|vm_compute in E; discriminate E].
  assert (Hc : code r = 201) by (vm_compute in E; now injection E as <- _).
  exists r, db'. split; [reflexivity|].
  apply (created_listing_is_not_public (P := Sample.platform)
           Sample.rt Sample.db req r db' eq_refl eq_refl E Hc eq_refl
           Sample.rt
           (Sample.request GET [newObjectId Sample.rt] None Sample.no_query [])
           eq_refl).
  reflexivity.
Defined.

(** A deleted listing is gone: when the stored ids are distinct, after a
    [DELETE /:id] that answered 200 every [GET /:id] of the same id answers
    404 "Service not found", and so does the same DELETE sent again. *)
Theorem deleted_listing_is_gone {P : Platform}
        (rt : Runtime) (db : Collections) (req : Request) (id : string)
        (r : Response) (db' : Collections) :
  unique_ids (services db) ->
  method req = DELETE -> path req = [id] ->
  Router.serve rt db req = Some (r, db') -> code r = 200 ->
  (forall (rt2 : Runtime) (get : Request),
     method get = GET -> path get = [id] ->
     Router.serve rt2 db' get
       = Some (Routes.reply 404 (message_json false "Service not found") db'))
  /\ (forall rt2 : Runtime,
        Router.serve rt2 db' req
          = Some (Routes.reply 404 (message_json false "Service not found")
                               db')).
Proof.
  intros Hu Hm Hp Hs Hc. rewrite (serve_delete_one rt db req id Hm Hp) in Hs.
  injection Hs as Hs.
  destruct (delete_200 rt db req id r db' Hs Hc)
    as [u [oid [s [Ha [Ht [Hcast [Hl [Ho ->]]]]]]]].
  assert (Hgone : Mongo.lookup (Mongo.remove oid (services db)) oid = None)
    by now apply lookup_remove.
  split.
  - intros rt2 get Hg Hpath. rewrite (serve_get_one rt2 _ get id Hg Hpath).
    f_equal. now apply getById_missing with (oid := oid).
  - intro rt2. rewrite (serve_delete_one rt2 _ req id Hm Hp). f_equal.
    rewrite (delete_id_of_provider rt2
               (with_services (Mongo.remove oid (services db)) db) req id u Ha Ht).
    unfold Routes.delete, Mongo.findById. rewrite Hcast.
    cbn [services with_services]. now rewrite Hgone.
Qed.

Lemma deleted_listing_is_gone_witness :
  let req := Sample.request DELETE ["111111111111111111111111"]
               (Sample.bearer Sample.alice_id) Sample.no_query [] in
  exists r db',
    Router.serve (P := Sample.platform) Sample.rt Sample.db req = Some (r, db')
    /\ code r = 200
    /\ Router.serve (P := Sample.platform) Sample.rt db' req
       = Some (Routes.reply 404 (message_json false "Service not found") db').
Proof.
  intro req.
  destruct (Router.serve (P := Sample.platform) Sample.rt Sample.db req)
    as [[r db']|] eqn:E; [|vm_compute in E; discriminate E].
  assert (Hc : code r = 200) by (vm_compute in E; now injection E as <- _).
  assert (Hu : unique_ids (services Sample.db)).
  { unfold unique_ids. simpl.
    repeat (constructor; [simpl; intuition discriminate|]). constructor. }
  exists r, db'. split; [reflexivity|]. split; [exact Hc|].
  apply (deleted_listing_is_gone (P := Sample.platform) Sample.rt Sample.db req
           "111111111111111111111111" r db' Hu eq_refl eq_refl E Hc).
Defined.

(** An owner who edits the title, the description or the pricing takes the
    listing offline: after the [PUT /:id] that answered 200, [GET /:id] of
    the listing answers 404 "Service not available". *)
Theorem significant_update_takes_listing_offline {P : Platform}
        (rt : Runtime) (db : Collections) (req : Request) (id : string)
        (r : Response) (db' : Collections) :
  method req = PUT -> path req = [id] ->
  Router.serve rt db req = Some (r, db') -> code r = 200 ->
  (Body.title (body req) <> None \/ Body.description (body req) <> None
   \/ Body.pricing (body req) <> None) ->
  forall (rt2 : Runtime) (get : Request),
    method get = GET -> path get = [id] ->
    Router.serve rt2 db' get
      = Some (Routes.reply 404 (message_json false "Service not available")
                           db').
Proof.
  intros Hm Hp Hs Hc Hset rt2 get Hg Hpath.
  rewrite (serve_put_one rt db req id Hm Hp) in Hs. injection Hs as Hs.
  destruct (put_200 rt db req id r db' Hs Hc)
    as [u [oid [s [_ [_ [_ [Hcast [Hl [_ [Hpass [_ [_ ->]]]]]]]]]]]].
  pose proof (significant_of_present (body req) Hpass Hset) as Hsig.
  rewrite (serve_get_one rt2 _ get id Hg Hpath). f_equal.
  apply getById_inactive
    with (oid := oid) (s := updated rt (sanitized (body req)) s);
    [exact Hcast| |].
  - cbn [services with_services].
    assert (Hid : Service._id (updated rt (sanitized (body req)) s) = oid)
      by (unfold updated; simpl; rewrite set_all_id;
          now apply lookup_id with (1 := Hl)).
    pose proof (lookup_replace (services db)
                  (updated rt (sanitized (body req)) s)) as L.
    rewrite Hid in L. apply L. rewrite Hl. discriminate.
  - unfold updated, Routes.with_reset. cbn [Service.status Doc.set_updatedAt].
    rewrite Hsig, set_all_app. simpl. discriminate.
Qed.

Lemma significant_update_takes_listing_offline_witness :
  let req := Sample.request PUT ["111111111111111111111111"]
               (Sample.bearer Sample.alice_id) Sample.no_query
               [Field.title "Deep house cleaning"] in
  exists r db',
    Router.serve (P := Sample.platform) Sample.rt Sample.db req = Some (r, db')
    /\ Router.serve (P := Sample.platform) Sample.rt db'
         (Sample.request GET ["111111111111111111111111"] None
            Sample.no_query [])
       = Some (Routes.reply 404 (message_json false "Service not available")
                            db').
Proof.
  intro req.
  destruct (Router.serve (P := Sample.platform) Sample.rt Sample.db req)
    as [[r db']|] eqn:E; [|vm_compute in E; discriminate E].
  assert (Hc : code r = 200) by (vm_compute in E; now injection E as <- _).
  exists r, db'. split; [reflexivity|].
  apply (significant_update_takes_listing_offline (P := Sample.platform)
           Sample.rt Sample.db req "111111111111111111111111" r db'
           eq_refl eq_refl E Hc);
    [left; discriminate|reflexivity|reflexivity].
Defined.

(** ** The application's error handler *)

(** [requireVerification] reads [req.user.isVerified] outside any [try];
    with no [req.user] that throws and the application's error handler
    answers.  On the routes of the router it always runs behind [protect],
    so no answer of the router comes from the error handler: every 500 is
    one a handler's own [catch] sent. *)
Theorem router_never_reaches_error_handler {P : Platform}
        (rt : Runtime) (db : Collections) (req : Request)
        (r : Response) (db' : Collections) (e : string) :
  Router.serve rt db req = Some (r, db') -> json r <> error_json e.
Proof.
  intro H. destruct (serve_tidy rt db req (r, db') H) as [_ [[_ Hj] _]].
  apply Hj.
Qed.

Lemma router_never_reaches_error_handler_witness :
  (* a provider who is not verified: the gate answers, nothing throws *)
  option_map (fun a : Routes.Answer => json (fst a))
    (Router.serve (P := Sample.platform) Sample.rt Sample.db
       (Sample.request PUT ["111111111111111111111111"]
          (Sample.bearer Sample.dave_id) Sample.no_query []))
  <> Some (error_json "Something went wrong!").
Proof.
  intro H.
  destruct (Router.serve (P := Sample.platform) Sample.rt Sample.db
              (Sample.request PUT ["111111111111111111111111"]
                 (Sample.bearer Sample.dave_id) Sample.no_query []))
    as [[r db']|] eqn:E; [|discriminate H].
  simpl in H. injection H as H.
  exact (router_never_reaches_error_handler (P := Sample.platform)
           Sample.rt Sample.db _ r db' "Something went wrong!" E H).
Defined.
